(* ===== verification/_CoqProject ===== *)
-Q . S2P
Prelude.v
Datetime.v
Collector.v
Backend.v
Reporter.v
Storage.v
App.v
Page.v
Session.v
Race.v
JsonText.v
TextStore.v
TextRace.v
TextPage.v
