(* ===== verification/Prelude.v ===== *)
(** * A verification development for the webai AI IT newsroom

    This is the root file of the development; this comment documents all
    of it.

    ** The program

    The repository is a Streamlit application in three Python files:
    - [src/news_collector.py], class [NewsCollector]: [fetch_news] reads a
      list of RSS feeds with feedparser and keeps the entries of the last
      72 hours as news items; [generate_report] turns the items into one
      prompt and asks the Gemini service for a report, trying a list of
      model identifiers in order, skipping retryable failures (messages
      containing "404", "429" or "quota") and stopping at the first text or
      at the first other failure.
    - [src/github_storage.py], class [GitHubStorage]: [load_json] and
      [save_json] read and write JSON documents in a GitHub repository,
      with a default document when the path does not exist.
    - [src/app.py]: the pages. The newsroom page increments a view counter
      and shows the archive of reports; the admin page adds and deletes
      feeds and runs [fetch_news] then [generate_report] and stores the
      report in the archive under the current minute.

    The components interact by calls only: the app calls the collector and
    the storage; the collector calls two external services, feedparser
    (one call per feed URL) and the Gemini client (one model listing and
    one generation call per attempt).

    ** Files

    - [Prelude] (this file): the Python string operations the code uses
      ([str.lower], [in] on strings, [str.replace], [str.join], slicing),
      Python exceptions as values, the hint database [webai] and the
      shared lemmas on strings and lists.
    - [Datetime]: naive [datetime] values as integers of microseconds,
      [timedelta(hours=72)], and [strftime] with the two formats the code
      uses, through the proleptic Gregorian calendar; the order of the
      printed minutes.
    - [Collector]: [NewsCollector.fetch_news] (news_collector.py lines
      27-55). The feeds are given by a function from URL to the parse
      result (a feed or an exception); the accumulator [all_news] that the
      Python code mutates is threaded through the loops, so an exception
      raised in the middle of a feed keeps the items appended before it.
      The printed error lines are part of the result.
    - [Backend]: the interface of the Gemini client as a type class
      [ModelBackend] over the client's state: [models_list] and
      [generate_content], each returning an exception or a value. The
      instance [Recorder] answers from fixed functions and records every
      call in its state; it is the test double the claims about call order
      are proved with.
    - [Reporter]: [NewsCollector.__init__] and [generate_report] (lines
      10-25 and 57-119): prompt construction, model discovery with its
      filter, the merge of the candidate list with the discovered names,
      the error classification and the nested fallback loop, written
      against [ModelBackend]. The loop returns an [Outcome] and
      [render_outcome] builds the string of each [return].
    - [Storage]: the document-store interface [DocumentStore] (load and
      save) with its laws [DocumentStoreLaws] (a save is read back; other
      paths are untouched), and [GitHubStorage], its instance for
      github_storage.py: the repository as a map from path to JSON value,
      a commit log and an optional API fault with a status other than
      404; [load_json] with the defaults of lines 24-32, [save_json] with
      [update_file] or [create_file].
    - [App]: the handlers of app.py against [DocumentStore]:
      [update_view_count], the add and delete buttons of the feed tab, the
      analysis button [run_analysis] (store, collector and reporter
      composed as the code composes them, with its two clock readings),
      and the admin gate. The Python operations on loaded JSON values
      ([d[k]], [+= 1], [in], [append], [pop], [str], truthiness) are
      written out with the exceptions they raise.
    - [Page]: one whole Streamlit run of app.py as a [Script], a state and
      exception monad (stdpp's [MRet]/[MBind]) over a [World] made of the
      store, the model client and the page elements drawn so far, ended
      early by [st.stop()], [st.rerun()] or an uncaught exception. The
      run is the script: [app_init] (lines 11-16, with
      [GitHubStorage.__init__] of github_storage.py lines 8-15), the menu,
      [newsroom] (lines 30-46, with [sorted(..., reverse=True)] as stdpp's
      merge sort on the byte order of strings) and [dashboard] (lines
      49-110) with its three tabs, which Streamlit runs one after the
      other in the same run. The user's interaction is a [Request]: the
      widget values and the one button pressed.
    - [Session]: the process around the runs. [get_storage] and
      [get_collector] (github_storage.py lines 59-61, news_collector.py
      lines 122-124) with [@st.cache_resource] as a [Cache] of two slots
      that lives across runs: an object is kept once a constructor
      returns and a constructor that raises is called again on the next
      run ([init_cached], app.py lines 11-13). An [Interaction] is a run
      of [Page.app_script] on a blank page followed, when the run reaches
      [st.rerun()] (lines 72 and 83), by the run of the same widgets with
      no button pressed; a [session] is a sequence of interactions on one
      process, from one user or several.
    - [Race]: sessions served at the same time. A handler is a [Prog],
      the sequence of its storage calls with the Python code between
      them; [run_prog] runs it alone (it is the handler of [App]) and
      [interleave] runs two of them on the shared store under a schedule
      of their calls.
    - [JsonText]: the text the store holds. [json_dumps] is
      [json.dumps(data, indent=2, ensure_ascii=False)] (line 38 of
      github_storage.py; the encoder of Python's json module on the values
      of [Json]), [utf8_valid] the strict [bytes.decode('utf-8')] and
      [json_loads] the C scanner of [json.loads] (line 21): whitespace,
      literals, integers, strings with their escapes and surrogate pairs,
      arrays, objects built as [dict(pairs)], the BOM check and "Extra
      data", each error a [JSONDecodeError] value.
    - [TextStore]: github_storage.py lines 17-56 over a repository of
      text files ([TextRepo]): [get_contents] with the blob sha,
      [update_file] given a sha (409 when it is stale), [create_file] (422
      when the file exists), and [load_json]/[save_json] as the code
      writes them; [TextStorage] is a second instance of [DocumentStore].
    - [TextRace]: a run as a [Thread] on the text repository whose
      [save_json] takes its GitHub calls one at a time ([get_contents],
      then [update_file] with the sha read, or [create_file] after a
      404), interleaved between two sessions as in [Race].
    - [TextPage]: whole runs of [Page.app_script] on the text repository
      related to runs on the document repository: [world_rel] relates two
      worlds, [script_sim] two scripts, and the page scripts are related
      to themselves one by one, from [newsroom] to [app_script].

    The interfaces between the parts are type classes: [App], [Page] and
    the collector are written against [DocumentStore] and [ModelBackend],
    their theorems assume only [DocumentStoreLaws], and [GitHubStorage]
    and [Recorder] are the instances the witnesses run.

    ** Theorems (the claims C1-C35, in the order of PROJECT.json)

    - Reporter (C1-C8): the nested loop over models and the two
      spellings of each identifier refines a flat scan over the list of
      attempts, for every client (C1); with the recording client, the
      three outcomes (first text, first fatal error, exhaustion with the
      last raised error) with the exact sequence of calls (C2-C4); the
      calls are always a prefix of the attempts, at most two per model
      (C5); the merged trial list keeps the candidates as a prefix, has no
      duplicates and holds exactly the candidates and the cleaned
      discovered names (C6); discovery drops everything when one model
      has no method list (C7); the constructor (C8).
    - Collector (C9-C13): a failing feed adds nothing and disturbs no
      other (C9); a well-formed feed contributes exactly its dated
      entries inside the window, in order (C10); every item comes from a
      dated entry inside the window (C11); an entry without a title ends
      its feed (C12); the window is shifted by the zone's UTC offset
      (C13).
    - App (C14-C18): the view counter (C14); the feed list handlers
      (C15) and the invariant that the list holds distinct non-empty URLs
      (C16); the archive write of an analysis run (C17); two runs whose
      second clock readings fall in the same minute write under one key,
      so the second report replaces the first (C18, through
      [Datetime.strftime_ymd_hm_same_minute]).
    - Page (C19, C20, C22-C24): with no configured password, a run of the
      admin page reaches the dashboard tabs exactly when the password
      typed is the ["admin123"] of the code (C19, through the lemmas that
      every script only appends to the page, [appends]); the newsroom
      shows the report of the greatest key first (C20), which by C21 is
      the report of the latest minute; the store a whole run leaves is
      the abstract effect of the request, as computed by the handlers of
      [App] (C22); a failed initialisation, a wrong password or a failing
      counter write stops the run and changes nothing (C23); every run
      keeps the store well typed (C24).
    - Datetime (C21): the archive keys printed by [strftime_ymd_hm]
      compare as strings exactly as the minutes they name, for years 1000
      to 9999: the calendar date of a day number orders as the day number
      (a proof through the steps of [civil_from_days] with [lia]), and
      fixed-width digit strings order as their values (the digit strings
      of [z_to_str] and [pad2] are checked by computation over their
      finite ranges).
    - Session (C25-C28): every interaction ends after at most two runs
      (C25); the store it leaves is the effect of one run of its request,
      so the rerun after an add or a delete repeats nothing and counts no
      visit (C26); the page it leaves never shows the two confirmations
      drawn just before [st.rerun()] (C27); once a run has built the
      collector, both objects stay cached and are used whatever the later
      configuration (C28).
    - Race (C29, C30): two newsroom visits whose loads come before their
      saves add one to the counter where the serial order adds two (C29);
      the same schedule of two adds of different feeds loses the first
      URL, though both runs succeed (C30).
    - JsonText (C31): [json.loads] of [json.dumps] gives back every
      document with distinct keys and valid UTF-8 strings. The proof goes
      through the scanner at every nesting level ([scan_value_dumps], by
      the nested induction [Json_nested_ind]): strings by the escape of
      each of the 256 bytes, integers through the decimal library of the
      Standard Library ([Pos.to_uint] writes no leading zero), arrays and
      objects by the loops over their items, [dict(pairs)] by the
      distinct keys.
    - TextStore (C32, C33): the text repository refines the document
      repository of [Storage] under [load_json] and [save_json] (C32);
      a statistics file that [json.loads] rejects is not a missing file:
      [load_json] raises, and every newsroom visit stops with the error
      (C33, through [Page.app_run_newsroom_raises]).
    - TextRace (C34): the sha check of [update_file] does not see the
      lost update of C29, and turns the one schedule it does see into a
      [GithubException] 409 on a visitor's page.
    - TextPage (C35): a whole run of app.py on any request, on the text
      repository, shows the same page, ends the same way and leaves the
      two repositories related as the same run on the document
      repository does, when the typed feed URL and the reports of the
      model client are valid UTF-8. The proof is a relational program
      logic over [Page.Script] ([script_sim], one rule per primitive and
      a bind rule whose continuation learns what the head returned), the
      refinement lemmas of [TextStore] for each [load] and [save] and for
      the view counter as a [Race.Prog], and the lemmas that every
      document the app writes ([d[k] = v], [append], [pop] of loaded
      documents, the default documents) is well formed.

    Every theorem with hypotheses has a witness in the [Scenarios] module
    of its file that runs the definitions on a concrete input.

    ** Bounds and fuel

    Every loop of the code iterates over a finite list and is modelled by
    structural recursion on that list, so every operation is total. Two
    fuels: the number of runs of an interaction in [Session.interact] is
    two, and C25 proves two always suffice, since the run [st.rerun()]
    starts has no button pressed and no other path of the script reruns;
    [JsonText.json_loads] scans with the fuel [S (length s)]: every value
    of a text takes at least one of its bytes ([dumps_length]), so the
    fuel never runs out on a text [json.dumps] wrote (C31). Integers are
    Python integers, unbounded: [Z]. Times are integers of microseconds;
    the local zone has a fixed UTC offset.

    ** Not modelled

    Streamlit's rendering beyond the sequence of elements (layout,
    columns, the spinner, markdown), the widget values a user sets
    between runs (each interaction carries its own; only the rerun's
    widgets are derived, from the run that asks for it), the clearing of
    the resource cache, the network, the GitHub API beyond one fault flag
    and the answers of its three calls (in the document-level [Storage]
    and [Race] a [save_json] is one call; [TextStore] and [TextRace]
    have its calls and the sha check), the SHA-1 of a blob (the model
    names a blob by its content), feedparser (its result is an input),
    the text of the model's answer (an input), daylight saving time, the
    [OverflowError] or [ValueError] that [time.mktime] and
    [datetime.fromtimestamp] raise for dates out of their range (both are
    total here; such an entry would end its feed at line 52),
    Unicode case mapping beyond ASCII in [str.lower] (the three tokens
    the classifier looks for are ASCII, and UTF-8 bytes of other
    characters are left unchanged), the escapes of [repr]. Of Python's
    json module: floats (the documents have none; [json_loads] returns
    an exception of its own for a float), the positions in error
    messages, the recursion limit, and the limit of 4300 digits on the
    conversion between [int] and [str]. Strings are byte strings: a
    Python [str] is always valid Unicode, so where a string the user
    types or the model returns reaches a document (C35) its validity as
    UTF-8 is a hypothesis rather than a fact of the model.

    ** Plan of the next steps

    The sha check for the add and delete buttons, whose [save_json] has
    the same window between its [get_contents] and its [update_file] as
    the view counter of C34. *)

From Stdlib Require Export String Ascii ZArith Lia.
From stdpp Require Export base list sets strings.

Declare Scope py_scope.
Delimit Scope py_scope with py.

Local Open Scope string_scope.

(** ** Python exceptions *)

(** An exception value: its class name and its [str(e)]. *)
Record PyExc := mkExc { exc_type : string; exc_msg : string }.

(** [f"{e}"] on an exception is [str(e)]. *)
Definition py_str_exc (e : PyExc) : string := exc_msg e.

(** ** Python string operations *)

(** The newline character of Python's ["\n"]. *)
Definition nl : string := String (ascii_of_nat 10) EmptyString.

(** [str.lower] on one byte: ASCII upper case letters are shifted. *)
Definition py_lower_char (c : ascii) : ascii :=
  let n := nat_of_ascii c in
  if Nat.leb 65 n && Nat.leb n 90 then ascii_of_nat (n + 32) else c.

Fixpoint py_lower (s : string) : string :=
  match s with
  | EmptyString => EmptyString
  | String c s' => String (py_lower_char c) (py_lower s')
  end.

(** [needle in hay] on strings: a substring test. *)
Fixpoint py_contains (needle hay : string) : bool :=
  String.prefix needle hay ||
  match hay with
  | EmptyString => false
  | String _ hay' => py_contains needle hay'
  end.

Notation "n '∈ₛ' h" := (py_contains n h) (at level 70, no associativity) : py_scope.
Open Scope py_scope.

(** [s.replace(old, new)]: every occurrence of [old], from left to right,
    without overlap. [skip] counts the bytes of a match still to drop. The
    code calls it with a non-empty [old] only. *)
Fixpoint replace_go (old new : string) (skip : nat) (s : string) : string :=
  match s with
  | EmptyString => EmptyString
  | String c s' =>
      match skip with
      | S k => replace_go old new k s'
      | O =>
          if String.prefix old s
          then new ++ replace_go old new (String.length old - 1) s'
          else String c (replace_go old new 0 s')
      end
  end.

Definition py_replace (old new s : string) : string := replace_go old new 0 s.

(** [sep.join(xs)]. *)
Fixpoint py_join (sep : string) (xs : list string) : string :=
  match xs with
  | [] => EmptyString
  | [x] => x
  | x :: xs' => x ++ sep ++ py_join sep xs'
  end.

(** [x in xs] on a list of strings. *)
Definition py_in (x : string) (xs : list string) : bool := bool_decide (x ∈ xs).

(** [f"{x}"] of a value that may be [None]. *)
Definition py_str_opt {A} (f : A -> string) (o : option A) : string :=
  match o with Some a => f a | None => "None" end.

(** ** Shared lemmas *)

Create HintDb webai discriminated.
Create Rewrite HintDb webai_rw.

Lemma prefix_app_r (a b : string) : String.prefix a (a ++ b) = true.
Proof. induction a as [|c a IH]; simpl; [destruct b; done|]. by destruct (ascii_dec c c). Qed.

Lemma py_contains_app_r (n a b : string) :
  py_contains n b = true -> py_contains n (a ++ b) = true.
Proof. intros H. induction a as [|c a IH]; simpl; [done|]. by rewrite IH, orb_true_r. Qed.

Lemma py_contains_of_prefix (n h : string) :
  String.prefix n h = true -> py_contains n h = true.
Proof. intros H. destruct h; cbn [py_contains]; by rewrite H. Qed.

Lemma py_contains_prefix (n b : string) : py_contains n (n ++ b) = true.
Proof. apply py_contains_of_prefix, prefix_app_r. Qed.

Lemma py_contains_mid (n a b : string) : py_contains n (a ++ n ++ b) = true.
Proof. apply py_contains_app_r, py_contains_prefix. Qed.

(** stdpp makes [String.append] opaque to [simpl]; this is its defining
    equation on a non-empty left argument. *)
Lemma str_app_cons (c : ascii) (a b : string) : String c a ++ b = String c (a ++ b).
Proof. reflexivity. Qed.

Lemma str_app_assoc (a b c : string) : (a ++ b) ++ c = a ++ (b ++ c).
Proof. induction a as [|x a IH]; [done|]. by rewrite !str_app_cons, IH. Qed.

Lemma str_app_nil_r (a : string) : a ++ "" = a.
Proof. induction a as [|x a IH]; [done|]. by rewrite str_app_cons, IH. Qed.

Lemma prefix_app_l (n a b : string) :
  String.prefix n a = true -> String.prefix n (a ++ b) = true.
Proof.
  revert a. induction n as [|c n IH]; intros a H; [by destruct (a ++ b)|].
  destruct a as [|c' a]; [discriminate|]. rewrite str_app_cons. cbn in *.
  destruct (ascii_dec c c'); [by apply IH|done].
Qed.

Lemma py_contains_app_l (n a b : string) :
  py_contains n a = true -> py_contains n (a ++ b) = true.
Proof.
  induction a as [|c a IH]; intros H.
  - destruct n; [by destruct b|]. discriminate.
  - rewrite str_app_cons. cbn [py_contains] in *. apply orb_true_iff in H as [H|H].
    + pose proof (prefix_app_l n (String c a) b H) as Hp. rewrite str_app_cons in Hp. by rewrite Hp.
    + by rewrite IH, orb_true_r.
Qed.

(** A substring of a part is a substring of the whole. *)
Lemma py_contains_within (n s a b : string) :
  py_contains n s = true -> py_contains n (a ++ s ++ b) = true.
Proof. intros H. by apply py_contains_app_r, py_contains_app_l. Qed.

Lemma py_in_spec (x : string) (xs : list string) : py_in x xs = true <-> x ∈ xs.
Proof. apply bool_decide_eq_true. Qed.

Lemma py_in_false (x : string) (xs : list string) : py_in x xs = false <-> x ∉ xs.
Proof. apply bool_decide_eq_false. Qed.

Lemma NoDup_snoc {A} (l : list A) (x : A) : NoDup l -> x ∉ l -> NoDup (l ++ [x]).
Proof. intros Hl Hx. apply NoDup_app; repeat split; [done| |by apply NoDup_singleton]. set_solver. Qed.

#[export] Hint Resolve py_contains_mid py_contains_prefix py_contains_app_r py_contains_app_l
  py_contains_within NoDup_snoc : webai.
#[export] Hint Rewrite str_app_assoc str_app_nil_r : webai_rw.
#[export] Hint Rewrite py_in_spec py_in_false : webai_rw.

(** Case analysis on the [py_in] tests and the pairs returned by the
    state-passing definitions. *)
Ltac py_case :=
  repeat match goal with
  | |- context [py_in ?x ?l] => destruct (py_in x l) eqn:?
  | H : context [py_in ?x ?l] |- _ => destruct (py_in x l) eqn:?
  | |- context [let '(_, _) := ?p in _] => destruct p eqn:?
  end.

(** A goal [py_contains n (u1 ++ u2 ++ ...)] where one [ui] is the string
    of hypothesis [H]. *)
Ltac py_contains_find H :=
  repeat first [ exact H | apply py_contains_app_l; exact H | apply py_contains_app_r ].

(** ** Code that may raise: a small error monad *)

Definition py_bind {A B} (c : PyExc + A) (k : A -> PyExc + B) : PyExc + B :=
  match c with inl e => inl e | inr a => k a end.

Notation "'let!' x ':=' c 'in' k" := (py_bind c (fun x => k))
  (at level 200, x name, c at level 100, k at level 200) : py_scope.

Lemma py_bind_inr {A B} (a : A) (k : A -> PyExc + B) : py_bind (inr a) k = k a.
Proof. reflexivity. Qed.

Lemma py_bind_inl {A B} (e : PyExc) (k : A -> PyExc + B) : py_bind (inl e) k = inl e.
Proof. reflexivity. Qed.

#[export] Hint Rewrite @py_bind_inr @py_bind_inl : webai_rw.

(** Invert a successful [let!] chain in hypothesis [H], naming the
    result of each step. *)
Ltac py_inv H :=
  repeat match type of H with
  | py_bind ?c _ = _ =>
      let E := fresh "E" in destruct c eqn:E; cbn [py_bind] in H; [discriminate H|]
  end.
