(* ===== verification/Datetime.v ===== *)
(** * Naive datetimes, [time.mktime], [datetime.fromtimestamp], [strftime]

    The collector turns feedparser's [published_parsed] (a [struct_time]
    in UTC) into a naive local [datetime] with
    [datetime.fromtimestamp(time.mktime(st))] (news_collector.py lines 39
    and 41), compares it with [datetime.now()] (line 30) against
    [timedelta(hours=72)] (line 31) and prints it with
    [strftime("%Y-%m-%d %H:%M:%S")] (line 50); app.py prints the run time
    with ["%Y-%m-%d %H:%M"] (line 98).

    A naive datetime is the number of microseconds from the naive
    1970-01-01 00:00:00, in [Z]; a timedelta is a number of microseconds.
    The local zone has a fixed offset [utc_offset] from UTC, in seconds
    (daylight saving time is not modelled). The calendar is the proleptic
    Gregorian calendar of [datetime], through the day-number conversions
    [days_from_civil] and [civil_from_days].

    The last part proves that the keys app.py prints with
    [strftime("%Y-%m-%d %H:%M")] compare as strings as the minutes they
    name, for years 1000 to 9999, so that [sorted] on the archive keys is
    the order in time. *)

From S2P Require Import Prelude.
From Stdlib Require Import DecimalString.

Local Open Scope Z_scope.

(** [time.struct_time]: the fields the conversion reads. *)
Record StructTime := mkStructTime {
  tm_year : Z; tm_mon : Z; tm_mday : Z; tm_hour : Z; tm_min : Z; tm_sec : Z
}.

Definition us_per_sec : Z := 1000000.

(** [timedelta(hours=h)]. *)
Definition timedelta_hours (h : Z) : Z := h * 3600 * us_per_sec.

(** Days from 1970-01-01 of a civil date. *)
Definition days_from_civil (y m d : Z) : Z :=
  let y' := if m <=? 2 then y - 1 else y in
  let era := y' / 400 in
  let yoe := y' - era * 400 in
  let doy := (153 * (if 2 <? m then m - 3 else m + 9) + 2) / 5 + d - 1 in
  let doe := yoe * 365 + yoe / 4 - yoe / 100 + doy in
  era * 146097 + doe - 719468.

(** The civil date of a day number: (year, month, day). *)
Definition civil_from_days (z : Z) : Z * Z * Z :=
  let z' := z + 719468 in
  let era := z' / 146097 in
  let doe := z' - era * 146097 in
  let yoe := (doe - doe / 1460 + doe / 36524 - doe / 146096) / 365 in
  let y := yoe + era * 400 in
  let doy := doe - (365 * yoe + yoe / 4 - yoe / 100) in
  let mp := (5 * doy + 2) / 153 in
  let d := doy - (153 * mp + 2) / 5 + 1 in
  let m := if mp <? 10 then mp + 3 else mp - 9 in
  (if m <=? 2 then y + 1 else y, m, d).

(** [calendar.timegm]: the seconds from the epoch of a UTC [struct_time]. *)
Definition timegm (st : StructTime) : Z :=
  days_from_civil (tm_year st) (tm_mon st) (tm_mday st) * 86400 +
  tm_hour st * 3600 + tm_min st * 60 + tm_sec st.

Section Zone.
Variable utc_offset : Z.

(** [time.mktime(st)]: [st] read as local time, in seconds from the
    epoch. *)
Definition mktime (st : StructTime) : Z := timegm st - utc_offset.

(** [datetime.fromtimestamp(ts)]: the naive local datetime of [ts]. *)
Definition fromtimestamp (ts : Z) : Z := (ts + utc_offset) * us_per_sec.

(** [datetime.now()] when the UTC clock reads [utc_now_us]. *)
Definition now_local (utc_now_us : Z) : Z := utc_now_us + utc_offset * us_per_sec.

End Zone.

(** ** [strftime] *)

(** The decimal digits of an integer. *)
Definition z_to_str (n : Z) : string := NilEmpty.string_of_int (Z.to_int n).

(** [%m], [%d], [%H], [%M], [%S]: two digits, zero-padded. *)
Definition pad2 (n : Z) : string :=
  if n <? 10 then ("0" ++ z_to_str n)%string else z_to_str n.

(** The fields of a naive datetime: date, hour, minute, second. *)
Definition split_datetime (t : Z) : Z * Z * Z * Z * Z * Z :=
  let secs := t / us_per_sec in
  let days := secs / 86400 in
  let sod := secs mod 86400 in
  let '(y, m, d) := civil_from_days days in
  (y, m, d, sod / 3600, (sod mod 3600) / 60, sod mod 60).

(** [strftime("%Y-%m-%d %H:%M:%S")]; [%Y] is the decimal year, as glibc
    prints it. *)
Definition strftime_ymd_hms (t : Z) : string :=
  let '(y, m, d, hh, mm, ss) := split_datetime t in
  (z_to_str y ++ "-" ++ pad2 m ++ "-" ++ pad2 d ++ " " ++
   pad2 hh ++ ":" ++ pad2 mm ++ ":" ++ pad2 ss)%string.

(** [strftime("%Y-%m-%d %H:%M")]. *)
Definition strftime_ymd_hm (t : Z) : string :=
  let '(y, m, d, hh, mm, _) := split_datetime t in
  (z_to_str y ++ "-" ++ pad2 m ++ "-" ++ pad2 d ++ " " ++ pad2 hh ++ ":" ++ pad2 mm)%string.

(** ** Definitions for the order of the printed keys *)

(** The steps of [civil_from_days] within one 400-year era: the year of
    the era, the day of the year (from March 1st), the month from March
    and the day of the month. *)
Definition yoe_of (doe : Z) : Z := (doe - doe / 1460 + doe / 36524 - doe / 146096) / 365.
Definition doy_of (doe : Z) : Z := doe - (365 * yoe_of doe + yoe_of doe / 4 - yoe_of doe / 100).
Definition mp_of (doy : Z) : Z := (5 * doy + 2) / 153.
Definition day_of (doy : Z) : Z := doy - (153 * mp_of doy + 2) / 5 + 1.
Definition ymd_of_comp (y mp d : Z) : Z * Z * Z :=
  let m := if mp <? 10 then mp + 3 else mp - 9 in (if m <=? 2 then y + 1 else y, m, d).

(** Lexicographic comparison. *)
Definition cmp_lex (c1 c2 : comparison) : comparison := match c1 with Eq => c2 | c => c end.
Definition cmp3 (a b : Z * Z * Z) : comparison :=
  cmp_lex (Z.compare a.1.1 b.1.1) (cmp_lex (Z.compare a.1.2 b.1.2) (Z.compare a.2 b.2)).

(** Four, three and two decimal digits. *)
Definition digit (n : Z) : ascii := ascii_of_nat (Z.to_nat (48 + n)).
Definition digits2 (n : Z) : string := String (digit (n / 10)) (String (digit (n mod 10)) EmptyString).
Definition digits3 (n : Z) : string := String (digit (n / 100)) (digits2 (n mod 100)).
Definition digits4 (n : Z) : string := String (digit (n / 1000)) (digits3 (n mod 1000)).

(** [f] holds on [lo], [lo + 1], ..., [lo + n - 1]: a finite check that
    [vm_compute] decides. *)
Fixpoint all_from (f : Z -> bool) (lo : Z) (n : nat) : bool :=
  match n with O => true | S n => f lo && all_from f (lo + 1) n end.

(** The range of four-digit years, in naive microseconds. *)
Definition datetime_min : Z := days_from_civil 1000 1 1 * 86400 * us_per_sec.
Definition datetime_max : Z := (days_from_civil 9999 12 31 + 1) * 86400 * us_per_sec - 1.

(** ** Lemmas *)

(** The naive datetime of a UTC [struct_time] read through [mktime] and
    [fromtimestamp] in one fixed zone is its UTC wall clock: the zone
    cancels out. *)
Lemma fromtimestamp_mktime (off : Z) (st : StructTime) :
  fromtimestamp off (mktime off st) = timegm st * us_per_sec.
Proof. unfold fromtimestamp, mktime. f_equal. lia. Qed.

(** ** The order of the printed keys: lemmas

    [sorted] compares the archive keys as strings; the lemmas below show
    that the keys printed by [strftime_ymd_hm] compare as the minutes
    they name, through the calendar: the date of a day number orders as
    the day number ([civil_from_days_compare]), and fixed-width digit
    strings order as their values. *)

Ltac div_facts x k := pose proof (Z.div_mod x k ltac:(lia)); pose proof (Z.mod_pos_bound x k ltac:(lia)).

Lemma yoe_doy_bounds (doe : Z) : 0 <= doe <= 146096 ->
  0 <= yoe_of doe <= 399 /\ 0 <= doy_of doe <= 365.
Proof.
  intros Hd. unfold doy_of, yoe_of.
  div_facts doe 1460. div_facts doe 36524. div_facts doe 146096.
  set (N := doe - doe / 1460 + doe / 36524 - doe / 146096) in *.
  div_facts N 365. set (yoe := N / 365) in *. div_facts yoe 4. div_facts yoe 100. lia.
Qed.

Lemma yoe_mono (a b : Z) : 0 <= a <= b -> b <= 146096 -> yoe_of a <= yoe_of b.
Proof.
  intros. unfold yoe_of. apply Z.div_le_mono; [lia|].
  div_facts a 1460. div_facts a 36524. div_facts a 146096.
  div_facts b 1460. div_facts b 36524. div_facts b 146096. lia.
Qed.

Lemma mp_day_bounds (doy : Z) : 0 <= doy <= 365 -> 0 <= mp_of doy <= 11 /\ 1 <= day_of doy <= 31.
Proof.
  intros. unfold day_of, mp_of. div_facts (5 * doy + 2) 153.
  set (mp := (5 * doy + 2) / 153) in *. div_facts (153 * mp + 2) 5. lia.
Qed.

Lemma mp_day_mono (a b : Z) : 0 <= a < b -> b <= 365 ->
  mp_of a < mp_of b \/ (mp_of a = mp_of b /\ day_of a < day_of b).
Proof.
  intros. unfold day_of, mp_of.
  assert ((5 * a + 2) / 153 <= (5 * b + 2) / 153) by (apply Z.div_le_mono; lia).
  destruct (Z.eq_dec ((5 * a + 2) / 153) ((5 * b + 2) / 153)) as [E|]; [right|left; lia].
  rewrite E. split; [done|]. lia.
Qed.

Lemma civil_from_days_comp (z : Z) :
  civil_from_days z =
  ymd_of_comp (yoe_of ((z + 719468) mod 146097) + (z + 719468) / 146097 * 400)
              (mp_of (doy_of ((z + 719468) mod 146097))) (day_of (doy_of ((z + 719468) mod 146097))).
Proof.
  unfold civil_from_days, ymd_of_comp, day_of, mp_of, doy_of, yoe_of.
  rewrite (Zmod_eq_full (z + 719468) 146097) by lia. reflexivity.
Qed.

Ltac cmp_cases :=
  repeat (match goal with
  | |- context [?a <? ?b] => destruct (Z.ltb_spec a b)
  | |- context [?a <=? ?b] => destruct (Z.leb_spec a b)
  | |- context [Z.compare ?a ?b] => destruct (Z.compare_spec a b)
  end; cbn [fst snd]); try lia; try done.

Lemma ymd_of_comp_lt (y1 mp1 d1 y2 mp2 d2 : Z) :
  0 <= mp1 <= 11 -> 0 <= mp2 <= 11 ->
  y1 < y2 \/ (y1 = y2 /\ (mp1 < mp2 \/ (mp1 = mp2 /\ d1 < d2))) ->
  cmp3 (ymd_of_comp y1 mp1 d1) (ymd_of_comp y2 mp2 d2) = Lt.
Proof. intros. unfold ymd_of_comp, cmp3, cmp_lex. cbn zeta. cbn [fst snd]. cmp_cases. Qed.

Lemma civil_from_days_lt (z1 z2 : Z) : z1 < z2 -> cmp3 (civil_from_days z1) (civil_from_days z2) = Lt.
Proof.
  intros Hlt. rewrite !civil_from_days_comp.
  set (a := z1 + 719468) in *. set (b := z2 + 719468) in *.
  div_facts a 146097. div_facts b 146097.
  set (ea := a / 146097) in *. set (da := a mod 146097) in *.
  set (eb := b / 146097) in *. set (db := b mod 146097) in *.
  destruct (yoe_doy_bounds da) as [Ya Da]; [lia|]. destruct (yoe_doy_bounds db) as [Yb Db]; [lia|].
  destruct (mp_day_bounds (doy_of da)) as [Ma _]; [lia|]. destruct (mp_day_bounds (doy_of db)) as [Mb _]; [lia|].
  apply ymd_of_comp_lt; [lia|lia|].
  assert (ea <= eb) by (apply Z.div_le_mono; lia).
  destruct (Z.eq_dec ea eb) as [E|]; [|left; lia].
  assert (da < db) by lia. pose proof (yoe_mono da db ltac:(lia) ltac:(lia)).
  destruct (Z.eq_dec (yoe_of da) (yoe_of db)) as [Ey|]; [|left; lia].
  right. split; [lia|].
  assert (doy_of da < doy_of db) by (unfold doy_of; rewrite Ey; lia).
  destruct (mp_day_mono (doy_of da) (doy_of db)); lia.
Qed.

Lemma cmp_lex_opp (c1 c2 : comparison) : CompOpp (cmp_lex c1 c2) = cmp_lex (CompOpp c1) (CompOpp c2).
Proof. by destruct c1. Qed.

Lemma cmp3_antisym (a b : Z * Z * Z) : cmp3 a b = CompOpp (cmp3 b a).
Proof. unfold cmp3. rewrite !cmp_lex_opp, <- !Z.compare_antisym. done. Qed.

Lemma cmp3_refl (a : Z * Z * Z) : cmp3 a a = Eq.
Proof. unfold cmp3. by rewrite !Z.compare_refl. Qed.

(** The calendar date of a day number orders as the day number. *)
Lemma civil_from_days_compare (z1 z2 : Z) : cmp3 (civil_from_days z1) (civil_from_days z2) = Z.compare z1 z2.
Proof.
  destruct (Z.compare_spec z1 z2) as [->|Hlt|Hgt]; [apply cmp3_refl|by apply civil_from_days_lt|].
  by rewrite cmp3_antisym, civil_from_days_lt.
Qed.

Lemma Z_compare_lex (q1 r1 q2 r2 k : Z) :
  0 <= r1 < k -> 0 <= r2 < k -> Z.compare (q1 * k + r1) (q2 * k + r2) = cmp_lex (Z.compare q1 q2) (Z.compare r1 r2).
Proof.
  intros. unfold cmp_lex. destruct (Z.compare_spec q1 q2) as [->|Hq|Hq].
  - destruct (Z.compare_spec r1 r2); cmp_cases.
  - apply Z.compare_lt_iff. nia.
  - apply Z.compare_gt_iff. nia.
Qed.

Lemma cmp_lex_eq_r (c : comparison) : cmp_lex c Eq = c.
Proof. by destruct c. Qed.

Lemma cmp_lex_assoc (a b c : comparison) : cmp_lex (cmp_lex a b) c = cmp_lex a (cmp_lex b c).
Proof. by destruct a. Qed.

(** ** The printed digits *)

Lemma all_from_spec (f : Z -> bool) (lo : Z) (n : nat) (x : Z) :
  all_from f lo n = true -> lo <= x < lo + Z.of_nat n -> f x = true.
Proof.
  revert lo. induction n as [|n IH]; intros lo Hall Hx; [lia|].
  cbn [all_from] in Hall. apply andb_prop in Hall as [Hf Hrest].
  destruct (Z.eq_dec x lo) as [->|]; [done|]. apply (IH (lo + 1)); [done|lia].
Qed.

Lemma z_to_str_digits4 (n : Z) : 1000 <= n <= 9999 -> z_to_str n = digits4 n.
Proof.
  intros Hn. apply String.eqb_eq.
  apply (all_from_spec (fun n => String.eqb (z_to_str n) (digits4 n)) 1000 (Z.to_nat 9000)); [vm_compute; reflexivity|lia].
Qed.

Lemma pad2_digits2 (n : Z) : 0 <= n <= 99 -> pad2 n = digits2 n.
Proof.
  intros Hn. apply String.eqb_eq.
  apply (all_from_spec (fun n => String.eqb (pad2 n) (digits2 n)) 0 (Z.to_nat 100)); [vm_compute; reflexivity|lia].
Qed.

Lemma digit_compare (a b : Z) : 0 <= a <= 9 -> 0 <= b <= 9 -> Ascii.compare (digit a) (digit b) = Z.compare a b.
Proof.
  intros Ha Hb.
  assert (Hall : all_from (fun a => all_from (fun b =>
            bool_decide (Ascii.compare (digit a) (digit b) = Z.compare a b)) 0 (Z.to_nat 10)) 0 (Z.to_nat 10) = true)
    by (vm_compute; reflexivity).
  pose proof (all_from_spec _ 0 (Z.to_nat 10) a Hall ltac:(lia)) as Hb'. cbv beta in Hb'.
  pose proof (all_from_spec _ 0 (Z.to_nat 10) b Hb' ltac:(lia)) as H. cbv beta in H.
  exact (bool_decide_eq_true_1 _ H).
Qed.

Lemma string_compare_refl (s : string) : String.compare s s = Eq.
Proof. induction s as [|c s IH]; [done|]. cbn. unfold Ascii.compare. by rewrite N.compare_refl. Qed.

Lemma string_compare_app (s1 s2 r1 r2 : string) :
  String.length s1 = String.length s2 ->
  String.compare (s1 ++ r1) (s2 ++ r2) = cmp_lex (String.compare s1 s2) (String.compare r1 r2).
Proof.
  revert s2. induction s1 as [|c1 s1 IH]; intros [|c2 s2] Hlen; try discriminate; [done|].
  rewrite !str_app_cons. cbn. destruct (Ascii.compare c1 c2); [|done|done]. apply IH. cbn in Hlen. lia.
Qed.

Lemma digits2_compare (a b : Z) : 0 <= a <= 99 -> 0 <= b <= 99 ->
  String.compare (digits2 a) (digits2 b) = Z.compare a b.
Proof.
  intros. unfold digits2. cbn. div_facts a 10. div_facts b 10.
  rewrite !digit_compare by lia.
  assert (E : Z.compare a b = cmp_lex (Z.compare (a / 10) (b / 10)) (Z.compare (a mod 10) (b mod 10)))
    by (rewrite <- (Z_compare_lex _ _ _ _ 10) by lia; f_equal; lia).
  rewrite E. unfold cmp_lex. destruct (Z.compare (a / 10) (b / 10)); [|done|done].
  by destruct (Z.compare (a mod 10) (b mod 10)).
Qed.

Lemma digits_cons_compare (k a b : Z) (s t : string) :
  0 < k -> 0 <= a < 10 * k -> 0 <= b < 10 * k ->
  String.compare s t = Z.compare (a mod k) (b mod k) ->
  String.compare (String (digit (a / k)) s) (String (digit (b / k)) t) = Z.compare a b.
Proof.
  intros Hk Ha Hb Hst. cbn [String.compare]. div_facts a k. div_facts b k.
  assert (0 <= a / k <= 9) by (split; [apply Z.div_pos|apply Z.lt_succ_r, Z.div_lt_upper_bound]; lia).
  assert (0 <= b / k <= 9) by (split; [apply Z.div_pos|apply Z.lt_succ_r, Z.div_lt_upper_bound]; lia).
  rewrite digit_compare, Hst by lia.
  assert (E : Z.compare a b = cmp_lex (Z.compare (a / k) (b / k)) (Z.compare (a mod k) (b mod k)))
    by (rewrite <- (Z_compare_lex _ _ _ _ k) by lia; f_equal; lia).
  rewrite E. unfold cmp_lex. by destruct (Z.compare (a / k) (b / k)).
Qed.

Lemma digits3_compare (a b : Z) : 0 <= a <= 999 -> 0 <= b <= 999 ->
  String.compare (digits3 a) (digits3 b) = Z.compare a b.
Proof.
  intros. apply digits_cons_compare; [lia|lia|lia|].
  apply digits2_compare; pose proof (Z.mod_pos_bound a 100); pose proof (Z.mod_pos_bound b 100); lia.
Qed.

Lemma digits4_compare (a b : Z) : 0 <= a <= 9999 -> 0 <= b <= 9999 ->
  String.compare (digits4 a) (digits4 b) = Z.compare a b.
Proof.
  intros. apply digits_cons_compare; [lia|lia|lia|].
  apply digits3_compare; pose proof (Z.mod_pos_bound a 1000); pose proof (Z.mod_pos_bound b 1000); lia.
Qed.

(** ** The order of the printed minutes *)

Lemma civil_from_days_bounds (z : Z) :
  let '(y, m, d) := civil_from_days z in 1 <= m <= 12 /\ 1 <= d <= 31.
Proof.
  rewrite civil_from_days_comp. div_facts (z + 719468) 146097.
  destruct (yoe_doy_bounds ((z + 719468) mod 146097)) as [_ D]; [lia|].
  destruct (mp_day_bounds _ D) as [M Dd]. unfold ymd_of_comp. cbn zeta. cmp_cases.
Qed.

Lemma cmp_lex_not_gt (a b : Z) (c : comparison) : cmp_lex (Z.compare a b) c <> Gt -> a <= b.
Proof. intros H. destruct (Z.compare_spec a b); [lia|lia|done]. Qed.

Lemma civil_from_days_year (z : Z) :
  days_from_civil 1000 1 1 <= z <= days_from_civil 9999 12 31 ->
  1000 <= (civil_from_days z).1.1 <= 9999.
Proof.
  intros [Hlo Hhi].
  pose proof (civil_from_days_compare (days_from_civil 1000 1 1) z) as C1.
  pose proof (civil_from_days_compare z (days_from_civil 9999 12 31)) as C2.
  replace (civil_from_days (days_from_civil 1000 1 1)) with (1000, 1, 1) in C1 by reflexivity.
  replace (civil_from_days (days_from_civil 9999 12 31)) with (9999, 12, 31) in C2 by reflexivity.
  unfold cmp3 in C1, C2. cbn [fst snd] in C1, C2. split.
  - eapply cmp_lex_not_gt. rewrite C1. intros E%Z.compare_gt_iff. lia.
  - eapply cmp_lex_not_gt. rewrite C2. intros E%Z.compare_gt_iff. lia.
Qed.

Lemma key_compare (y1 m1 d1 h1 n1 y2 m2 d2 h2 n2 : Z) :
  1000 <= y1 <= 9999 -> 1000 <= y2 <= 9999 ->
  0 <= m1 <= 99 -> 0 <= m2 <= 99 -> 0 <= d1 <= 99 -> 0 <= d2 <= 99 ->
  0 <= h1 <= 99 -> 0 <= h2 <= 99 -> 0 <= n1 <= 99 -> 0 <= n2 <= 99 ->
  String.compare (z_to_str y1 ++ "-" ++ pad2 m1 ++ "-" ++ pad2 d1 ++ " " ++ pad2 h1 ++ ":" ++ pad2 n1)%string
                 (z_to_str y2 ++ "-" ++ pad2 m2 ++ "-" ++ pad2 d2 ++ " " ++ pad2 h2 ++ ":" ++ pad2 n2)%string =
  cmp_lex (Z.compare y1 y2) (cmp_lex (Z.compare m1 m2) (cmp_lex (Z.compare d1 d2)
    (cmp_lex (Z.compare h1 h2) (Z.compare n1 n2)))).
Proof.
  intros. rewrite !z_to_str_digits4, !pad2_digits2 by lia.
  rewrite !string_compare_app by reflexivity.
  rewrite digits4_compare, !digits2_compare by lia. by rewrite !string_compare_refl.
Qed.

(** The fields of a time inside the range of four-digit years. *)
Lemma split_minute (t : Z) : datetime_min <= t <= datetime_max ->
  days_from_civil 1000 1 1 <= t / us_per_sec / 86400 <= days_from_civil 9999 12 31 /\
  0 <= (t / us_per_sec) mod 86400 / 3600 <= 23 /\
  0 <= (t / us_per_sec) mod 86400 mod 3600 / 60 <= 59 /\
  t / (60 * us_per_sec) =
    t / us_per_sec / 86400 * 1440 + (t / us_per_sec) mod 86400 / 3600 * 60 + (t / us_per_sec) mod 86400 mod 3600 / 60.
Proof.
  unfold datetime_min, datetime_max, us_per_sec. intros Ht.
  set (D0 := days_from_civil 1000 1 1) in *. set (D1 := days_from_civil 9999 12 31) in *.
  div_facts t 1000000. div_facts t (60 * 1000000). set (secs := t / 1000000) in *.
  div_facts secs 86400. set (sod := secs mod 86400) in *. div_facts sod 3600. div_facts (sod mod 3600) 60.
  lia.
Qed.

(** Two times in the same minute print the same archive key: every field
    [strftime("%Y-%m-%d %H:%M")] prints is a function of the minute. *)
Lemma strftime_ymd_hm_same_minute (t t' : Z) :
  t / (60 * us_per_sec) = t' / (60 * us_per_sec) -> strftime_ymd_hm t = strftime_ymd_hm t'.
Proof.
  unfold strftime_ymd_hm, split_datetime, us_per_sec. cbn zeta. intros E.
  div_facts t 1000000. div_facts t (60 * 1000000). div_facts t' 1000000. div_facts t' (60 * 1000000).
  set (secs := t / 1000000) in *. set (secs' := t' / 1000000) in *.
  div_facts secs 86400. div_facts secs' 86400.
  set (sod := secs mod 86400) in *. set (sod' := secs' mod 86400) in *.
  div_facts sod 3600. div_facts sod' 3600. div_facts (sod mod 3600) 60. div_facts (sod' mod 3600) 60.
  assert (Hd : secs / 86400 = secs' / 86400) by lia.
  assert (Hh : sod / 3600 = sod' / 3600) by lia.
  assert (Hn : sod mod 3600 / 60 = sod' mod 3600 / 60) by lia.
  by rewrite Hd, Hh, Hn.
Qed.

(** C21. The archive keys printed by [strftime("%Y-%m-%d %H:%M")] (app.py
    line 98) compare as strings exactly as the minutes they name, for
    every time from year 1000 to year 9999: the string order that
    [sorted] uses is the order in time. *)
Theorem strftime_ymd_hm_compare (t1 t2 : Z) :
  datetime_min <= t1 <= datetime_max -> datetime_min <= t2 <= datetime_max ->
  String.compare (strftime_ymd_hm t1) (strftime_ymd_hm t2) = Z.compare (t1 / (60 * us_per_sec)) (t2 / (60 * us_per_sec)).
Proof.
  intros H1 H2. destruct (split_minute t1 H1) as (D1 & Hh1 & Hn1 & E1).
  destruct (split_minute t2 H2) as (D2 & Hh2 & Hn2 & E2). rewrite E1, E2.
  pose proof (civil_from_days_year _ D1) as Y1. pose proof (civil_from_days_year _ D2) as Y2.
  pose proof (civil_from_days_bounds (t1 / us_per_sec / 86400)) as B1.
  pose proof (civil_from_days_bounds (t2 / us_per_sec / 86400)) as B2.
  pose proof (civil_from_days_compare (t1 / us_per_sec / 86400) (t2 / us_per_sec / 86400)) as C.
  unfold strftime_ymd_hm, split_datetime. cbn zeta.
  destruct (civil_from_days (t1 / us_per_sec / 86400)) as [[y1 m1] d1].
  destruct (civil_from_days (t2 / us_per_sec / 86400)) as [[y2 m2] d2]. cbn [fst snd] in *.
  rewrite key_compare by lia.
  set (A1 := t1 / us_per_sec / 86400) in *. set (A2 := t2 / us_per_sec / 86400) in *.
  set (h1 := (t1 / us_per_sec) mod 86400 / 3600) in *. set (h2 := (t2 / us_per_sec) mod 86400 / 3600) in *.
  set (n1 := (t1 / us_per_sec) mod 86400 mod 3600 / 60) in *.
  set (n2 := (t2 / us_per_sec) mod 86400 mod 3600 / 60) in *.
  assert (E : Z.compare (A1 * 1440 + h1 * 60 + n1) (A2 * 1440 + h2 * 60 + n2) =
              cmp_lex (Z.compare A1 A2) (cmp_lex (Z.compare h1 h2) (Z.compare n1 n2))).
  { rewrite <- (Z_compare_lex h1 n1 h2 n2 60) by lia.
    rewrite <- (Z_compare_lex A1 (h1 * 60 + n1) A2 (h2 * 60 + n2) 1440) by lia. f_equal; lia. }
  rewrite E, <- C. unfold cmp3. cbn [fst snd]. by rewrite !cmp_lex_assoc.
Qed.

Module Scenarios.

(** 2026-11-08 10:00 and 2026-11-09 09:00, naive. *)
Definition t_old : Z := (days_from_civil 2026 11 8 * 86400 + 10 * 3600) * us_per_sec.
Definition t_new : Z := (days_from_civil 2026 11 9 * 86400 + 9 * 3600) * us_per_sec.

Lemma strftime_ymd_hm_compare_witness :
  strftime_ymd_hm t_old = "2026-11-08 10:00"%string /\ strftime_ymd_hm t_new = "2026-11-09 09:00"%string /\
  String.compare (strftime_ymd_hm t_old) (strftime_ymd_hm t_new) = Lt.
Proof.
  split; [reflexivity|]. split; [reflexivity|].
  rewrite (strftime_ymd_hm_compare t_old t_new); [reflexivity|vm_compute; split; discriminate..].
Defined.

End Scenarios.
