(* ===== verification/Collector.v ===== *)
(** * The news collector: [NewsCollector.fetch_news]

    news_collector.py lines 27-55. feedparser is an input: [parse] maps a
    URL to the parsed feed or to the exception [feedparser.parse] raised.
    The list [all_news] that the loop appends to is threaded through both
    loops, so an exception raised by one entry (a missing [title] or
    [link]) ends the inner loop and keeps what the feed appended before
    it; the [try] of line 34 then prints the error and goes on with the
    next URL. The printed lines are part of the result. The clock is read
    once, at line 30: [fetch_news] takes that reading as an argument. *)

From S2P Require Import Prelude Datetime.

(** The dictionary appended to [all_news]: its five keys. *)
Record NewsItem := mkNewsItem {
  title : string;
  link : string;
  summary : string;
  source : string;
  published : string
}.

#[export] Instance NewsItem_eq_dec : EqDecision NewsItem.
Proof. solve_decision. Defined.

(** A feedparser entry: the attributes the loop reads, [None] when absent
    (or, for the dates, falsy). *)
Record Entry := mkEntry {
  published_parsed : option StructTime;
  updated_parsed : option StructTime;
  entry_title : option string;
  entry_link : option string;
  entry_summary : option string
}.

(** A parsed feed: [feed.feed.get("title")] and [feed.entries]. *)
Record Feed := mkFeed {
  feed_title : option string;
  entries : list Entry
}.

Definition attribute_error (attr : string) : PyExc :=
  mkExc "AttributeError" ("object has no attribute '" ++ attr ++ "'")%string.

(** [timedelta(hours=72)] (line 31). *)
Definition threshold : Z := timedelta_hours 72.

Section Fetch.
(** The local zone's offset from UTC, in seconds. *)
Variable utc_offset : Z.
(** [feedparser.parse]. *)
Variable parse : string -> PyExc + Feed.

(** Lines 37-41: [published_parsed] first, then [updated_parsed]. *)
Definition resolve_published (e : Entry) : option Z :=
  match published_parsed e with
  | Some st => Some (fromtimestamp utc_offset (mktime utc_offset st))
  | None =>
      match updated_parsed e with
      | Some st => Some (fromtimestamp utc_offset (mktime utc_offset st))
      | None => None
      end
  end.

(** The dictionary of lines 45-51, its values evaluated in order: a
    missing [title] or [link] raises. *)
Definition make_item (f : Feed) (e : Entry) (t : Z) : PyExc + NewsItem :=
  match entry_title e with
  | None => inl (attribute_error "title")
  | Some ti =>
      match entry_link e with
      | None => inl (attribute_error "link")
      | Some li =>
          inr (mkNewsItem ti li (default "" (entry_summary e))
                 (default "Unknown Source" (feed_title f)) (strftime_ymd_hms t))
      end
  end.

(** The inner loop (lines 36-51) appending to [acc]; it stops at the
    first exception, which it returns. *)
Fixpoint collect_entries (now : Z) (f : Feed) (es : list Entry) (acc : list NewsItem)
  : list NewsItem * option PyExc :=
  match es with
  | [] => (acc, None)
  | e :: es' =>
      match resolve_published e with
      | None => collect_entries now f es' acc
      | Some t =>
          if (now - t <=? threshold)%Z then
            match make_item f e t with
            | inl ex => (acc, Some ex)
            | inr item => collect_entries now f es' (acc ++ [item])
            end
          else collect_entries now f es' acc
      end
  end.

(** Line 53. *)
Definition error_line (url : string) (e : PyExc) : string :=
  ("Error parsing " ++ url ++ ": " ++ py_str_exc e)%string.

(** The outer loop (lines 33-53): the items and the printed lines. *)
Fixpoint fetch_loop (now : Z) (urls : list string) (acc : list NewsItem) (out : list string)
  : list NewsItem * list string :=
  match urls with
  | [] => (acc, out)
  | url :: urls' =>
      match parse url with
      | inl ex => fetch_loop now urls' acc (out ++ [error_line url ex])
      | inr f =>
          let '(acc', err) := collect_entries now f (entries f) acc in
          match err with
          | None => fetch_loop now urls' acc' out
          | Some ex => fetch_loop now urls' acc' (out ++ [error_line url ex])
          end
      end
  end.

(** [fetch_news(rss_urls)] with the clock reading [now] of line 30. *)
Definition fetch_news (now : Z) (urls : list string) : list NewsItem * list string :=
  fetch_loop now urls [] [].

End Fetch.

(** ** The specification of one feed *)

Section Spec.
Variable utc_offset : Z.
Variable parse : string -> PyExc + Feed.

(** An entry is dated and inside the window. *)
Definition in_window (now : Z) (e : Entry) : bool :=
  match resolve_published utc_offset e with
  | Some t => bool_decide (now - t <= threshold)%Z
  | None => false
  end.

(** The dictionary built for an entry that has its title and link. *)
Definition item_of (f : Feed) (e : Entry) (t : Z) : NewsItem :=
  mkNewsItem (default "" (entry_title e)) (default "" (entry_link e))
    (default "" (entry_summary e)) (default "Unknown Source" (feed_title f)) (strftime_ymd_hms t).

(** What a feed contributes when nothing raises: its dated entries inside
    the window, in their order. *)
Definition window_items (now : Z) (f : Feed) (es : list Entry) : list NewsItem :=
  omap (fun e => match resolve_published utc_offset e with
                 | Some t => if bool_decide (now - t <= threshold)%Z then Some (item_of f e t) else None
                 | None => None
                 end) es.

Lemma window_items_cons (now : Z) (f : Feed) (e : Entry) (es : list Entry) :
  window_items now f (e :: es) =
  match resolve_published utc_offset e with
  | Some t => if bool_decide (now - t <= threshold)%Z
              then item_of f e t :: window_items now f es else window_items now f es
  | None => window_items now f es
  end.
Proof. unfold window_items. simpl. by destruct (resolve_published utc_offset e) as [t|]; [case_decide|]. Qed.

Definition well_formed (e : Entry) : Prop := is_Some (entry_title e) /\ is_Some (entry_link e).

Lemma make_item_ok (f : Feed) (e : Entry) (t : Z) :
  well_formed e -> make_item f e t = inr (item_of f e t).
Proof. intros [[ti Hti] [li Hli]]. unfold make_item, item_of. by rewrite Hti, Hli. Qed.

Lemma collect_entries_acc (now : Z) (f : Feed) (es : list Entry) (acc : list NewsItem) :
  collect_entries utc_offset now f es acc =
  let '(a, err) := collect_entries utc_offset now f es [] in (acc ++ a, err).
Proof.
  revert acc. induction es as [|e es IH]; intros acc; simpl; [by rewrite app_nil_r|].
  destruct (resolve_published utc_offset e) as [t|]; [|apply IH].
  destruct (now - t <=? threshold)%Z; [|apply IH].
  destruct (make_item f e t) as [ex|it]; [by rewrite app_nil_r|].
  rewrite (IH (acc ++ [it])), (IH [it]).
  destruct (collect_entries utc_offset now f es []). by rewrite <- app_assoc.
Qed.

(** The entries of [pre] cannot raise: the loop appends their window items. *)
Lemma collect_entries_wf (now : Z) (f : Feed) (pre rest : list Entry) (acc : list NewsItem) :
  (forall e, e ∈ pre -> in_window now e = true -> well_formed e) ->
  collect_entries utc_offset now f (pre ++ rest) acc =
  collect_entries utc_offset now f rest (acc ++ window_items now f pre).
Proof.
  revert acc. induction pre as [|e pre IH]; intros acc Hwf; [by rewrite app_nil_r|].
  rewrite window_items_cons. cbn [app collect_entries].
  destruct (resolve_published utc_offset e) as [t|] eqn:Ht; [|apply IH; set_solver].
  destruct (Z.leb_spec (now - t) threshold) as [Hle|Hgt].
  - assert (well_formed e) as Hwf_e.
    { apply Hwf; [set_solver|]. unfold in_window. rewrite Ht. by apply bool_decide_eq_true. }
    rewrite make_item_ok by done. rewrite bool_decide_eq_true_2 by done.
    rewrite IH by set_solver. by rewrite <- app_assoc.
  - rewrite bool_decide_eq_false_2 by lia. apply IH. set_solver.
Qed.

Lemma fetch_loop_acc (now : Z) (urls : list string) (acc : list NewsItem) (out : list string) :
  fetch_loop utc_offset parse now urls acc out =
  let '(a, o) := fetch_loop utc_offset parse now urls [] [] in (acc ++ a, out ++ o).
Proof.
  revert acc out. induction urls as [|url urls IH]; intros acc out; simpl.
  - by rewrite !app_nil_r.
  - destruct (parse url) as [ex|f].
    + rewrite (IH acc), (IH [] [_]).
      destruct (fetch_loop _ _ _ _ [] []). by rewrite <- app_assoc.
    + rewrite (collect_entries_acc now f (entries f) acc).
      destruct (collect_entries _ _ f (entries f) []) as [a [ex|]].
      * rewrite (IH (acc ++ a)), (IH a).
        destruct (fetch_loop _ _ _ _ [] []). by rewrite <- !app_assoc.
      * rewrite (IH (acc ++ a)), (IH a).
        destruct (fetch_loop _ _ _ _ [] []). by rewrite <- !app_assoc.
Qed.

Lemma fetch_loop_app (now : Z) (u1 u2 : list string) (acc : list NewsItem) (out : list string) :
  fetch_loop utc_offset parse now (u1 ++ u2) acc out =
  let '(a, o) := fetch_loop utc_offset parse now u1 acc out in
  fetch_loop utc_offset parse now u2 a o.
Proof.
  revert acc out. induction u1 as [|url u1 IH]; intros acc out; simpl; [done|].
  destruct (parse url) as [ex|f]; [apply IH|].
  destruct (collect_entries _ _ f (entries f) acc) as [a [ex|]]; apply IH.
Qed.

End Spec.

(** ** Properties of [fetch_news] *)

Section Properties.
Variable utc_offset : Z.
Variable parse : string -> PyExc + Feed.

(** Feeds are processed independently and in order: the items (and
    the printed lines) for a concatenation of URL lists are the
    concatenation of the items (and lines) of each list. *)
Theorem fetch_news_app (now : Z) (u1 u2 : list string) :
  fetch_news utc_offset parse now (u1 ++ u2) =
  (fst (fetch_news utc_offset parse now u1) ++ fst (fetch_news utc_offset parse now u2),
   snd (fetch_news utc_offset parse now u1) ++ snd (fetch_news utc_offset parse now u2)).
Proof.
  unfold fetch_news. rewrite fetch_loop_app.
  destruct (fetch_loop utc_offset parse now u1 [] []) as [a o].
  rewrite fetch_loop_acc. by destruct (fetch_loop utc_offset parse now u2 [] []).
Qed.

(** C9. Failure isolation (line 52): a URL whose parse raises adds no
    item and one printed line, and the items of the other URLs are the
    same, in the same order, as without it. *)
Theorem fetch_news_failing_feed (now : Z) (u1 u2 : list string) (bad : string) (ex : PyExc) :
  parse bad = inl ex ->
  fetch_news utc_offset parse now (u1 ++ bad :: u2) =
  (fst (fetch_news utc_offset parse now (u1 ++ u2)),
   snd (fetch_news utc_offset parse now u1) ++ error_line bad ex :: snd (fetch_news utc_offset parse now u2)).
Proof.
  intros Hbad. unfold fetch_news. rewrite !fetch_loop_app.
  destruct (fetch_loop utc_offset parse now u1 [] []) as [a o]. cbn [fetch_loop]. rewrite Hbad.
  rewrite (fetch_loop_acc _ _ _ u2 a (o ++ _)), (fetch_loop_acc _ _ _ u2 a o).
  destruct (fetch_loop utc_offset parse now u2 [] []). simpl. by rewrite <- app_assoc.
Qed.

(** C10. A feed whose entries inside the window all have a title and a
    link contributes exactly its dated entries inside the window, in the
    parser's order, and prints nothing (lines 36-51). *)
Theorem fetch_news_feed_spec (now : Z) (url : string) (f : Feed) :
  parse url = inr f ->
  (forall e, e ∈ entries f -> in_window utc_offset now e = true -> well_formed e) ->
  fetch_news utc_offset parse now [url] = (window_items utc_offset now f (entries f), []).
Proof.
  intros Hf Hwf. unfold fetch_news. cbn [fetch_loop]. rewrite Hf.
  pose proof (collect_entries_wf utc_offset now f (entries f) [] [] Hwf) as Hc.
  rewrite app_nil_r in Hc. by rewrite Hc.
Qed.

Lemma collect_entries_mem (now : Z) (f : Feed) (es : list Entry) (acc : list NewsItem) (it : NewsItem) :
  it ∈ fst (collect_entries utc_offset now f es acc) ->
  it ∈ acc \/ exists e t, e ∈ es /\ resolve_published utc_offset e = Some t /\
                          (now - t <= threshold)%Z /\ make_item f e t = inr it.
Proof.
  revert acc. induction es as [|e es IH]; intros acc; simpl; [by left|].
  destruct (resolve_published utc_offset e) as [t|] eqn:Ht;
    [|intros [?|(e' & t' & ?)]%IH; [by left|right; exists e', t'; set_solver]].
  destruct (Z.leb_spec (now - t) threshold) as [Hle|Hgt];
    [|intros [?|(e' & t' & ?)]%IH; [by left|right; exists e', t'; set_solver]].
  destruct (make_item f e t) as [ex|it'] eqn:Hm; [simpl; by left|].
  intros [Hin|(e' & t' & ?)]%IH; [|right; exists e', t'; set_solver].
  apply elem_of_app in Hin as [Hin|Hin]; [by left|].
  apply list_elem_of_singleton in Hin as ->. right. exists e, t. set_solver.
Qed.

Lemma fetch_loop_mem (now : Z) (urls : list string) (acc : list NewsItem) (out : list string) (it : NewsItem) :
  it ∈ fst (fetch_loop utc_offset parse now urls acc out) ->
  it ∈ acc \/ exists url f e t, url ∈ urls /\ parse url = inr f /\ e ∈ entries f /\
     resolve_published utc_offset e = Some t /\ (now - t <= threshold)%Z /\ make_item f e t = inr it.
Proof.
  revert acc out. induction urls as [|url urls IH]; intros acc out; simpl; [by left|].
  destruct (parse url) as [ex|f] eqn:Hf.
  - intros [?|(u & f' & e & t & ?)]%IH; [by left|right; exists u, f', e, t; set_solver].
  - destruct (collect_entries utc_offset now f (entries f) acc) as [a err] eqn:Hc.
    assert (it ∈ a -> it ∈ acc \/ exists url0 f0 e t, url0 ∈ url :: urls /\ parse url0 = inr f0 /\
              e ∈ entries f0 /\ resolve_published utc_offset e = Some t /\
              (now - t <= threshold)%Z /\ make_item f0 e t = inr it) as Ha.
    { intros Hin. destruct (collect_entries_mem now f (entries f) acc it) as [?|(e & t & ?)];
        [by rewrite Hc|by left|right; exists url, f, e, t; set_solver]. }
    destruct err; intros [?|(u & f' & e & t & ?)]%IH; auto; right; exists u, f', e, t; set_solver.
Qed.

(** C11. Every item of the result comes from an entry of a feed of the
    list, dated (published, else updated), inside the 72-hour window of
    the single clock reading, with its title and link. *)
Theorem fetch_news_items_in_window (now : Z) (urls : list string) (it : NewsItem) :
  it ∈ fst (fetch_news utc_offset parse now urls) ->
  exists url f e t, url ∈ urls /\ parse url = inr f /\ e ∈ entries f /\
    resolve_published utc_offset e = Some t /\ (now - t <= threshold)%Z /\ make_item f e t = inr it.
Proof. intros Hin. by destruct (fetch_loop_mem now urls [] [] it Hin) as [?%not_elem_of_nil|?]. Qed.

(** C12. An entry inside the window without a [title] raises inside the
    [try] of line 34: the feed keeps the items appended before it, drops
    every entry after it (well formed or not), and one error line is
    printed. *)
Theorem fetch_news_partial_feed (now : Z) (url : string) (f : Feed) (pre post : list Entry) (bad : Entry) :
  parse url = inr f -> entries f = pre ++ bad :: post ->
  (forall e, e ∈ pre -> in_window utc_offset now e = true -> well_formed e) ->
  in_window utc_offset now bad = true -> entry_title bad = None ->
  fetch_news utc_offset parse now [url] =
  (window_items utc_offset now f pre, [error_line url (attribute_error "title")]).
Proof.
  intros Hf Hent Hwf Hbad Htitle. unfold fetch_news. cbn [fetch_loop]. rewrite Hf, Hent.
  rewrite collect_entries_wf by done. cbn [collect_entries]. unfold in_window in Hbad.
  destruct (resolve_published utc_offset bad) as [t|]; [|discriminate].
  apply bool_decide_eq_true in Hbad. rewrite (proj2 (Z.leb_le _ _) Hbad).
  unfold make_item. by rewrite Htitle.
Qed.

(** C13. feedparser's [published_parsed] is in UTC, [time.mktime] reads
    it as local time and [datetime.now()] is local: in a zone [utc_offset]
    seconds ahead of UTC, an entry is kept exactly when its true age is at
    most 72 hours minus the offset. *)
Theorem in_window_true_age (utc_now_us : Z) (e : Entry) (st : StructTime) :
  published_parsed e = Some st ->
  in_window utc_offset (now_local utc_offset utc_now_us) e = true <->
  (utc_now_us - timegm st * us_per_sec <= threshold - utc_offset * us_per_sec)%Z.
Proof.
  intros Hp. unfold in_window, resolve_published. rewrite Hp, fromtimestamp_mktime.
  unfold now_local. rewrite bool_decide_eq_true. lia.
Qed.

End Properties.

(** ** Witnesses *)

Module Scenarios.

Definition utc_at (y m d hh mm : Z) : StructTime := mkStructTime y m d hh mm 0.

(** 2026-11-09 12:00 UTC. *)
Definition utc_now : Z := (timegm (utc_at 2026 11 9 12 0) * us_per_sec)%Z.

Definition e_recent : Entry :=
  mkEntry (Some (utc_at 2026 11 8 10 0)) None (Some "Chip news") (Some "https://example.com/chips") (Some "A chip.").
Definition e_updated_only : Entry :=
  mkEntry None (Some (utc_at 2026 11 9 9 0)) (Some "Update") (Some "https://example.com/update") None.
Definition e_old : Entry :=
  mkEntry (Some (utc_at 2026 11 1 9 0)) None (Some "Old") (Some "https://example.com/old") None.
Definition e_undated : Entry :=
  mkEntry None None (Some "Undated") (Some "https://example.com/undated") None.
Definition e_untitled : Entry :=
  mkEntry (Some (utc_at 2026 11 9 8 0)) None None (Some "https://example.com/untitled") None.

Definition tech : Feed := mkFeed (Some "Tech Feed") [e_recent; e_updated_only; e_old; e_undated].
Definition partial : Feed := mkFeed None [e_recent; e_untitled; e_updated_only].

Definition tech_url : string := "https://tech.example/rss".
Definition partial_url : string := "https://partial.example/rss".
Definition down_url : string := "https://down.example/rss".
Definition timed_out : PyExc := mkExc "URLError" "<urlopen error timed out>".

Definition parse_demo (url : string) : PyExc + Feed :=
  if String.eqb url tech_url then inr tech
  else if String.eqb url partial_url then inr partial
  else inl timed_out.

Lemma fetch_news_failing_feed_witness :
  fetch_news 0 parse_demo utc_now ([tech_url] ++ down_url :: [partial_url]) =
  (fst (fetch_news 0 parse_demo utc_now ([tech_url] ++ [partial_url])),
   snd (fetch_news 0 parse_demo utc_now [tech_url]) ++
     error_line down_url timed_out :: snd (fetch_news 0 parse_demo utc_now [partial_url])).
Proof. apply fetch_news_failing_feed. reflexivity. Defined.

Lemma fetch_news_feed_spec_witness :
  fetch_news 0 parse_demo utc_now [tech_url] = (window_items 0 utc_now tech (entries tech), []).
Proof.
  apply fetch_news_feed_spec; [reflexivity|]. intros e He _.
  repeat (apply elem_of_cons in He as [->|He]; [split; eexists; reflexivity|]).
  by apply not_elem_of_nil in He.
Defined.

Definition chip_item : NewsItem :=
  mkNewsItem "Chip news" "https://example.com/chips" "A chip." "Tech Feed" "2026-11-08 10:00:00".

Lemma fetch_news_items_in_window_witness :
  exists url f e t, url ∈ [tech_url; down_url] /\ parse_demo url = inr f /\ e ∈ entries f /\
    resolve_published 0 e = Some t /\ (utc_now - t <= threshold)%Z /\ make_item f e t = inr chip_item.
Proof.
  apply (fetch_news_items_in_window 0 parse_demo utc_now [tech_url; down_url] chip_item).
  apply (bool_decide_unpack _). vm_compute. reflexivity.
Defined.

Lemma fetch_news_partial_feed_witness :
  fetch_news 0 parse_demo utc_now [partial_url] =
  (window_items 0 utc_now partial [e_recent], [error_line partial_url (attribute_error "title")]).
Proof.
  apply (fetch_news_partial_feed 0 parse_demo utc_now partial_url partial [e_recent] [e_updated_only] e_untitled);
    [reflexivity | reflexivity | | vm_compute; reflexivity | reflexivity].
  intros e He _. apply elem_of_cons in He as [->|He]; [split; eexists; reflexivity|].
  by apply not_elem_of_nil in He.
Defined.

(** Seoul, UTC+9: an entry published 65 hours ago is dropped. *)
Definition kst : Z := 32400.
Definition e_65h : Entry :=
  mkEntry (Some (utc_at 2026 11 6 19 0)) None (Some "Two days ago") (Some "https://example.com/65h") None.

Lemma in_window_true_age_witness :
  (utc_now - timegm (utc_at 2026 11 6 19 0) * us_per_sec <= threshold)%Z /\
  in_window kst (now_local kst utc_now) e_65h = false.
Proof.
  split; [vm_compute; discriminate|].
  destruct (in_window kst (now_local kst utc_now) e_65h) eqn:E; [|reflexivity].
  apply (in_window_true_age kst utc_now e_65h (utc_at 2026 11 6 19 0) eq_refl) in E.
  rewrite <- Z.leb_le in E. vm_compute in E. discriminate.
Defined.

End Scenarios.
