(* ===== verification/Backend.v ===== *)
(** * The Gemini client, as the reporter sees it

    [generate_report] uses two methods of [genai.Client().models]:
    [list()] (news_collector.py line 83) and [generate_content(model=...,
    contents=...)] (lines 100-103). Either may raise. The client is an
    external service with a state of its own (quotas, the models of the
    account), so its interface is a type class over that state, and the
    reporter is written against the class. *)

From S2P Require Import Prelude.


(** A model object of [models.list()]: its [name] and its
    [supported_generation_methods], [None] when the attribute is [None]
    or missing. *)
Record ModelInfo := mkModelInfo {
  model_name : string;
  supported_generation_methods : option (list string)
}.

(** A response of [generate_content]: its [text], [None] or a string. *)
Record GenResponse := mkGenResponse { response_text : option string }.

(** The client: each call returns an exception or a value, and the next
    state of the service. *)
Class ModelBackend (St : Type) := {
  models_list : St -> (PyExc + list ModelInfo) * St;
  generate_content : string -> string -> St -> (PyExc + GenResponse) * St
}.

(** ** A recording client

    A client whose answers are fixed functions of the request and whose
    state is the list of calls made so far, oldest first. *)

Inductive Call :=
| CallList
| CallGenerate (model contents : string).

Record Recorder := mkRecorder {
  rec_listing : PyExc + list ModelInfo;
  rec_respond : string -> string -> PyExc + GenResponse;
  rec_log : list Call
}.

Definition log_call (r : Recorder) (c : Call) : Recorder :=
  mkRecorder (rec_listing r) (rec_respond r) (rec_log r ++ [c]).

#[export] Instance recorder_backend : ModelBackend Recorder := {
  models_list r := (rec_listing r, log_call r CallList);
  generate_content m c r := (rec_respond r m c, log_call r (CallGenerate m c))
}.

Lemma log_call_log (r : Recorder) (c : Call) : rec_log (log_call r c) = rec_log r ++ [c].
Proof. reflexivity. Qed.

Lemma log_call_app (r : Recorder) (c : Call) (cs : list Call) :
  log_call (mkRecorder (rec_listing r) (rec_respond r) (rec_log r ++ cs)) c =
  mkRecorder (rec_listing r) (rec_respond r) (rec_log r ++ cs ++ [c]).
Proof. unfold log_call. simpl. by rewrite app_assoc. Qed.

(** Unfold one call of the recording client. *)
Ltac recorder_simpl :=
  cbn [generate_content models_list recorder_backend rec_respond rec_listing rec_log log_call] in *.
