(* ===== verification/Reporter.v ===== *)
(** * The reporter: [NewsCollector.__init__] and [generate_report]

    news_collector.py lines 10-25 and 57-119, written against the client
    interface [ModelBackend] of [Backend]: the prompt, the discovery of the
    account's models, the merge of the candidate list with them, the
    classification of errors and the fallback loop. The loop's outcome is
    a value of [Outcome]; [render_outcome] is the string each [return]
    statement builds. The theorems are in two groups: the ones that hold
    for every client (the nested loop is a flat scan of the attempts; the
    merged list), and the ones about the calls made, proved with the
    recording client [Recorder]. *)

From S2P Require Import Prelude Collector Backend.

Local Open Scope string_scope.

(** ** The collector object *)

Record NewsCollector := mkNewsCollector {
  api_key : string;
  candidate_models : list string
}.

(** The priority list of lines 17-25. *)
Definition default_candidate_models : list string :=
  ["gemini-2.5-flash"; "gemini-2.5-pro"; "gemini-2.0-flash-lite-preview-02-05";
   "gemini-2.0-flash-lite"; "gemini-2.0-flash-lite-001"; "gemini-2.0-flash";
   "gemini-2.0-flash-exp"].

(** [__init__]: the key comes from the secrets when the name is there,
    else from the environment; an empty or missing key raises. *)
Definition NewsCollector_init (secret env : option string) : PyExc + NewsCollector :=
  let key := match secret with Some k => Some k | None => env end in
  match key with
  | Some k =>
      if String.eqb k "" then inl (mkExc "ValueError" "GEMINI_API_KEY must be set.")
      else inr (mkNewsCollector k default_candidate_models)
  | None => inl (mkExc "ValueError" "GEMINI_API_KEY must be set.")
  end.

(** ** The prompt *)

(** The block of one item (line 64). *)
Definition item_block (item : NewsItem) : string :=
  "제목: " ++ title item ++ nl ++ "링크: " ++ link item ++ nl ++
  "요약: " ++ summary item ++ nl ++ "---" ++ nl.

(** [news_context += ...] over the items (lines 62-64). *)
Definition news_context (items : list NewsItem) : string :=
  fold_left (fun acc item => acc ++ item_block item) items "".

(** The f-string of lines 66-79, one list element per line. *)
Definition build_prompt (context : string) : string :=
  py_join nl
    [""; "Role: 전문 IT 테크 저널리스트";
     "Task: 수집된 뉴스 기사들을 분석하여 한 장의 요약 보고서 작성"; "";
     "수집된 뉴스 데이터:"; context; ""; "Format: ";
     "1. ## [토픽명] 형태로 대분류 (3~5개 핵심 토픽으로 그룹화)";
     "2. - [뉴스 제목](링크) : 한 줄 핵심 요약";
     "3. 오늘 IT 업계의 주요 시사점 요약"; "";
     "중요: 각 뉴스 하단에 원문 피드 [링크]를 반드시 포함하세요. 한국어로 작성하세요.";
     ""].

(** ** Discovery of the account's models (lines 81-86) *)

(** [ 'generateContent' in m.supported_generation_methods ] on [None]
    raises. *)
Definition none_not_iterable : PyExc :=
  mkExc "TypeError" "argument of type 'NoneType' is not iterable".

(** The condition of line 84, once the methods are a list: they contain
    [generateContent] or are empty. *)
Definition keeps_model (meths : list string) : bool :=
  py_in "generateContent" meths || bool_decide (meths = []).

(** The list comprehension of line 84; an exception in any element is the
    exception of the whole comprehension. *)
Fixpoint account_model_names (ms : list ModelInfo) : PyExc + list string :=
  match ms with
  | [] => inr []
  | m :: ms' =>
      match supported_generation_methods m with
      | None => inl none_not_iterable
      | Some meths =>
          match account_model_names ms' with
          | inl e => inl e
          | inr names => inr (if keeps_model meths then model_name m :: names else names)
          end
      end
  end.

(** Lines 82-86 once [models.list()] has returned: any exception leaves
    [account_models] empty. *)
Definition account_models_of (listed : PyExc + list ModelInfo) : list string :=
  match listed with
  | inl _ => []
  | inr ms =>
      match account_model_names ms with
      | inl _ => []
      | inr names => names
      end
  end.

Section Client.
Context {St : Type} `{ModelBackend St}.

(** Lines 81-86: the call to [models.list()] and the names it gives. *)
Definition discover_models (s : St) : list string * St :=
  let '(r, s') := models_list s in (account_models_of r, s').

End Client.

(** ** The trial list (lines 88-93) *)

Definition clean_model_name (am : string) : string := py_replace "models/" "" am.

Fixpoint merge_trial_models (trial : list string) (account : list string) : list string :=
  match account with
  | [] => trial
  | am :: rest =>
      let clean_name := clean_model_name am in
      merge_trial_models
        (if py_in clean_name trial then trial else trial ++ [clean_name]) rest
  end.

(** ** Classification of an error (lines 108-110) *)

Definition is_retryable (e : PyExc) : bool :=
  let err_msg := py_lower (py_str_exc e) in
  ("404" ∈ₛ err_msg) || ("429" ∈ₛ err_msg) || ("quota" ∈ₛ err_msg).

(** ** The fallback loop (lines 95-114) *)

(** How the loop ends: a text (line 105), a fatal error (line 114), or
    every attempt used up, with the last error recorded (line 116). *)
Inductive Outcome :=
| Answered (text : string)
| Fatal (actual_id : string) (e : PyExc)
| Exhausted (last_error : option PyExc).

(** After one attempt: return, or go on with the current [last_error]. *)
Inductive Step :=
| Stop (o : Outcome)
| Next (last_error : option PyExc).

(** Line 98: the two spellings tried for a model identifier. *)
Definition id_spellings (model_id : string) : list string :=
  [model_id; "models/" ++ model_id].

Section Loop.
Context {St : Type} `{ModelBackend St}.
Variable prompt : string.

(** One iteration of the inner loop (lines 99-114). An empty or missing
    text falls through to the next attempt with [last_error] unchanged. *)
Definition attempt (actual_id : string) (last_error : option PyExc) (s : St) : Step * St :=
  let '(r, s') := generate_content actual_id prompt s in
  match r with
  | inr resp =>
      match response_text resp with
      | Some t => if String.eqb t "" then (Next last_error, s') else (Stop (Answered t), s')
      | None => (Next last_error, s')
      end
  | inl e =>
      if is_retryable e then (Next (Some e), s') else (Stop (Fatal actual_id e), s')
  end.

(** The inner loop, over any list of identifiers. *)
Fixpoint try_ids (ids : list string) (last_error : option PyExc) (s : St) : Step * St :=
  match ids with
  | [] => (Next last_error, s)
  | actual_id :: ids' =>
      let '(st, s') := attempt actual_id last_error s in
      match st with
      | Stop o => (Stop o, s')
      | Next le => try_ids ids' le s'
      end
  end.

(** The outer loop over the trial list. *)
Fixpoint try_models (trial : list string) (last_error : option PyExc) (s : St) : Outcome * St :=
  match trial with
  | [] => (Exhausted last_error, s)
  | model_id :: trial' =>
      let '(st, s') := try_ids (id_spellings model_id) last_error s in
      match st with
      | Stop o => (o, s')
      | Next le => try_models trial' le s'
      end
  end.

End Loop.

(** ** The returned string *)

Definition no_news_message : string := "최근 3일 이내에 발행된 새로운 뉴스가 없습니다.".

Definition fatal_message (actual_id : string) (e : PyExc) : string :=
  "AI 분석 중 치명적 오류 발생 (" ++ actual_id ++ "): " ++ py_str_exc e.

Definition exhausted_message (last_error : option PyExc) (trial : list string) : string :=
  "모든 AI 모델 호출에 실패했습니다." ++ nl ++
  "마지막 오류: " ++ py_str_opt py_str_exc last_error ++ nl ++ nl ++
  "계약된 할당량(Quota)이 0이거나 API 키가 활성화되는 중일 수 있습니다." ++ nl ++
  "시도한 모델 목록: " ++ py_join ", " (take 15 trial).

Definition render_outcome (trial : list string) (o : Outcome) : string :=
  match o with
  | Answered t => t
  | Fatal actual_id e => fatal_message actual_id e
  | Exhausted le => exhausted_message le trial
  end.

Section Report.
Context {St : Type} `{ModelBackend St}.

(** [generate_report] (lines 57-119). *)
Definition generate_report (nc : NewsCollector) (items : list NewsItem) (s : St) : string * St :=
  match items with
  | [] => (no_news_message, s)
  | _ :: _ =>
      let prompt := build_prompt (news_context items) in
      let '(account_models, s1) := discover_models s in
      let trial := merge_trial_models (candidate_models nc) account_models in
      let '(o, s2) := try_models prompt trial None s1 in
      (render_outcome trial o, s2)
  end.

End Report.

Local Close Scope string_scope.

(** ** The nested loop is a flat scan of the attempts *)

(** The abstract view of the loop: the list of identifiers tried, in
    order, and a single scan over it. *)
Definition attempts (trial : list string) : list string := flat_map id_spellings trial.

Definition finish {St} (r : Step * St) : Outcome * St :=
  match r with
  | (Stop o, s) => (o, s)
  | (Next le, s) => (Exhausted le, s)
  end.

Section Generic.
Context {St : Type} `{ModelBackend St}.
Variable prompt : string.

Definition flat_scan (ids : list string) (le : option PyExc) (s : St) : Outcome * St :=
  finish (try_ids prompt ids le s).

Lemma try_ids_app (a b : list string) (le : option PyExc) (s : St) :
  try_ids prompt (a ++ b) le s =
  match try_ids prompt a le s with
  | (Stop o, s') => (Stop o, s')
  | (Next le', s') => try_ids prompt b le' s'
  end.
Proof.
  revert le s. induction a as [|id a IH]; intros le s; simpl; [done|].
  destruct (attempt prompt id le s) as [[o|le'] s']; [done|]. apply IH.
Qed.

(** The outer loop over the trial models is the scan of their
    attempts, by induction on the trial list. *)
Lemma try_models_scan (trial : list string) (le : option PyExc) (s : St) :
  try_models prompt trial le s = flat_scan (attempts trial) le s.
Proof.
  revert le s. induction trial as [|m trial IH]; intros le s; [done|].
  unfold flat_scan. change (attempts (m :: trial)) with (id_spellings m ++ attempts trial)%list.
  rewrite try_ids_app. cbn [try_models].
  destruct (try_ids prompt (id_spellings m) le s) as [[o|le'] s']; [done|]. apply IH.
Qed.

(** C1. The two nested loops of lines 96-114 (over the trial models, and
    over the bare and the [models/] spelling of each) behave as one loop
    over the flat list of attempts [m1; models/m1; m2; models/m2; ...],
    for every client and every state of it. *)
Theorem try_models_flat (trial : list string) (le : option PyExc) (s : St) :
  try_models prompt trial le s = flat_scan (attempts trial) le s.
Proof. apply try_models_scan. Qed.

End Generic.

(** ** The calls made, with the recording client *)

(** An answer the loop goes past: a retryable error, or an empty or
    missing text. *)
Definition passes (resp : PyExc + GenResponse) : bool :=
  match resp with
  | inl e => is_retryable e
  | inr g => match response_text g with Some t => String.eqb t ""%string | None => true end
  end.

(** [last_error = e] of line 107, for an answer the loop goes past. *)
Definition note_error (le : option PyExc) (resp : PyExc + GenResponse) : option PyExc :=
  match resp with inl e => Some e | inr _ => le end.

(** The generation calls made for a list of identifiers. *)
Definition gen_calls (prompt : string) (ids : list string) : list Call :=
  map (fun id => CallGenerate id prompt) ids.

(** The prompt and the trial list of a run of [generate_report]. *)
Definition report_prompt (items : list NewsItem) : string := build_prompt (news_context items).

Definition report_trial (nc : NewsCollector) (listed : PyExc + list ModelInfo) : list string :=
  merge_trial_models (candidate_models nc) (account_models_of listed).

Section Recording.
Variable L : PyExc + list ModelInfo.
Variable R : string -> string -> PyExc + GenResponse.

Lemma discover_recorder (log : list Call) :
  discover_models (mkRecorder L R log) = (account_models_of L, mkRecorder L R (log ++ [CallList])).
Proof. reflexivity. Qed.

Section WithPrompt.
Variable prompt : string.

Lemma attempt_pass (id : string) (le : option PyExc) (log : list Call) :
  passes (R id prompt) = true ->
  attempt prompt id le (mkRecorder L R log) =
  (Next (note_error le (R id prompt)), mkRecorder L R (log ++ [CallGenerate id prompt])).
Proof.
  unfold attempt, passes, note_error. recorder_simpl.
  destruct (R id prompt) as [e|[[t|]]]; cbn [response_text]; intros Hp; by rewrite ?Hp.
Qed.

Lemma try_ids_pass (pre rest : list string) (le : option PyExc) (log : list Call) :
  Forall (fun id => passes (R id prompt) = true) pre ->
  try_ids prompt (pre ++ rest) le (mkRecorder L R log) =
  try_ids prompt rest (fold_left (fun le id => note_error le (R id prompt)) pre le)
    (mkRecorder L R (log ++ gen_calls prompt pre)).
Proof.
  intros HF. revert le log. induction HF as [|id pre Hid HF IH]; intros le log; simpl.
  - by rewrite app_nil_r.
  - rewrite attempt_pass by done. rewrite IH. by rewrite <- app_assoc.
Qed.

Lemma try_ids_answered (id : string) (rest : list string) (le : option PyExc) (log : list Call) (t : string) :
  R id prompt = inr (mkGenResponse (Some t)) -> t <> ""%string ->
  try_ids prompt (id :: rest) le (mkRecorder L R log) =
  (Stop (Answered t), mkRecorder L R (log ++ [CallGenerate id prompt])).
Proof.
  intros HR Ht. cbn [try_ids]. unfold attempt. recorder_simpl.
  rewrite HR. cbn [response_text]. by destruct (String.eqb_spec t ""%string).
Qed.

Lemma try_ids_fatal (id : string) (rest : list string) (le : option PyExc) (log : list Call) (e : PyExc) :
  R id prompt = inl e -> is_retryable e = false ->
  try_ids prompt (id :: rest) le (mkRecorder L R log) =
  (Stop (Fatal id e), mkRecorder L R (log ++ [CallGenerate id prompt])).
Proof.
  intros HR He. cbn [try_ids]. unfold attempt. recorder_simpl.
  by rewrite HR, He.
Qed.

Lemma attempt_stop (id : string) (le : option PyExc) (log : list Call) :
  passes (R id prompt) = false ->
  exists o, attempt prompt id le (mkRecorder L R log) =
            (Stop o, mkRecorder L R (log ++ [CallGenerate id prompt])).
Proof.
  unfold attempt, passes. recorder_simpl.
  destruct (R id prompt) as [e|[[t|]]]; cbn [response_text]; intros Hp; rewrite ?Hp; eauto.
  discriminate.
Qed.

(** Whatever the answers, the calls made are the first [k] identifiers. *)
Lemma try_ids_prefix (ids : list string) (le : option PyExc) (log : list Call) :
  exists k, (k <= length ids)%nat /\
    snd (try_ids prompt ids le (mkRecorder L R log)) =
      mkRecorder L R (log ++ gen_calls prompt (take k ids)).
Proof.
  revert le log. induction ids as [|id ids IH]; intros le log.
  - exists 0. simpl. by rewrite app_nil_r.
  - destruct (passes (R id prompt)) eqn:Hp.
    + cbn [try_ids]. rewrite attempt_pass by done.
      destruct (IH (note_error le (R id prompt)) (log ++ [CallGenerate id prompt])) as (k & Hk & ->).
      exists (S k). split; [simpl; lia|]. by rewrite <- app_assoc.
    + destruct (attempt_stop id le log Hp) as [o Ho].
      exists 1. split; [simpl; lia|]. cbn [try_ids]. by rewrite Ho.
Qed.

End WithPrompt.

(** A run on a non-empty list: one listing call, then the flat scan. *)
Lemma generate_report_recorder (nc : NewsCollector) (items : list NewsItem) (log : list Call) :
  items <> [] ->
  generate_report nc items (mkRecorder L R log) =
  let '(o, s) := flat_scan (report_prompt items) (attempts (report_trial nc L)) None
                   (mkRecorder L R (log ++ [CallList])) in
  (render_outcome (report_trial nc L) o, s).
Proof.
  intros Hne. destruct items as [|it items]; [done|].
  unfold generate_report. rewrite discover_recorder. by rewrite try_models_scan.
Qed.

End Recording.

Lemma length_attempts (trial : list string) : length (attempts trial) = 2 * length trial.
Proof. unfold attempts. induction trial as [|m trial IH]; [done|]. simpl. lia. Qed.

Section Outcomes.
Variable L : PyExc + list ModelInfo.
Variable R : string -> string -> PyExc + GenResponse.
Variable nc : NewsCollector.
Variable items : list NewsItem.
Hypothesis items_nonempty : items <> [].
Variable log : list Call.

Let prompt := report_prompt items.
Let trial := report_trial nc L.

(** C2. First success wins: when every attempt before [id] fails with a
    retryable error or an empty text, and [id] answers a non-empty text
    [t], the report is [t]; the calls are the listing, then exactly the
    attempts up to [id], in order (spec section 8, fallback ordering). *)
Theorem generate_report_answered (pre post : list string) (id t : string) :
  attempts trial = pre ++ id :: post ->
  Forall (fun i => passes (R i prompt) = true) pre ->
  R id prompt = inr (mkGenResponse (Some t)) -> t <> ""%string ->
  generate_report nc items (mkRecorder L R log) =
  (t, mkRecorder L R (log ++ CallList :: gen_calls prompt (pre ++ [id]))).
Proof.
  intros Hatt Hpre HR Ht. rewrite generate_report_recorder by done. fold trial prompt.
  unfold flat_scan. rewrite Hatt, try_ids_pass by done.
  rewrite (try_ids_answered _ _ _ _ _ _ _ _ HR Ht). simpl.
  unfold gen_calls. by rewrite map_app, <- !app_assoc.
Qed.

(** C3. Fatal short-circuit: when the first attempt that is not passed
    over raises an error that is not retryable, the report is the fatal
    diagnostic naming that identifier and the error, and no later
    identifier is tried. *)
Theorem generate_report_fatal (pre post : list string) (id : string) (e : PyExc) :
  attempts trial = pre ++ id :: post ->
  Forall (fun i => passes (R i prompt) = true) pre ->
  R id prompt = inl e -> is_retryable e = false ->
  generate_report nc items (mkRecorder L R log) =
  (fatal_message id e, mkRecorder L R (log ++ CallList :: gen_calls prompt (pre ++ [id]))).
Proof.
  intros Hatt Hpre HR He. rewrite generate_report_recorder by done. fold trial prompt.
  unfold flat_scan. rewrite Hatt, try_ids_pass by done.
  rewrite (try_ids_fatal _ _ _ _ _ _ _ _ HR He). simpl.
  unfold gen_calls. by rewrite map_app, <- !app_assoc.
Qed.

(** A run in which every attempt is passed over: each attempt called
    once, in order, and the exhaustion message. *)
Lemma generate_report_all_pass :
  Forall (fun i => passes (R i prompt) = true) (attempts trial) ->
  generate_report nc items (mkRecorder L R log) =
  (exhausted_message (fold_left (fun le i => note_error le (R i prompt)) (attempts trial) None) trial,
   mkRecorder L R (log ++ CallList :: gen_calls prompt (attempts trial))).
Proof.
  intros Hall. rewrite generate_report_recorder by done. fold trial prompt.
  unfold flat_scan. rewrite <- (app_nil_r (attempts trial)) at 1.
  rewrite try_ids_pass by done. simpl. by rewrite <- app_assoc.
Qed.

(** C4. Total exhaustion: when every attempt is passed over, every
    attempt is called once, in order, and the report is the exhaustion
    message with the last error raised (or [None]) and the trial list. *)
Theorem generate_report_exhausted :
  Forall (fun i => passes (R i prompt) = true) (attempts trial) ->
  generate_report nc items (mkRecorder L R log) =
  (exhausted_message (fold_left (fun le i => note_error le (R i prompt)) (attempts trial) None) trial,
   mkRecorder L R (log ++ CallList :: gen_calls prompt (attempts trial))).
Proof. apply generate_report_all_pass. Qed.

(** C5. Whatever the answers, the generation calls are the first [k]
    attempts in order, [k] at most two per trial model, after exactly one
    listing call: no identifier is called twice or out of order. *)
Theorem generate_report_calls (o : string) (s : Recorder) :
  generate_report nc items (mkRecorder L R log) = (o, s) ->
  exists k, (k <= 2 * length trial)%nat /\
    s = mkRecorder L R (log ++ CallList :: gen_calls prompt (take k (attempts trial))).
Proof.
  rewrite generate_report_recorder by done. fold trial prompt. unfold flat_scan.
  destruct (try_ids_prefix L R prompt (attempts trial) None (log ++ [CallList])) as (k & Hk & Hs).
  destruct (try_ids prompt (attempts trial) None _) as [[o'|le] s'] eqn:E; simpl in Hs;
    intros [= _ <-]; exists k; rewrite length_attempts in Hk;
    (split; [lia| by rewrite Hs, <- app_assoc]).
Qed.

End Outcomes.

(** ** The trial list *)

Lemma merge_trial_models_prefix (trial acc : list string) :
  exists ext, merge_trial_models trial acc = trial ++ ext.
Proof.
  revert trial. induction acc as [|am acc IH]; intros trial; simpl.
  - exists []. by rewrite app_nil_r.
  - destruct (py_in (clean_model_name am) trial); [apply IH|].
    destruct (IH (trial ++ [clean_model_name am])) as [ext ->].
    exists (clean_model_name am :: ext). by rewrite <- app_assoc.
Qed.

Lemma merge_trial_models_NoDup (trial acc : list string) :
  NoDup trial -> NoDup (merge_trial_models trial acc).
Proof.
  revert trial. induction acc as [|am acc IH]; intros trial Hnd; simpl; [done|].
  destruct (py_in (clean_model_name am) trial) eqn:E; apply IH; [done|].
  apply NoDup_snoc; [done|]. by apply py_in_false.
Qed.

Lemma merge_trial_models_elem (trial acc : list string) (x : string) :
  x ∈ merge_trial_models trial acc <-> x ∈ trial \/ x ∈ map clean_model_name acc.
Proof.
  revert trial. induction acc as [|am acc IH]; intros trial; simpl; [set_solver|].
  rewrite IH. destruct (py_in (clean_model_name am) trial) eqn:E;
    [apply py_in_spec in E|]; set_solver.
Qed.

(** C6. The trial list of lines 89-93 starts with the candidate list,
    has no duplicates when the candidates have none, and holds exactly
    the candidates and the cleaned names of the discovered models. *)
Theorem merge_trial_models_spec (candidates account : list string) :
  NoDup candidates ->
  exists ext, merge_trial_models candidates account = candidates ++ ext /\
    NoDup (candidates ++ ext) /\
    (forall x, x ∈ candidates ++ ext <-> x ∈ candidates \/ x ∈ map clean_model_name account).
Proof.
  intros Hnd. destruct (merge_trial_models_prefix candidates account) as [ext Hext].
  exists ext. rewrite <- Hext. split; [done|]. split.
  - by apply merge_trial_models_NoDup.
  - intros x. apply merge_trial_models_elem.
Qed.

Lemma clean_model_name_prefixed (x : string) :
  clean_model_name ("models/" ++ x) = clean_model_name x.
Proof. by destruct x. Qed.

(** Duplicate suppression: discovered names that are candidates,
    written bare or with the [models/] prefix, add no attempt: the trial
    list is the candidate list. *)
Theorem merge_trial_models_known (candidates account : list string) :
  (forall am, am ∈ account ->
     exists x, x ∈ candidates /\ clean_model_name x = x /\ (am = x \/ am = ("models/" ++ x)%string)) ->
  merge_trial_models candidates account = candidates.
Proof.
  induction account as [|am account IH]; intros Hk; simpl; [done|].
  destruct (Hk am) as (x & Hx & Hcx & Ham); [set_solver|].
  assert (clean_model_name am = x) as ->.
  { destruct Ham as [->| ->]; [done|]. by rewrite clean_model_name_prefixed. }
  rewrite (proj2 (py_in_spec x candidates) Hx). apply IH. set_solver.
Qed.

(** ** Discovery *)

Lemma account_model_names_none (ms : list ModelInfo) :
  (exists m, m ∈ ms /\ supported_generation_methods m = None) ->
  exists e, account_model_names ms = inl e.
Proof.
  induction ms as [|m ms IH]; intros (m' & Hin & Hm'); [set_solver|].
  simpl. destruct (supported_generation_methods m) as [meths|] eqn:Hm; [|eauto].
  apply elem_of_cons in Hin as [->|Hin]; [congruence|].
  destruct IH as [e ->]; eauto.
Qed.

(** C7. One model whose [supported_generation_methods] is [None] makes
    the test ['generateContent' in None] of line 84 raise, and the bare
    [except] of line 85 then drops every discovered model, including the
    ones that do support [generateContent]. *)
Theorem discovery_none_discards_all (ms : list ModelInfo) :
  (exists m, m ∈ ms /\ supported_generation_methods m = None) ->
  account_models_of (inr ms) = [].
Proof. intros H. simpl. by destruct (account_model_names_none ms H) as [e ->]. Qed.

(** When every model lists its methods, discovery keeps, in order,
    the names of the models whose methods include [generateContent] or
    are empty. *)
Theorem discovery_filter (ms : list ModelInfo) (meths : ModelInfo -> list string) :
  (forall m, m ∈ ms -> supported_generation_methods m = Some (meths m)) ->
  account_models_of (inr ms) = map model_name (filter (fun m => keeps_model (meths m) = true) ms).
Proof.
  intros Hall. simpl.
  enough (account_model_names ms =
          inr (map model_name (filter (fun m => keeps_model (meths m) = true) ms))) as -> by done.
  induction ms as [|m ms IH]; [done|]. simpl.
  rewrite Hall by set_solver. rewrite IH by set_solver. rewrite filter_cons.
  by destruct (keeps_model (meths m)).
Qed.

(** ** The prompt *)

Lemma news_context_fold (items : list NewsItem) (a : string) :
  fold_left (fun acc item => (acc ++ item_block item)%string) items a =
  (a ++ fold_right (fun item r => item_block item ++ r) "" items)%string.
Proof.
  revert a. induction items as [|it items IH]; intros a; simpl.
  - by rewrite str_app_nil_r.
  - by rewrite IH, str_app_assoc.
Qed.

Lemma blocks_contain (items : list NewsItem) (it : NewsItem) (n : string) :
  it ∈ items -> py_contains n (item_block it) = true ->
  py_contains n (fold_right (fun item r => item_block item ++ r) "" items)%string = true.
Proof.
  intros Hin Hn. induction items as [|x items IH]; [set_solver|].
  apply elem_of_cons in Hin as [->|Hin]; cbn [fold_right]; [by apply py_contains_app_l|].
  by apply py_contains_app_r, IH.
Qed.

Lemma build_prompt_contains (n context : string) :
  py_contains n context = true -> py_contains n (build_prompt context) = true.
Proof. intros H. unfold build_prompt. cbn [py_join]. py_contains_find H. Qed.

Lemma py_contains_refl (s : string) : py_contains s s = true.
Proof. rewrite <- (str_app_nil_r s) at 2. apply py_contains_prefix. Qed.

(** The prompt keeps, for every item, its title and its link
    (lines 62-71): the report can cite every original link. *)
Theorem report_prompt_keeps_items (items : list NewsItem) (it : NewsItem) :
  it ∈ items ->
  py_contains (title it) (report_prompt items) = true /\
  py_contains (link it) (report_prompt items) = true.
Proof.
  intros Hin. unfold report_prompt, news_context. rewrite news_context_fold.
  split; apply build_prompt_contains; cbn [append]; eapply blocks_contain; [done| |done|];
    unfold item_block; [pose proof (py_contains_refl (title it)) as H
                       |pose proof (py_contains_refl (link it)) as H]; py_contains_find H.
Qed.

(** ** The exhaustion message *)

Section Exhaustion.
Variable L : PyExc + list ModelInfo.
Variable R : string -> string -> PyExc + GenResponse.
Variable nc : NewsCollector.
Variable items : list NewsItem.
Hypothesis items_nonempty : items <> [].
Variable log : list Call.

(** When every attempt is passed over and the last one raised [e],
    the report names [e] and the first 15 models of the trial list
    (lines 116-119). *)
Theorem generate_report_exhausted_message (pre : list string) (id : string) (e : PyExc) :
  attempts (report_trial nc L) = pre ++ [id] ->
  Forall (fun i => passes (R i (report_prompt items)) = true) (attempts (report_trial nc L)) ->
  R id (report_prompt items) = inl e ->
  let msg := fst (generate_report nc items (mkRecorder L R log)) in
  py_contains (py_str_exc e) msg = true /\
  py_contains (py_join ", " (take 15 (report_trial nc L))) msg = true /\
  (length (take 15 (report_trial nc L)) <= 15)%nat.
Proof.
  intros Hatt Hall HR msg. subst msg.
  rewrite (generate_report_all_pass L R nc items items_nonempty log Hall). simpl fst.
  rewrite Hatt, fold_left_app. cbn [fold_left note_error]. rewrite HR.
  unfold exhausted_message, py_str_opt.
  pose proof (py_contains_refl (py_str_exc e)) as H1.
  pose proof (py_contains_refl (py_join ", " (take 15 (report_trial nc L)))) as H2.
  split; [py_contains_find H1|split; [py_contains_find H2|]].
  rewrite length_take. lia.
Qed.

End Exhaustion.

(** ** The constructor *)

(** C8. [__init__] succeeds exactly when the key it reads is non-empty:
    the secret when the name is among the secrets (even an empty one),
    the environment variable otherwise; the candidate list is then the
    priority list of lines 17-25. *)
Theorem NewsCollector_init_spec (secret env : option string) (nc : NewsCollector) :
  NewsCollector_init secret env = inr nc <->
  exists k, (secret = Some k \/ secret = None /\ env = Some k) /\ k <> ""%string /\
            nc = mkNewsCollector k default_candidate_models.
Proof.
  unfold NewsCollector_init. split.
  - destruct secret as [k|]; [|destruct env as [k|]]; [| |done];
      destruct (String.eqb_spec k ""); intros; simplify_eq; eauto 10.
  - intros (k & [->|[-> ->]] & Hk & ->); by destruct (String.eqb_spec k "").
Qed.

(** ** Witnesses: the scenarios of the specification, run *)

Module Scenarios.
Local Open Scope string_scope.

Definition e404 : PyExc := mkExc "ClientError" "404 NOT_FOUND. models/A is not found".
Definition e500 : PyExc := mkExc "ServerError" "500 INTERNAL".
Definition listing_denied : PyExc + list ModelInfo := inl (mkExc "PermissionDenied" "403 Forbidden").
Definition nc3 : NewsCollector := mkNewsCollector "key" ["A"; "B"; "C"].
Definition nc2 : NewsCollector := mkNewsCollector "key" ["A"; "B"].
Definition item1 : NewsItem :=
  mkNewsItem "Chip news" "https://example.com/chips" "A new chip." "Example Feed" "2026-11-09 10:00:00".

(** A and B are not found, C answers. *)
Definition respond_C (m p : string) : PyExc + GenResponse :=
  if String.eqb m "C" then inr (mkGenResponse (Some "report")) else inl e404.

(** A fails with a server error. *)
Definition respond_A_fatal (m p : string) : PyExc + GenResponse :=
  if String.eqb m "A" then inl e500 else inr (mkGenResponse (Some "report")).

(** Nothing is found. *)
Definition respond_404 (m p : string) : PyExc + GenResponse := inl e404.

Ltac decide_prop := apply (bool_decide_unpack _); vm_compute; reflexivity.

Lemma generate_report_answered_witness :
  let p := report_prompt [item1] in
  generate_report nc3 [item1] (mkRecorder listing_denied respond_C []) =
  ("report", mkRecorder listing_denied respond_C
     [CallList; CallGenerate "A" p; CallGenerate "models/A" p;
      CallGenerate "B" p; CallGenerate "models/B" p; CallGenerate "C" p]).
Proof.
  apply (generate_report_answered listing_denied respond_C nc3 [item1] ltac:(discriminate) []
           ["A"; "models/A"; "B"; "models/B"] ["models/C"] "C" "report");
    [vm_compute; reflexivity | repeat constructor | reflexivity | discriminate].
Defined.

Lemma generate_report_fatal_witness :
  let p := report_prompt [item1] in
  generate_report nc2 [item1] (mkRecorder listing_denied respond_A_fatal []) =
  (fatal_message "A" e500, mkRecorder listing_denied respond_A_fatal [CallList; CallGenerate "A" p]).
Proof.
  apply (generate_report_fatal listing_denied respond_A_fatal nc2 [item1] ltac:(discriminate) []
           [] ["models/A"; "B"; "models/B"] "A" e500);
    [vm_compute; reflexivity | constructor | reflexivity | vm_compute; reflexivity].
Defined.

Lemma generate_report_exhausted_witness :
  let p := report_prompt [item1] in
  generate_report nc2 [item1] (mkRecorder listing_denied respond_404 []) =
  (exhausted_message (Some e404) ["A"; "B"],
   mkRecorder listing_denied respond_404
     [CallList; CallGenerate "A" p; CallGenerate "models/A" p;
      CallGenerate "B" p; CallGenerate "models/B" p]).
Proof.
  apply (generate_report_exhausted listing_denied respond_404 nc2 [item1] ltac:(discriminate) []).
  repeat constructor.
Defined.

Lemma generate_report_calls_witness :
  exists k, (k <= 2 * length (report_trial nc3 listing_denied))%nat /\
    snd (generate_report nc3 [item1] (mkRecorder listing_denied respond_C [])) =
    mkRecorder listing_denied respond_C
      (([] ++ CallList :: gen_calls (report_prompt [item1])
                           (take k (attempts (report_trial nc3 listing_denied))))%list).
Proof.
  apply (generate_report_calls listing_denied respond_C nc3 [item1] ltac:(discriminate) []
           (fst (generate_report nc3 [item1] (mkRecorder listing_denied respond_C [])))).
  apply surjective_pairing.
Defined.

Definition discovered : list string := ["models/gemini-2.5-flash"; "models/gemini-3-pro"; "gemini-3-pro"].

Lemma merge_trial_models_spec_witness :
  exists ext, merge_trial_models default_candidate_models discovered = (default_candidate_models ++ ext)%list /\
    NoDup ((default_candidate_models ++ ext)%list) /\
    (forall x, x ∈ (default_candidate_models ++ ext)%list <->
               x ∈ default_candidate_models \/ x ∈ map clean_model_name discovered).
Proof. apply merge_trial_models_spec. decide_prop. Defined.

Lemma merge_trial_models_known_witness :
  merge_trial_models default_candidate_models ["models/gemini-2.5-flash"; "gemini-2.0-flash"] =
  default_candidate_models.
Proof.
  apply merge_trial_models_known. intros am Ham.
  apply elem_of_cons in Ham as [->|Ham];
    [|apply elem_of_cons in Ham as [->|Ham]; [|by apply not_elem_of_nil in Ham]].
  - exists "gemini-2.5-flash". split; [decide_prop|split; [reflexivity|right; reflexivity]].
  - exists "gemini-2.0-flash". split; [decide_prop|split; [reflexivity|left; reflexivity]].
Defined.

Definition listed_with_legacy : list ModelInfo :=
  [mkModelInfo "models/gemini-2.5-flash" (Some ["generateContent"; "countTokens"]);
   mkModelInfo "models/legacy-model" None].

Lemma discovery_none_discards_all_witness : account_models_of (inr listed_with_legacy) = [].
Proof.
  apply discovery_none_discards_all.
  exists (mkModelInfo "models/legacy-model" None). split; [right; left|reflexivity].
Defined.

Definition listed_ok : list ModelInfo :=
  [mkModelInfo "models/gemini-2.5-flash" (Some ["generateContent"; "countTokens"]);
   mkModelInfo "models/embedding-001" (Some ["embedContent"]);
   mkModelInfo "models/aqa" (Some [])].

Lemma discovery_filter_witness :
  account_models_of (inr listed_ok) =
  map model_name (filter (fun m => keeps_model (default [] (supported_generation_methods m)) = true)
                   listed_ok).
Proof.
  apply discovery_filter. intros m Hm.
  repeat (apply elem_of_cons in Hm as [->|Hm]; [reflexivity|]). by apply not_elem_of_nil in Hm.
Defined.

Lemma report_prompt_keeps_items_witness :
  py_contains (title item1) (report_prompt [item1]) = true /\
  py_contains (link item1) (report_prompt [item1]) = true.
Proof. apply report_prompt_keeps_items. left. Defined.

Lemma generate_report_exhausted_message_witness :
  let msg := fst (generate_report nc2 [item1] (mkRecorder listing_denied respond_404 [])) in
  py_contains (py_str_exc e404) msg = true /\
  py_contains (py_join ", " (take 15 (report_trial nc2 listing_denied))) msg = true /\
  (length (take 15 (report_trial nc2 listing_denied)) <= 15)%nat.
Proof.
  apply (generate_report_exhausted_message listing_denied respond_404 nc2 [item1]
           ltac:(discriminate) [] ["A"; "models/A"; "B"] "models/B" e404);
    [vm_compute; reflexivity | repeat constructor | reflexivity].
Defined.

End Scenarios.
