(* ===== verification/Storage.v ===== *)
(** * The document store: [GitHubStorage.load_json] and [save_json]

    github_storage.py lines 17-56. The app uses the storage through two
    operations, so the storage is a type class [DocumentStore] with the
    laws the app relies on ([DocumentStoreLaws]); [GitHubStorage] is its
    instance over a model of the repository: a map from path to JSON
    document, a log of commits, and an optional API fault (a
    [GithubException] with a status other than 404, raised by every call
    while it lasts). A missing path raises [GithubException(404)] from
    [get_contents], which [load_json] turns into a default document chosen
    by the path and [save_json] into [create_file].

    Here a file holds the JSON value that [json.dumps] wrote and
    [json.loads] reads back; [JsonText] proves that [json.loads] of
    [json.dumps] gives a well-formed value back, and [TextStore] models the
    repository of text files and proves that it refines this one. *)

From S2P Require Import Prelude Datetime.
From stdpp Require Import gmap.

Local Open Scope Z_scope.

(** A JSON value as [json.loads] returns it; an object keeps its keys in
    insertion order, as a Python dict. *)
#[warnings="-register-all"]
Inductive Json :=
| JNull
| JBool (b : bool)
| JInt (n : Z)
| JStr (s : string)
| JArr (xs : list Json)
| JObj (kvs : list (string * Json)).

(** ** The interface *)

Class DocumentStore (S : Type) := {
  load_json : S -> string -> PyExc + Json;
  save_json : S -> string -> Json -> string -> PyExc + S
}.

Class DocumentStoreLaws (S : Type) `{DocumentStore S} := {
  load_save_eq : forall s p d m s', save_json s p d m = inr s' -> load_json s' p = inr d;
  load_save_ne : forall s p q d m s', p <> q -> save_json s p d m = inr s' -> load_json s' q = load_json s q
}.

(** ** The GitHub repository *)

(** The statuses of the faults other than a missing path. *)
Inductive ApiFault := Unauthorized | Forbidden | RateLimited | ServerError.

Definition fault_status (f : ApiFault) : Z :=
  match f with Unauthorized => 401 | Forbidden => 403 | RateLimited => 429 | ServerError => 500 end.

Inductive CommitKind := Created | Updated.

Record Commit := mkCommit { commit_path : string; commit_message : string; commit_kind : CommitKind }.

Record Repo := mkRepo {
  files : gmap string Json;
  commits : list Commit;
  api_fault : option ApiFault
}.

Definition github_exception (status : Z) : PyExc := mkExc "GithubException" (z_to_str status).

(** [self.repo.get_contents(file_path)]: the document, or the status of
    the [GithubException] it raises. *)
Definition get_contents (r : Repo) (path : string) : Z + Json :=
  match api_fault r with
  | Some f => inl (fault_status f)
  | None => match files r !! path with Some d => inr d | None => inl 404 end
  end.

(** Lines 25-32: the default document of a missing path. *)
Definition default_document (path : string) : Json :=
  if "feeds" ∈ₛ path then JArr []
  else if "archive" ∈ₛ path then JObj []
  else if "stats" ∈ₛ path then JObj [("total_views", JInt 0)]
  else JObj [].

(** [load_json] (lines 17-34). *)
Definition github_load_json (r : Repo) (path : string) : PyExc + Json :=
  match get_contents r path with
  | inr d => inr d
  | inl status => if Z.eqb status 404 then inr (default_document path) else inl (github_exception status)
  end.

(** [update_file] and [create_file]: the new content and one commit. *)
Definition write_file (r : Repo) (path : string) (data : Json) (message : string) (k : CommitKind) : Repo :=
  mkRepo (<[path := data]> (files r)) (commits r ++ [mkCommit path message k]) (api_fault r).

(** [save_json] (lines 36-56). *)
Definition github_save_json (r : Repo) (path : string) (data : Json) (message : string) : PyExc + Repo :=
  match get_contents r path with
  | inr _ => inr (write_file r path data message Updated)
  | inl status =>
      if Z.eqb status 404 then inr (write_file r path data message Created)
      else inl (github_exception status)
  end.

#[export] Instance GitHubStorage : DocumentStore Repo := {
  load_json := github_load_json;
  save_json := github_save_json
}.

(** ** The laws of the GitHub store *)

Lemma github_save_ok (r : Repo) (p : string) (d : Json) (m : string) (r' : Repo) :
  github_save_json r p d m = inr r' ->
  api_fault r = None /\ exists k, r' = write_file r p d m k.
Proof.
  unfold github_save_json, get_contents.
  destruct (api_fault r) as [f|]; [destruct f; discriminate|].
  destruct (files r !! p); intros [= <-]; eauto.
Qed.

Lemma get_contents_write (r : Repo) (p q : string) (d : Json) (m : string) (k : CommitKind) :
  api_fault r = None ->
  get_contents (write_file r p d m k) q = if decide (p = q) then inr d else get_contents r q.
Proof.
  intros Hf. unfold get_contents, write_file. simpl. rewrite Hf.
  rewrite lookup_insert. by case_decide.
Qed.

#[export] Instance GitHubStorage_laws : DocumentStoreLaws Repo.
Proof.
  split; intros s p.
  - intros d m s' (Hf & k & ->)%github_save_ok. simpl. unfold github_load_json.
    rewrite get_contents_write by done. by rewrite decide_True.
  - intros q d m s' Hne (Hf & k & ->)%github_save_ok. simpl. unfold github_load_json.
    rewrite get_contents_write by done. by rewrite decide_False.
Qed.

(** ** Properties of the GitHub store *)

(** [save_json] succeeds exactly when the API is not failing; it
    then writes the document and adds one commit with the message, an
    update when the path existed and a creation when it did not. *)
Theorem github_save_commit (r : Repo) (p : string) (d : Json) (m : string) (r' : Repo) :
  github_save_json r p d m = inr r' <->
  api_fault r = None /\
  r' = write_file r p d m (if files r !! p is Some _ then Updated else Created).
Proof.
  unfold github_save_json, get_contents. split.
  - destruct (api_fault r) as [f|]; [destruct f; discriminate|].
    destruct (files r !! p); by intros [= <-].
  - intros [-> ->]. by destruct (files r !! p).
Qed.

(** A missing path reads as the default document its name selects
    (lines 24-32): an empty list for feeds, an empty object for the
    archive, a zero counter for the statistics. *)
Theorem github_load_missing (r : Repo) (p : string) :
  api_fault r = None -> files r !! p = None ->
  github_load_json r p = inr (default_document p).
Proof. intros Hf Hp. unfold github_load_json, get_contents. by rewrite Hf, Hp. Qed.

(** A fault other than 404 is re-raised by both operations (lines
    33-34 and 55-56), and the repository is not written. *)
Theorem github_fault_raises (r : Repo) (p : string) (d : Json) (m : string) (f : ApiFault) :
  api_fault r = Some f ->
  github_load_json r p = inl (github_exception (fault_status f)) /\
  github_save_json r p d m = inl (github_exception (fault_status f)).
Proof. intros Hf. unfold github_load_json, github_save_json, get_contents. rewrite Hf. by destruct f. Qed.

Module Scenarios.

Definition empty_repo : Repo := mkRepo ∅ [] None.
Definition feeds_json : Json := JArr [JStr "https://tech.example/rss"].

Lemma github_save_commit_witness :
  github_save_json empty_repo "data/feeds.json" feeds_json "Add feed" =
  inr (write_file empty_repo "data/feeds.json" feeds_json "Add feed" Created).
Proof. apply github_save_commit. split; reflexivity. Defined.

Lemma github_load_missing_witness :
  github_load_json empty_repo "data/stats.json" = inr (JObj [("total_views", JInt 0)]).
Proof. apply github_load_missing; reflexivity. Defined.

Lemma github_fault_raises_witness :
  github_load_json (mkRepo ∅ [] (Some RateLimited)) "data/stats.json" = inl (github_exception 429) /\
  github_save_json (mkRepo ∅ [] (Some RateLimited)) "data/stats.json" JNull "x" = inl (github_exception 429).
Proof. apply (github_fault_raises _ _ _ _ RateLimited). reflexivity. Defined.

End Scenarios.
