(* ===== verification/App.v ===== *)
(** * The pages of app.py

    The handlers of src/app.py, written against the [DocumentStore]
    interface of [Storage] (and [ModelBackend] for the analysis run), so
    that their theorems hold for every store that satisfies the laws
    [DocumentStoreLaws], the GitHub store among them:
    - [update_view_count] (lines 23-27), run on every newsroom visit;
    - the admin gate (lines 52-57);
    - [add_feed] and [delete_feed], the two buttons of the feed tab
      (lines 64-83);
    - [run_analysis], the button of the analysis tab (lines 88-104).
    The Python operations on the loaded JSON ([d[k]], [d[k] = v], [+= 1],
    [in], [append], [pop], truthiness, [str]) are written out with the
    exception each raises on a value of the wrong type. *)

From S2P Require Import Prelude Datetime Collector Backend Reporter Storage.

Local Open Scope string_scope.

Definition stats_path : string := "data/stats.json".
Definition feeds_path : string := "data/feeds.json".
Definition archive_path : string := "data/news_archive.json".

(** ** Python operations on JSON values *)

Definition json_type_name (j : Json) : string :=
  match j with
  | JNull => "NoneType" | JBool _ => "bool" | JInt _ => "int"
  | JStr _ => "str" | JArr _ => "list" | JObj _ => "dict"
  end.

Definition type_error (msg : string) : PyExc := mkExc "TypeError" msg.

(** [bool(j)]. *)
Definition py_truthy (j : Json) : bool :=
  match j with
  | JNull => false
  | JBool b => b
  | JInt n => negb (Z.eqb n 0)
  | JStr s => negb (String.eqb s "")
  | JArr xs => negb (bool_decide (xs = []))
  | JObj kvs => negb (bool_decide (kvs = []))
  end.

(** [str(j)] ([quoted = false]) and [repr(j)] ([quoted = true]); the
    escapes of [repr] inside strings are not modelled. *)
Fixpoint json_str (quoted : bool) (j : Json) : string :=
  match j with
  | JNull => "None"
  | JBool b => if b then "True" else "False"
  | JInt n => z_to_str n
  | JStr s => if quoted then "'" ++ s ++ "'" else s
  | JArr xs => "[" ++ py_join ", " (map (json_str true) xs) ++ "]"
  | JObj kvs => "{" ++ py_join ", " (map (fun kv => "'" ++ kv.1 ++ "': " ++ json_str true kv.2) kvs) ++ "}"
  end.

Definition py_str_json (j : Json) : string := json_str false j.

Fixpoint dict_get (kvs : list (string * Json)) (k : string) : option Json :=
  match kvs with
  | [] => None
  | (k', v) :: rest => if String.eqb k' k then Some v else dict_get rest k
  end.

(** A dict assignment keeps the position of an existing key. *)
Fixpoint dict_set (kvs : list (string * Json)) (k : string) (v : Json) : list (string * Json) :=
  match kvs with
  | [] => [(k, v)]
  | (k', v') :: rest => if String.eqb k' k then (k', v) :: rest else (k', v') :: dict_set rest k v
  end.

(** [d[k]] with a string key. *)
Definition py_getitem (d : Json) (k : string) : PyExc + Json :=
  match d with
  | JObj kvs => match dict_get kvs k with Some v => inr v | None => inl (mkExc "KeyError" ("'" ++ k ++ "'")) end
  | JArr _ => inl (type_error "list indices must be integers or slices, not str")
  | JStr _ => inl (type_error "string indices must be integers, not 'str'")
  | j => inl (type_error ("'" ++ json_type_name j ++ "' object is not subscriptable"))
  end.

(** [d[k] = v] with a string key. *)
Definition py_setitem (d : Json) (k : string) (v : Json) : PyExc + Json :=
  match d with
  | JObj kvs => inr (JObj (dict_set kvs k v))
  | JArr _ => inl (type_error "list indices must be integers or slices, not str")
  | j => inl (type_error ("'" ++ json_type_name j ++ "' object does not support item assignment"))
  end.

(** [v + 1]; a [bool] is an [int]. *)
Definition py_add_one (v : Json) : PyExc + Json :=
  match v with
  | JInt n => inr (JInt (n + 1))
  | JBool b => inr (JInt (if b then 2 else 1))
  | j => inl (type_error ("unsupported operand types for +: '" ++ json_type_name j ++ "' and 'int'"))
  end.

(** [x in c] for a string [x]. *)
Definition py_in_json (x : string) (c : Json) : PyExc + bool :=
  match c with
  | JArr xs => inr (existsb (fun j => match j with JStr t => String.eqb t x | _ => false end) xs)
  | JObj kvs => inr (existsb (fun kv => String.eqb kv.1 x) kvs)
  | JStr t => inr (py_contains x t)
  | j => inl (type_error ("argument of type '" ++ json_type_name j ++ "' is not iterable"))
  end.

(** [c.append(v)]. *)
Definition py_append (c : Json) (v : Json) : PyExc + Json :=
  match c with
  | JArr xs => inr (JArr (xs ++ [v]))
  | j => inl (mkExc "AttributeError" ("'" ++ json_type_name j ++ "' object has no attribute 'append'"))
  end.

(** ** The admin gate (lines 52-57) *)

(** The password: the secret when its name is there, else the environment
    variable, else ["admin123"]. *)
Definition correct_password (secret env : option string) : string :=
  match secret with Some p => p | None => default "admin123" env end.

Definition admin_authorized (secret env : option string) (input : string) : bool :=
  String.eqb input (correct_password secret env).

Section Handlers.
Context {S : Type} `{DocumentStore S}.

(** [update_view_count] (lines 23-27): the new count and the store. *)
Definition update_view_count (s : S) : PyExc + (Json * S) :=
  let! stats := load_json s stats_path in
  let! v := py_getitem stats "total_views" in
  let! v' := py_add_one v in
  let! stats' := py_setitem stats "total_views" v' in
  let! s' := save_json s stats_path stats' "Increment view count" in
  inr (v', s').

(** The add button (lines 64-72): the feed list is loaded when the tab
    is drawn, then the guard of line 68. *)
Definition add_feed (s : S) (new_feed : string) : PyExc + S :=
  let! feeds := load_json s feeds_path in
  if String.eqb new_feed "" then inr s else
  let! present := py_in_json new_feed feeds in
  if present then inr s else
  let! feeds' := py_append feeds (JStr new_feed) in
  save_json s feeds_path feeds' ("Add feed: " ++ new_feed).

(** The delete button of the [i]-th feed (lines 76-83). *)
Definition delete_feed (s : S) (i : nat) : PyExc + S :=
  let! feeds := load_json s feeds_path in
  match feeds with
  | JArr xs =>
      match xs !! i with
      | Some feed => save_json s feeds_path (JArr (delete i xs)) ("Delete feed: " ++ py_str_json feed)
      | None => inl (mkExc "IndexError" "pop index out of range")
      end
  | JObj _ => inl (mkExc "KeyError" (z_to_str (Z.of_nat i)))
  | j => inl (mkExc "AttributeError" ("'" ++ json_type_name j ++ "' object has no attribute 'pop'"))
  end.

End Handlers.

(** ** The analysis run (lines 88-104) *)

(** [for url in rss_urls] over the loaded feed document: a list gives its
    elements (the feed parser sees their [str]), a dict its keys, a string
    its characters; other values raise. *)
Definition feed_urls (feeds : Json) : PyExc + list string :=
  match feeds with
  | JArr xs => inr (map py_str_json xs)
  | JObj kvs => inr (map fst kvs)
  | JStr s => inr (map (fun c => String c EmptyString) (list_ascii_of_string s))
  | j => inl (type_error ("'" ++ json_type_name j ++ "' object is not iterable"))
  end.

(** What the tab shows: the error of line 92, or the report under its
    key. *)
Inductive RunResult :=
| NoFeeds
| Reported (today_str : string) (report : string).

Section Run.
Context {S : Type} `{DocumentStore S}.
Context {B : Type} `{ModelBackend B}.
Variable utc_offset : Z.
Variable parse : string -> PyExc + Feed.
Variable nc : NewsCollector.

(** The button handler; the clock is read at line 30 ([now1]) and again
    at line 98 ([now2]), both as UTC microseconds. *)
Definition run_analysis (now1 now2 : Z) (s : S) (b : B) : PyExc + (RunResult * S * B) :=
  let! feeds := load_json s feeds_path in
  if negb (py_truthy feeds) then inr (NoFeeds, s, b) else
  let! urls := feed_urls feeds in
  let news_items := fst (fetch_news utc_offset parse (now_local utc_offset now1) urls) in
  let '(report, b') := generate_report nc news_items b in
  let today_str := strftime_ymd_hm (now_local utc_offset now2) in
  let! archive := load_json s archive_path in
  let! archive' := py_setitem archive today_str (JStr report) in
  let! s' := save_json s archive_path archive' ("New report for " ++ today_str) in
  inr (Reported today_str report, s', b').

(** The report written by a run that reads the feed list [urls]. *)
Definition run_report (now1 : Z) (urls : list string) (b : B) : string * B :=
  generate_report nc (fst (fetch_news utc_offset parse (now_local utc_offset now1) urls)) b.

End Run.

(** ** What the app keeps in the store *)

(** The feed list as the app keeps it: a list of distinct non-empty
    URLs. *)
Definition feeds_ok {S} `{DocumentStore S} (s : S) : Prop :=
  exists xs, load_json s feeds_path = inr (JArr (map JStr xs)) /\ NoDup xs /\ "" ∉ xs.

Section Views.
Context {S : Type} `{DocumentStore S}.

(** The stored counter is [n]. *)
Definition view_count_is (s : S) (n : Z) : Prop :=
  exists kvs, load_json s stats_path = inr (JObj kvs) /\ dict_get kvs "total_views" = Some (JInt n).

(** A sequence of successful visits, each on the store the previous one
    left: the value each returned and the store after it. *)
Fixpoint visits (s : S) (runs : list (Json * S)) : Prop :=
  match runs with
  | [] => True
  | (v, s') :: runs' => update_view_count s = inr (v, s') /\ visits s' runs'
  end.

Definition last_store (s : S) (runs : list (Json * S)) : S := default s (last (map snd runs)).

End Views.

(** ** Lemmas on dicts and on the store *)

Lemma dict_get_set_eq (kvs : list (string * Json)) (k : string) (v : Json) :
  dict_get (dict_set kvs k v) k = Some v.
Proof.
  induction kvs as [|[k' v'] kvs IH]; simpl; [by rewrite String.eqb_refl|].
  destruct (String.eqb_spec k' k) as [->|]; simpl; [by rewrite String.eqb_refl|].
  by destruct (String.eqb_spec k' k).
Qed.

Lemma dict_set_set (kvs : list (string * Json)) (k : string) (v w : Json) :
  dict_set (dict_set kvs k v) k w = dict_set kvs k w.
Proof.
  induction kvs as [|[k' v'] kvs IH]; simpl; [by rewrite String.eqb_refl|].
  destruct (String.eqb_spec k' k); simpl; [by rewrite (proj2 (String.eqb_eq _ _) e)|].
  destruct (String.eqb_spec k' k); [done|]. by rewrite IH.
Qed.

Section StoreLemmas.
Context {S : Type} `{DocumentStoreLaws S}.

Lemma paths_distinct : stats_path <> feeds_path /\ stats_path <> archive_path /\ feeds_path <> archive_path.
Proof. repeat split; discriminate. Qed.

(** A successful save at [p] leaves another path as it was. *)
Lemma load_after_save_ne (s s' : S) (p q : string) (d : Json) (m : string) :
  save_json s p d m = inr s' -> p <> q -> load_json s' q = load_json s q.
Proof. intros Hs Hne. by eapply load_save_ne. Qed.

End StoreLemmas.

Lemma py_in_json_strs (x : string) (xs : list string) :
  py_in_json x (JArr (map JStr xs)) = inr (bool_decide (x ∈ xs)).
Proof.
  simpl. f_equal. induction xs as [|y xs IH]; [done|]. simpl. rewrite IH.
  destruct (String.eqb_spec y x) as [->|Hne]; simpl.
  - rewrite bool_decide_eq_true_2; [done|set_solver].
  - apply bool_decide_ext. set_solver.
Qed.

Lemma map_delete {A B} (f : A -> B) (xs : list A) (i : nat) :
  map f (delete i xs) = delete i (map f xs).
Proof. revert i. induction xs as [|x xs IH]; intros [|i]; simpl; [done|done|done|]. by rewrite IH. Qed.

Lemma delete_NoDup {A} (xs : list A) (i : nat) : NoDup xs -> NoDup (delete i xs).
Proof. intros Hnd. eapply sublist_NoDup; [done|apply sublist_delete]. Qed.

(** ** The view counter *)

Section ViewCount.
Context {S : Type} `{DocumentStoreLaws S}.

Lemma update_view_count_inv (s s' : S) (v : Json) :
  update_view_count s = inr (v, s') ->
  exists stats v0 stats', load_json s stats_path = inr stats /\
    py_getitem stats "total_views" = inr v0 /\ py_add_one v0 = inr v /\
    py_setitem stats "total_views" v = inr stats' /\
    save_json s stats_path stats' "Increment view count" = inr s'.
Proof. unfold update_view_count. intros Hu. py_inv Hu. injection Hu as <- <-. eauto 10. Qed.

Lemma update_view_count_run (s s' : S) (kvs : list (string * Json)) (n : Z) :
  load_json s stats_path = inr (JObj kvs) ->
  dict_get kvs "total_views" = Some (JInt n) ->
  save_json s stats_path (JObj (dict_set kvs "total_views" (JInt (n + 1)%Z))) "Increment view count" = inr s' ->
  update_view_count s = inr (JInt (n + 1)%Z, s').
Proof.
  intros Hl Hg Hs. unfold update_view_count. rewrite Hl. cbn [py_bind py_getitem]. rewrite Hg.
  cbn [py_bind py_add_one py_setitem]. by rewrite Hs.
Qed.

(** A successful visit moves the stored counter from [n] to [n + 1]. *)
Lemma view_count_step (s s' : S) (n : Z) (v : Json) :
  view_count_is s n -> update_view_count s = inr (v, s') ->
  v = JInt (n + 1)%Z /\ view_count_is s' (n + 1)%Z.
Proof.
  intros (kvs & Hl & Hg) (stats & v0 & stats' & Hl' & Hget & Hadd & Hset & Hsave)%update_view_count_inv.
  rewrite Hl in Hl'. injection Hl' as <-. simpl in Hget. rewrite Hg in Hget. injection Hget as <-.
  injection Hadd as <-. injection Hset as <-. split; [done|].
  exists (dict_set kvs "total_views" (JInt (n + 1)%Z)). split; [by eapply load_save_eq|].
  apply dict_get_set_eq.
Qed.

(** C14. A visit whose save succeeds returns the stored count plus one,
    stores it back in place, and leaves the other documents as they
    were (lines 23-27). *)
Theorem update_view_count_spec (s s' : S) (kvs : list (string * Json)) (n : Z) :
  load_json s stats_path = inr (JObj kvs) ->
  dict_get kvs "total_views" = Some (JInt n) ->
  save_json s stats_path (JObj (dict_set kvs "total_views" (JInt (n + 1)%Z))) "Increment view count" = inr s' ->
  update_view_count s = inr (JInt (n + 1)%Z, s') /\
  load_json s' stats_path = inr (JObj (dict_set kvs "total_views" (JInt (n + 1)%Z))) /\
  (forall q, q <> stats_path -> load_json s' q = load_json s q).
Proof.
  intros Hl Hg Hs. split; [by apply (update_view_count_run s s' kvs n)|]. split.
  - by eapply load_save_eq.
  - intros q Hq. by eapply load_save_ne.
Qed.

Lemma last_store_cons (s s' : S) (v : Json) (runs : list (Json * S)) :
  last_store s ((v, s') :: runs) = last_store s' runs.
Proof.
  unfold last_store. cbn [map snd]. rewrite last_cons.
  destruct (last (map snd runs)) eqn:E; [done|]. apply last_None in E. by apply map_eq_nil in E as ->.
Qed.

(** The counter is an invariant of the store: from a store whose
    counter is [n], the successive successful visits return [n + 1],
    [n + 2], ..., and after [k] of them the stored counter is [n + k]. *)
Theorem update_view_count_increments (s : S) (n : Z) (runs : list (Json * S)) :
  view_count_is s n -> visits s runs ->
  map fst runs = map (fun i => JInt (n + Z.of_nat i)%Z) (seq 1 (length runs)) /\
  view_count_is (last_store s runs) (n + Z.of_nat (length runs))%Z.
Proof.
  revert s n. induction runs as [|[v s'] runs IH]; intros s n Hn Hv.
  - unfold last_store. simpl. by rewrite Z.add_0_r.
  - destruct Hv as [Hu Hv]. destruct (view_count_step s s' n v Hn Hu) as [-> Hn'].
    destruct (IH s' (n + 1)%Z Hn' Hv) as [Hmap Hlast]. split.
    + cbn [map fst length seq]. rewrite <- (seq_shift _ 1), map_map, Hmap.
      f_equal. apply map_ext. intros i. f_equal. lia.
    + rewrite last_store_cons. cbn [length].
      by replace (n + Z.of_nat (Datatypes.S (length runs)))%Z with (n + 1 + Z.of_nat (length runs))%Z by lia.
Qed.

End ViewCount.

(** ** The feed list *)

Section Feeds.
Context {S : Type} `{DocumentStoreLaws S}.

Lemma add_feed_effect (s s' : S) (xs : list string) (x : string) :
  load_json s feeds_path = inr (JArr (map JStr xs)) -> add_feed s x = inr s' ->
  (bool_decide (x = "" \/ x ∈ xs) = true /\ s' = s) \/
  (bool_decide (x = "" \/ x ∈ xs) = false /\
   save_json s feeds_path (JArr (map JStr (xs ++ [x]))) ("Add feed: " ++ x) = inr s').
Proof.
  intros Hl Ha. unfold add_feed in Ha. rewrite Hl in Ha. cbn [py_bind] in Ha.
  destruct (String.eqb_spec x "") as [->|Hx].
  - left. injection Ha as <-. split; [|done]. apply bool_decide_eq_true. by left.
  - rewrite py_in_json_strs in Ha. cbn [py_bind] in Ha.
    destruct (bool_decide (x ∈ xs)) eqn:Hin.
    + left. injection Ha as <-. split; [|done]. apply bool_decide_eq_true.
      right. by apply bool_decide_eq_true in Hin.
    + right. split.
      * apply bool_decide_eq_false. apply bool_decide_eq_false in Hin. tauto.
      * cbn [py_append py_bind] in Ha. by rewrite map_app.
Qed.

Lemma delete_feed_effect (s s' : S) (ys : list Json) (i : nat) :
  load_json s feeds_path = inr (JArr ys) -> delete_feed s i = inr s' ->
  exists feed, ys !! i = Some feed /\
    save_json s feeds_path (JArr (delete i ys)) ("Delete feed: " ++ py_str_json feed) = inr s'.
Proof.
  intros Hl Hd. unfold delete_feed in Hd. rewrite Hl in Hd. cbn [py_bind] in Hd.
  destruct (ys !! i) as [feed|]; [eauto|discriminate].
Qed.

Lemma feeds_ok_add (s s' : S) (x : string) : feeds_ok s -> add_feed s x = inr s' -> feeds_ok s'.
Proof.
  intros (xs & Hl & Hnd & Hne) Ha.
  destruct (add_feed_effect s s' xs x Hl Ha) as [[_ ->]|[Hb Hs]]; [by exists xs|].
  apply bool_decide_eq_false in Hb. exists (xs ++ [x])%list. split; [by eapply load_save_eq|].
  split; [apply NoDup_snoc; [done|tauto]|]. rewrite elem_of_app, list_elem_of_singleton. naive_solver.
Qed.

Lemma feeds_ok_delete (s s' : S) (i : nat) : feeds_ok s -> delete_feed s i = inr s' -> feeds_ok s'.
Proof.
  intros (xs & Hl & Hnd & Hne) Hd.
  destruct (delete_feed_effect s s' _ i Hl Hd) as (feed & _ & Hs).
  exists (delete i xs). split; [rewrite map_delete; by eapply load_save_eq|].
  split; [by apply delete_NoDup|]. intros Hin. by apply list_elem_of_delete_inv in Hin.
Qed.

(** C15. The add button appends a new non-empty URL at the end of the
    stored list and changes no other document; an empty or already listed
    URL leaves the store untouched (line 68). *)
Theorem add_feed_spec (s s' : S) (xs : list string) (x : string) :
  load_json s feeds_path = inr (JArr (map JStr xs)) -> add_feed s x = inr s' ->
  load_json s' feeds_path =
    inr (JArr (map JStr (if bool_decide (x = "" \/ x ∈ xs) then xs else xs ++ [x]))) /\
  (forall q, q <> feeds_path -> load_json s' q = load_json s q) /\
  (bool_decide (x = "" \/ x ∈ xs) = true -> s' = s).
Proof.
  intros Hl Ha. destruct (add_feed_effect s s' xs x Hl Ha) as [[Hb ->]|[Hb Hs]]; rewrite Hb.
  - done.
  - split; [by eapply load_save_eq|]. split; [|done]. intros q Hq. by eapply load_save_ne.
Qed.

(** C16. The feed list stays a list of distinct non-empty URLs through
    every successful add or delete. *)
Theorem feeds_ok_preserved (s s' : S) (x : string) (i : nat) :
  feeds_ok s -> add_feed s x = inr s' \/ delete_feed s i = inr s' -> feeds_ok s'.
Proof. intros Hok [Ha|Hd]; [by eapply feeds_ok_add|by eapply feeds_ok_delete]. Qed.

(** The delete button of the [i]-th feed removes exactly that
    element and changes no other document (lines 79-83). *)
Theorem delete_feed_spec (s s' : S) (ys : list Json) (i : nat) :
  load_json s feeds_path = inr (JArr ys) -> delete_feed s i = inr s' ->
  load_json s' feeds_path = inr (JArr (delete i ys)) /\
  length (delete i ys) = pred (length ys) /\
  (forall q, q <> feeds_path -> load_json s' q = load_json s q).
Proof.
  intros Hl Hd. destruct (delete_feed_effect s s' ys i Hl Hd) as (feed & Hi & Hs).
  split; [by eapply load_save_eq|]. split.
  - rewrite length_delete by eauto. lia.
  - intros q Hq. by eapply load_save_ne.
Qed.

End Feeds.

(** ** The analysis run *)

Section RunProps.
Context {S : Type} `{DocumentStoreLaws S}.
Context {B : Type} `{ModelBackend B}.
Variable utc_offset : Z.
Variable parse : string -> PyExc + Feed.
Variable nc : NewsCollector.

Lemma run_analysis_inv (now1 now2 : Z) (s s' : S) (b b' : B) (r : RunResult) :
  run_analysis utc_offset parse nc now1 now2 s b = inr (r, s', b') ->
  exists feeds, load_json s feeds_path = inr feeds /\
  ((py_truthy feeds = false /\ r = NoFeeds /\ s' = s /\ b' = b) \/
   (exists urls archive archive',
      let today := strftime_ymd_hm (now_local utc_offset now2) in
      py_truthy feeds = true /\ feed_urls feeds = inr urls /\
      load_json s archive_path = inr archive /\
      py_setitem archive today (JStr (run_report utc_offset parse nc now1 urls b).1) = inr archive' /\
      save_json s archive_path archive' ("New report for " ++ today) = inr s' /\
      r = Reported today (run_report utc_offset parse nc now1 urls b).1 /\ b' = (run_report utc_offset parse nc now1 urls b).2)).
Proof.
  unfold run_analysis, run_report. intros Hr. py_inv Hr. exists j. split; [done|].
  destruct (py_truthy j) eqn:Ht; cbn [negb] in Hr; [right|left; by injection Hr as <- <- <-].
  py_inv Hr. destruct (generate_report _ _ b) as [rep b1] eqn:G. py_inv Hr.
  injection Hr as <- <- <-. exists l, j0, j1. rewrite G. cbn [fst snd]. by split_and!.
Qed.

Lemma run_analysis_archive_step (now1 now2 : Z) (s s' : S) (b b' : B) (k rep : string)
    (kvs : list (string * Json)) :
  run_analysis utc_offset parse nc now1 now2 s b = inr (Reported k rep, s', b') ->
  load_json s archive_path = inr (JObj kvs) ->
  load_json s' archive_path = inr (JObj (dict_set kvs k (JStr rep))) /\
  (forall q, q <> archive_path -> load_json s' q = load_json s q).
Proof.
  intros Hr Ha. destruct (run_analysis_inv _ _ _ _ _ _ _ Hr) as (feeds & Hf & [(_ & [=] & _)|(urls & archive & archive' & Hrun)]).
  cbn zeta in Hrun. destruct Hrun as (_ & _ & Ha' & Hset & Hsave & [= -> ->] & _).
  rewrite Ha in Ha'. injection Ha' as <-. injection Hset as <-. split; [by eapply load_save_eq|].
  intros q Hq. by eapply load_save_ne.
Qed.

(** C17. A run over a non-empty feed list stores the report that
    [generate_report] made from the collected items under the minute of
    the second clock reading, in the archive, and changes no other
    document: the feed list and the counter are as before. *)
Theorem run_analysis_archives (now1 now2 : Z) (s s' : S) (b b' : B) (k rep : string)
    (kvs : list (string * Json)) :
  load_json s archive_path = inr (JObj kvs) ->
  run_analysis utc_offset parse nc now1 now2 s b = inr (Reported k rep, s', b') ->
  k = strftime_ymd_hm (now_local utc_offset now2) /\
  (exists feeds urls, load_json s feeds_path = inr feeds /\ feed_urls feeds = inr urls /\
                      (rep, b') = run_report utc_offset parse nc now1 urls b) /\
  load_json s' archive_path = inr (JObj (dict_set kvs k (JStr rep))) /\
  load_json s' feeds_path = load_json s feeds_path /\
  load_json s' stats_path = load_json s stats_path.
Proof.
  intros Ha Hr. destruct (run_analysis_archive_step _ _ _ _ _ _ _ _ _ Hr Ha) as [Hs' Hother].
  destruct (run_analysis_inv _ _ _ _ _ _ _ Hr) as (feeds & Hf & [(_ & [=] & _)|(urls & archive & archive' & Hrun)]).
  cbn zeta in Hrun. destruct Hrun as (_ & Hu & _ & _ & _ & [= -> ->] & ->).
  split; [done|]. split; [exists feeds, urls; by rewrite <- surjective_pairing|].
  split; [done|]. split; apply Hother; discriminate.
Qed.

(** With an empty feed list the run shows the error of line 92 and
    neither collects, nor calls the model service, nor writes. *)
Theorem run_analysis_no_feeds (now1 now2 : Z) (s : S) (b : B) (feeds : Json) :
  load_json s feeds_path = inr feeds -> py_truthy feeds = false ->
  run_analysis utc_offset parse nc now1 now2 s b = inr (NoFeeds, s, b).
Proof. intros Hf Ht. unfold run_analysis. rewrite Hf. cbn [py_bind]. by rewrite Ht. Qed.

(** The archive key of a run is the minute of its second clock
    reading (line 98). *)
Lemma run_analysis_key (now1 now2 : Z) (s s' : S) (b b' : B) (k rep : string) :
  run_analysis utc_offset parse nc now1 now2 s b = inr (Reported k rep, s', b') ->
  k = strftime_ymd_hm (now_local utc_offset now2).
Proof.
  intros Hr. destruct (run_analysis_inv _ _ _ _ _ _ _ Hr) as (feeds & _ & [(_ & [=] & _)|(urls & archive & archive' & Hrun)]).
  cbn zeta in Hrun. by destruct Hrun as (_ & _ & _ & _ & _ & [= -> _] & _).
Qed.

(** C18. The archive key has minute granularity: when the second clock
    readings of two runs fall in the same minute, the second run writes
    under the key of the first, and the archive then holds the second
    report there and no longer the first. *)
Theorem run_analysis_same_minute (now1 now2 now1' now2' : Z) (s s1 s2 : S) (b b1 b2 : B)
    (k1 k2 r1 r2 : string) (kvs : list (string * Json)) :
  (now_local utc_offset now2 / (60 * us_per_sec) = now_local utc_offset now2' / (60 * us_per_sec))%Z ->
  load_json s archive_path = inr (JObj kvs) ->
  run_analysis utc_offset parse nc now1 now2 s b = inr (Reported k1 r1, s1, b1) ->
  run_analysis utc_offset parse nc now1' now2' s1 b1 = inr (Reported k2 r2, s2, b2) ->
  k2 = k1 /\ load_json s2 archive_path = inr (JObj (dict_set kvs k1 (JStr r2))).
Proof.
  intros Hm Ha Hr1 Hr2.
  assert (Hk : k2 = k1).
  { rewrite (run_analysis_key _ _ _ _ _ _ _ _ Hr1), (run_analysis_key _ _ _ _ _ _ _ _ Hr2).
    by apply strftime_ymd_hm_same_minute. }
  subst k2. split; [done|].
  destruct (run_analysis_archive_step _ _ _ _ _ _ _ _ _ Hr1 Ha) as [Ha1 _].
  destruct (run_analysis_archive_step _ _ _ _ _ _ _ _ _ Hr2 Ha1) as [Ha2 _].
  by rewrite dict_set_set in Ha2.
Qed.

End RunProps.

(** ** Witnesses *)

Module Scenarios.

Definition tech_url : string := Collector.Scenarios.tech_url.

Definition repo0 : Repo :=
  mkRepo (<[stats_path := JObj [("total_views", JInt 41)]]>
          (<[feeds_path := JArr [JStr tech_url]]>
           (<[archive_path := JObj []]> ∅))) [] None.

Definition new_url : string := "https://new.example/rss".

Lemma update_view_count_spec_witness :
  exists s', update_view_count repo0 = inr (JInt 42, s') /\
    load_json s' stats_path = inr (JObj [("total_views", JInt 42)]) /\
    (forall q, q <> stats_path -> load_json s' q = load_json repo0 q).
Proof. eexists. eapply (update_view_count_spec repo0 _ [("total_views", JInt 41)] 41); reflexivity. Defined.

Definition after_visit (s : Repo) : Repo :=
  match update_view_count s with inr (_, s') => s' | inl _ => s end.

Definition two_visits : list (Json * Repo) :=
  [(JInt 42, after_visit repo0); (JInt 43, after_visit (after_visit repo0))].

Lemma update_view_count_increments_witness :
  visits repo0 two_visits /\
  map fst two_visits = [JInt 42; JInt 43] /\ view_count_is (last_store repo0 two_visits) 43.
Proof.
  assert (Hv : visits repo0 two_visits) by (split; [reflexivity|split; [reflexivity|exact I]]).
  destruct (update_view_count_increments repo0 41 two_visits) as [Hm Hl];
    [exists [("total_views", JInt 41)]; split; reflexivity|exact Hv|].
  split; [exact Hv|]. split; [exact Hm|exact Hl].
Defined.

Lemma add_feed_spec_witness :
  exists s', add_feed repo0 new_url = inr s' /\
    load_json s' feeds_path = inr (JArr (map JStr (if bool_decide (new_url = "" \/ new_url ∈ [tech_url])
                                                      then [tech_url] else [tech_url; new_url]))) /\
    (forall q, q <> feeds_path -> load_json s' q = load_json repo0 q) /\
    (bool_decide (new_url = "" \/ new_url ∈ [tech_url]) = true -> s' = repo0).
Proof. eexists. split; [reflexivity|]. apply (add_feed_spec repo0 _ [tech_url] new_url); reflexivity. Defined.

Lemma feeds_ok_preserved_witness :
  exists s', add_feed repo0 new_url = inr s' /\ feeds_ok s'.
Proof.
  eexists. split; [reflexivity|]. apply (feeds_ok_preserved repo0 _ new_url 0); [|left; reflexivity].
  exists [tech_url]. split; [reflexivity|]. split; [apply NoDup_singleton|].
  rewrite list_elem_of_singleton. discriminate.
Defined.

Lemma delete_feed_spec_witness :
  exists s', delete_feed repo0 0 = inr s' /\
    load_json s' feeds_path = inr (JArr []) /\ length (delete 0 [JStr tech_url]) = 0 /\
    (forall q, q <> feeds_path -> load_json s' q = load_json repo0 q).
Proof. eexists. split; [reflexivity|]. apply (delete_feed_spec repo0 _ [JStr tech_url] 0); reflexivity. Defined.

Definition rec0 : Recorder :=
  mkRecorder Reporter.Scenarios.listing_denied Reporter.Scenarios.respond_C [].

Definition now1 : Z := Collector.Scenarios.utc_now.
Definition now2 : Z := (Collector.Scenarios.utc_now + 30 * us_per_sec)%Z.
Definition now2' : Z := (Collector.Scenarios.utc_now + 50 * us_per_sec)%Z.

Definition run1 := run_analysis 0 Collector.Scenarios.parse_demo Reporter.Scenarios.nc3 now1 now2 repo0 rec0.

Lemma run_analysis_archives_witness :
  match run1 with
  | inr (Reported k rep, s', b') =>
      k = strftime_ymd_hm (now_local 0 now2) /\
      (exists feeds urls, load_json repo0 feeds_path = inr feeds /\ feed_urls feeds = inr urls /\
         (rep, b') = run_report 0 Collector.Scenarios.parse_demo Reporter.Scenarios.nc3 now1 urls rec0) /\
      load_json s' archive_path = inr (JObj (dict_set [] k (JStr rep))) /\
      load_json s' feeds_path = load_json repo0 feeds_path /\
      load_json s' stats_path = load_json repo0 stats_path
  | _ => False
  end.
Proof.
  destruct run1 as [e|[[[|k rep] s'] b']] eqn:E;
    [vm_compute in E; discriminate E|vm_compute in E; discriminate E|].
  exact (run_analysis_archives 0 Collector.Scenarios.parse_demo Reporter.Scenarios.nc3 now1 now2
           repo0 s' rec0 b' k rep [] eq_refl E).
Defined.

Definition repo_nofeeds : Repo := mkRepo (<[feeds_path := JArr []]> ∅) [] None.

Lemma run_analysis_no_feeds_witness :
  run_analysis 0 Collector.Scenarios.parse_demo Reporter.Scenarios.nc3 now1 now2 repo_nofeeds rec0 =
  inr (NoFeeds, repo_nofeeds, rec0).
Proof. apply (run_analysis_no_feeds _ _ _ _ _ _ _ (JArr [])); reflexivity. Defined.

(** The store and client after a run. *)
Definition after_run (r : PyExc + (RunResult * Repo * Recorder)) : Repo * Recorder :=
  match r with inr (_, s, b) => (s, b) | inl _ => (repo0, rec0) end.

Definition run2 : PyExc + (RunResult * Repo * Recorder) :=
  run_analysis 0 Collector.Scenarios.parse_demo Reporter.Scenarios.nc3 now1 now2'
    (after_run run1).1 (after_run run1).2.

Lemma run_analysis_same_minute_witness :
  match run1, run2 with
  | inr (Reported k r1, s1, b1), inr (Reported k' r2, s2, b2) =>
      k' = k /\ load_json s2 archive_path = inr (JObj (dict_set [] k (JStr r2)))
  | _, _ => False
  end.
Proof.
  unfold run2. destruct run1 as [e|[[[|k r1] s1] b1]] eqn:E;
    [vm_compute in E; discriminate E|vm_compute in E; discriminate E|].
  pose proof E as E'. vm_compute in E'. injection E' as <- <- <- <-. cbn [after_run fst snd].
  match goal with |- match ?r with _ => _ end => destruct r as [e|[[[|k' r2] s2] b2]] eqn:E2 end;
    [vm_compute in E2; discriminate E2|vm_compute in E2; discriminate E2|].
  exact (run_analysis_same_minute 0 Collector.Scenarios.parse_demo Reporter.Scenarios.nc3
           now1 now2 now1 now2' repo0 _ s2 rec0 _ b2 _ k' _ r2 [] ltac:(vm_compute; reflexivity) eq_refl E E2).
Defined.


End Scenarios.
