(* ===== verification/Page.v ===== *)
(** * One run of the Streamlit script app.py

    Streamlit executes app.py from the top on every interaction. A run
    reads the store, may write it, may call the collector and the model
    client, and draws a sequence of page elements; it ends normally, at
    [st.stop()], at [st.rerun()] (the script is started again with no
    button pressed) or at an uncaught exception, which Streamlit shows in
    place of the rest of the page. This file models a whole run:
    - the state of a run is a [World] (the document store, the model
      client, the elements drawn so far) and a run is a [Script], a state
      and exception monad over it, with stdpp's [MRet]/[MBind] so the
      handlers read like the Python code ([x ← m; k]);
    - the user's interaction is a [Request]: the menu choice, the date
      chosen in the archive box, the password and URL typed, and the one
      button pressed in this run;
    - [app_init] is the [try] of lines 11-16 over [GitHubStorage.__init__]
      (github_storage.py lines 8-15) and [NewsCollector.__init__];
      [newsroom] is lines 30-46, [dashboard] lines 49-110 with its three
      tabs [feed_tab], [run_tab] and [stats_tab], [app_script] the script
      given the outcome of lines 12-13, and [app_run] the script when
      both constructors run on the run ([init_collector]); [Session]
      adds the cache of the singletons around the runs.

    The theorems relate the script to the handlers of [App]: the store a
    dashboard run leaves is the one [add_feed], [delete_feed] or
    [run_analysis] computes; the newsroom shows the greatest archive key
    first; a failed initialisation or a wrong password changes nothing;
    with no password configured the dashboard opens exactly for the
    ["admin123"] of the code; and every run keeps the store well typed.

    Widget values follow Streamlit: a radio or select box returns the
    option the user chose, or its first option. The transient spinner and
    the page layout (columns) are not modelled. *)

From S2P Require Import Prelude Datetime Collector Backend Reporter Storage App.
From stdpp Require Import sorting.

Local Open Scope string_scope.

(** ** Page elements and runs *)

Inductive Widget :=
| PageConfig (page_title : string)
| Title (s : string)
| Subheader (s : string)
| Markdown (s : string)
| WriteText (s : string)
| InfoBox (s : string)
| ErrorBox (s : string)
| WarningBox (s : string)
| SuccessBox (s : string)
| Metric (label value : string)
| Radio (label : string) (options : list string)
| TextInput (label : string)
| PasswordInput (label : string)
| Button (label key : string)
| Selectbox (label : string) (options : list string) (value : string)
| Tabs (labels : list string)
| Sidebar (w : Widget).

(** How a run ends early. *)
Inductive Halt :=
| Stopped
| Rerun
| Raised (e : PyExc).

Section Script.
Context {S B : Type}.

Record World := mkWorld { store : S; client : B; shown : list Widget }.

Definition Script (A : Type) : Type := World -> (Halt + A) * World.

#[export] Instance script_ret : MRet Script := fun A a w => (inr a, w).

#[export] Instance script_bind : MBind Script := fun A C k m w =>
  match m w with
  | (inl h, w') => (inl h, w')
  | (inr a, w') => k a w'
  end.

Definition halt {A} (h : Halt) : Script A := fun w => (inl h, w).

Definition draw (x : Widget) : Script unit :=
  fun w => (inr tt, mkWorld (store w) (client w) (shown w ++ [x])).

(** A Python value or the exception it raises. *)
Definition raise_ {A} (r : PyExc + A) : Script A :=
  match r with inl e => halt (Raised e) | inr a => mret a end.

Definition set_store (w : World) (s : S) : World := mkWorld s (client w) (shown w).
Definition set_client (w : World) (b : B) : World := mkWorld (store w) b (shown w).

(** A handler on the store that returns a value. *)
Definition store_op {A} (f : S -> PyExc + (A * S)) : Script A :=
  fun w => match f (store w) with
           | inl e => (inl (Raised e), w)
           | inr (a, s') => (inr a, set_store w s')
           end.

(** A call of the collector that uses the model client. *)
Definition with_client {A} (f : B -> A * B) : Script A :=
  fun w => ((inr (f (client w)).1), set_client w (f (client w)).2).

(** A script that leaves the store and the client as they were. *)
Definition keeps {A} (m : Script A) : Prop :=
  forall w, store (m w).2 = store w /\ client (m w).2 = client w.

(** A script that only adds elements to the page drawn so far. *)
Definition appends {A} (m : Script A) : Prop :=
  forall w, exists l, shown (m w).2 = (shown w ++ l)%list.

End Script.

Arguments World : clear implicits.
Arguments Script : clear implicits.

Section Store.
Context {S B : Type} `{DocumentStore S}.

Definition load (p : string) : Script S B Json :=
  fun w => match load_json (store w) p with
           | inl e => (inl (Raised e), w)
           | inr d => (inr d, w)
           end.

Definition save (p : string) (d : Json) (m : string) : Script S B unit :=
  store_op (fun s => let! s' := save_json s p d m in inr (tt, s')).

End Store.

(** ** Python and Streamlit operations *)

(** [st.radio] and [st.selectbox]: the option chosen, or the first. *)
Definition widget_value (options : list string) (choice : option string) : string :=
  match choice with
  | Some c => if py_in c options then c else default "" (head options)
  | None => default "" (head options)
  end.

(** [d.keys()]. *)
Definition py_keys (d : Json) : PyExc + list string :=
  match d with
  | JObj kvs => inr (map fst kvs)
  | j => inl (mkExc "AttributeError" ("'" ++ json_type_name j ++ "' object has no attribute 'keys'"))
  end.

(** [sorted(keys, reverse=True)]: Python's sort is a stable merge sort
    and compares strings by code point, which on their UTF-8 bytes is
    the byte order [String.le]. *)
Definition py_sorted_desc (ks : list string) : list string := merge_sort (flip String.le) ks.

(** The values [for x in j] goes through. *)
Definition py_iter (j : Json) : PyExc + list Json :=
  match j with
  | JArr xs => inr xs
  | JObj kvs => inr (map (fun kv => JStr kv.1) kvs)
  | JStr s => inr (map (fun c => JStr (String c EmptyString)) (list_ascii_of_string s))
  | j => inl (type_error ("'" ++ json_type_name j ++ "' object is not iterable"))
  end.

(** [feeds.pop(i)]: the list without its [i]-th element. *)
Definition py_pop (j : Json) (i : nat) : PyExc + Json :=
  match j with
  | JArr xs => if decide (i < length xs)%nat then inr (JArr (delete i xs))
               else inl (mkExc "IndexError" "pop index out of range")
  | JObj _ => inl (mkExc "KeyError" (z_to_str (Z.of_nat i)))
  | j => inl (mkExc "AttributeError" ("'" ++ json_type_name j ++ "' object has no attribute 'pop'"))
  end.

(** [st.secrets[k] if k in st.secrets else os.getenv(k)]. *)
Record Config := mkConfig {
  cfg_secret : string -> option string;
  cfg_env : string -> option string;
  (** The exception of [Github(token).get_repo(name)], if it raises. *)
  cfg_get_repo : string -> string -> option PyExc
}.

Definition secret_or_env (cfg : Config) (k : string) : option string :=
  match cfg_secret cfg k with Some v => Some v | None => cfg_env cfg k end.

Definition py_truthy_opt (o : option string) : bool :=
  match o with Some v => negb (String.eqb v "") | None => false end.

(** A [GitHubStorage] object: the token and repository name it was
    built with; the repository it reaches is the document store. *)
Record GitHubStorageObj := mkGitHubStorage { gs_token : string; gs_repo_name : string }.

(** [GitHubStorage.__init__] (github_storage.py lines 8-15). *)
Definition GitHubStorage_init (cfg : Config) : PyExc + GitHubStorageObj :=
  let token := secret_or_env cfg "GITHUB_TOKEN" in
  let repo_name := secret_or_env cfg "REPO_NAME" in
  if negb (py_truthy_opt token) || negb (py_truthy_opt repo_name) then
    inl (mkExc "ValueError" "GITHUB_TOKEN and REPO_NAME must be set in secrets or environment variables.")
  else match cfg_get_repo cfg (default "" token) (default "" repo_name) with
       | Some e => inl e
       | None => inr (mkGitHubStorage (default "" token) (default "" repo_name))
       end.

(** [NewsCollector()] (news_collector.py lines 9-12) on a configuration. *)
Definition NewsCollector_new (cfg : Config) : PyExc + NewsCollector :=
  NewsCollector_init (cfg_secret cfg "GEMINI_API_KEY") (cfg_env cfg "GEMINI_API_KEY").

(** ** The run *)

(** The button pressed in this run, if any. *)
Inductive Click :=
| NoClick
| ClickAdd
| ClickDelete (i : nat)
| ClickRun.

Record Request := mkRequest {
  menu_choice : option string;
  date_choice : option string;
  password_input : string;
  feed_input : string;
  click : Click
}.

Definition menu_newsroom : string := "뉴스룸".
Definition menu_admin : string := "관리자 대시보드".
Definition menu_options : list string := [menu_newsroom; menu_admin].

Definition deletes_row (c : Click) (i : nat) : bool :=
  if c is ClickDelete j then Nat.eqb j i else false.

Section Page.
Context {S : Type} `{DocumentStore S}.
Context {B : Type} `{ModelBackend B}.
Variable cfg : Config.
Variable utc_offset : Z.
Variable parse : string -> PyExc + Feed.
(** The clock at [fetch_news] (news_collector.py line 30) and at line 98,
    as UTC microseconds. *)
Variables now1 now2 : Z.

(** Lines 12-13 when both constructors run: the storage, then the
    collector. *)
Definition init_collector : PyExc + NewsCollector :=
  let! _ := GitHubStorage_init cfg in
  NewsCollector_new cfg.

(** Lines 11-16, given the outcome [init] of lines 12-13. *)
Definition app_init (init : PyExc + NewsCollector) : Script S B NewsCollector :=
  match init with
  | inr nc => mret nc
  | inl e => draw (ErrorBox ("Initialization Error: " ++ py_str_exc e));; halt Stopped
  end.

(** Lines 30-46. *)
Definition newsroom (req : Request) : Script S B unit :=
  total_views ← store_op update_view_count;
  draw (Title "🗞️ 오늘의 AI IT 뉴스 브리핑");;
  archive ← load archive_path;
  (if negb (py_truthy archive) then
     draw (InfoBox "아직 생성된 리포트가 없습니다. 관리자 대시보드에서 분석을 실행해 주세요.")
   else
     keys ← raise_ (py_keys archive);
     let dates := py_sorted_desc keys in
     let selected_date := widget_value dates (date_choice req) in
     draw (Sidebar (Selectbox "과거 리포트 보기" dates selected_date));;
     draw (Markdown ("### 📅 " ++ selected_date ++ " 리포트"));;
     report ← raise_ (py_getitem archive selected_date);
     draw (Markdown (py_str_json report)));;
  draw (Sidebar (Markdown ("**누적 방문자 수:** " ++ py_str_json total_views))).

(** Lines 67-72: the add button. *)
Definition add_clicked (feeds : Json) (new_feed : string) : Script S B unit :=
  if String.eqb new_feed "" then mret tt else
  present ← raise_ (py_in_json new_feed feeds);
  if (present : bool) then mret tt else
  feeds' ← raise_ (py_append feeds (JStr new_feed));
  save feeds_path feeds' ("Add feed: " ++ new_feed);;
  draw (SuccessBox "피드가 추가되었습니다.");;
  halt Rerun.

(** Lines 76-83: one row per feed, from the [i]-th on. *)
Fixpoint feed_rows (req : Request) (feeds : Json) (i : nat) (rows : list Json) : Script S B unit :=
  match rows with
  | [] => mret tt
  | feed :: rows' =>
      draw (WriteText (py_str_json feed));;
      draw (Button "삭제" ("del_" ++ z_to_str (Z.of_nat i)));;
      if deletes_row (click req) i then
        feeds' ← raise_ (py_pop feeds i);
        save feeds_path feeds' ("Delete feed: " ++ py_str_json feed);;
        draw (SuccessBox "피드가 삭제되었습니다.");;
        halt Rerun
      else feed_rows req feeds (Nat.succ i) rows'
  end.

(** Lines 62-83. *)
Definition feed_tab (req : Request) : Script S B unit :=
  draw (Subheader "RSS 피드 관리");;
  feeds ← load feeds_path;
  draw (TextInput "새 RSS URL 추가");;
  draw (Button "추가" "");;
  (if click req is ClickAdd then add_clicked feeds (feed_input req) else mret tt);;
  draw (WriteText "---");;
  draw (WriteText "현재 등록된 피드:");;
  rows ← raise_ (py_iter feeds);
  feed_rows req feeds 0 rows.

(** Lines 86-104. *)
Definition run_tab (nc : NewsCollector) (req : Request) : Script S B unit :=
  draw (Subheader "뉴스 수집 및 AI 분석 실행");;
  draw (Button "🚀 분석 시작" "");;
  if click req is ClickRun then
    feeds ← load feeds_path;
    if negb (py_truthy feeds) then draw (ErrorBox "등록된 RSS 피드가 없습니다.") else
    urls ← raise_ (feed_urls feeds);
    let news_items := fst (fetch_news utc_offset parse (now_local utc_offset now1) urls) in
    report ← with_client (generate_report nc news_items);
    let today_str := strftime_ymd_hm (now_local utc_offset now2) in
    archive ← load archive_path;
    archive' ← raise_ (py_setitem archive today_str (JStr report));
    save archive_path archive' ("New report for " ++ today_str);;
    draw (SuccessBox (today_str ++ " 리포트 생성 완료!"));;
    draw (Markdown report)
  else mret tt.

(** Lines 107-110. *)
Definition stats_tab : Script S B unit :=
  draw (Subheader "방문자 통계");;
  stats ← load stats_path;
  v ← raise_ (py_getitem stats "total_views");
  draw (Metric "누적 방문자 수" (py_str_json v)).

Definition admin_ok (req : Request) : bool :=
  admin_authorized (cfg_secret cfg "ADMIN_PASSWORD") (cfg_env cfg "ADMIN_PASSWORD") (password_input req).

(** Lines 49-110. *)
Definition dashboard (nc : NewsCollector) (req : Request) : Script S B unit :=
  draw (Title "⚙️ 관리자 대시보드");;
  draw (Sidebar (PasswordInput "관리자 암호"));;
  (if negb (admin_ok req) then draw (WarningBox "비밀번호를 입력해 주세요.");; halt Stopped
   else mret tt);;
  draw (Tabs ["피드 관리"; "분석 실행"; "통계"]);;
  feed_tab req;;
  run_tab nc req;;
  stats_tab.

(** The script, lines 8-110, given the outcome [init] of lines 12-13. *)
Definition app_script (init : PyExc + NewsCollector) (req : Request) : Script S B unit :=
  draw (PageConfig "AI IT Newsroom");;
  nc ← app_init init;
  draw (Sidebar (Title "🚀 IT Newsroom"));;
  draw (Sidebar (Radio "메뉴" menu_options));;
  let menu := widget_value menu_options (menu_choice req) in
  if String.eqb menu menu_newsroom then newsroom req
  else if String.eqb menu menu_admin then dashboard nc req
  else mret tt.

(** The script when lines 12-13 build both objects on this run. *)
Definition app_run (req : Request) : Script S B unit := app_script init_collector req.

(** ** The effect of a run on the store, as a function of the request

    The abstract specification of a run that [app_run_refines] proves the
    script implements: the store it leaves, computed from the handlers of
    [App]. *)

(** The store a button's branch leaves, as a function of the store. *)
Definition effect_or (s : S) (r : PyExc + S) : S := if r is inr s' then s' else s.

Definition dashboard_effect (nc : NewsCollector) (req : Request) (s : S) (b : B) : S :=
  match click req with
  | NoClick => s
  | ClickAdd => effect_or s (add_feed s (feed_input req))
  | ClickDelete i => effect_or s (delete_feed s i)
  | ClickRun => if run_analysis utc_offset parse nc now1 now2 s b is inr (_, s', _) then s' else s
  end.

Definition app_effect_with (init : PyExc + NewsCollector) (req : Request) (s : S) (b : B) : S :=
  match init with
  | inl _ => s
  | inr nc =>
      let menu := widget_value menu_options (menu_choice req) in
      if String.eqb menu menu_newsroom then (if update_view_count s is inr (_, s') then s' else s)
      else if String.eqb menu menu_admin then (if admin_ok req then dashboard_effect nc req s b else s)
      else s
  end.

Definition app_effect (req : Request) (s : S) (b : B) : S := app_effect_with init_collector req s b.

End Page.

(** ** The documents the app keeps *)

Definition stats_doc_ok (d : Json) : Prop :=
  exists kvs n, d = JObj kvs /\ dict_get kvs "total_views" = Some (JInt n).

Definition feeds_doc_ok (d : Json) : Prop :=
  exists xs, d = JArr (map JStr xs) /\ NoDup xs /\ "" ∉ xs.

Definition archive_doc_ok (d : Json) : Prop :=
  exists kvs, d = JObj kvs /\ Forall (fun kv => exists r, kv.2 = JStr r) kvs.

(** The store is well typed: the counter is an integer in a dict, the
    feed list a list of distinct non-empty URL strings, the archive a dict
    of report strings. *)
Definition store_typed {S} `{DocumentStore S} (s : S) : Prop :=
  (exists d, load_json s stats_path = inr d /\ stats_doc_ok d) /\
  (exists d, load_json s feeds_path = inr d /\ feeds_doc_ok d) /\
  (exists d, load_json s archive_path = inr d /\ archive_doc_ok d).

(** ** Laws of the script monad *)

Section Laws.
Context {S B : Type}.

Lemma keeps_ret {A} (a : A) : keeps (mret a : Script S B A).
Proof. done. Qed.

Lemma keeps_bind {A C} (m : Script S B A) (k : A -> Script S B C) :
  keeps m -> (forall a, keeps (k a)) -> keeps (m ≫= k).
Proof.
  intros Hm Hk w. unfold mbind, script_bind. specialize (Hm w).
  destruct (m w) as [[h|a] w']; simpl in *; [done|]. destruct Hm as [<- <-]. apply Hk.
Qed.

Lemma keeps_draw (x : Widget) : keeps (draw x : Script S B unit).
Proof. done. Qed.

Lemma keeps_halt {A} (h : Halt) : keeps (halt h : Script S B A).
Proof. done. Qed.

Lemma keeps_raise {A} (r : PyExc + A) : keeps (raise_ r : Script S B A).
Proof. by destruct r. Qed.

Lemma keeps_load `{DocumentStore S} (p : string) : keeps (load p : Script S B Json).
Proof. intros w. unfold load. by destruct (load_json (store w) p). Qed.

(** After a script whose continuation keeps the state, the state is the
    one the script left. *)
Lemma bind_keeps_r {A C} (m : Script S B A) (k : A -> Script S B C) (w : World S B) :
  (forall a, keeps (k a)) ->
  store ((m ≫= k) w).2 = store (m w).2 /\ client ((m ≫= k) w).2 = client (m w).2.
Proof.
  intros Hk. unfold mbind, script_bind. destruct (m w) as [[h|a] w']; [done|]. apply Hk.
Qed.

Lemma bind_keeps_store {A C} (m : Script S B A) (k : A -> Script S B C) (w : World S B) :
  (forall a, keeps (k a)) -> store ((m ≫= k) w).2 = store (m w).2.
Proof. intros Hk. apply (bind_keeps_r m k w Hk). Qed.

Lemma bind_keeps_client {A C} (m : Script S B A) (k : A -> Script S B C) (w : World S B) :
  (forall a, keeps (k a)) -> client ((m ≫= k) w).2 = client (m w).2.
Proof. intros Hk. apply (bind_keeps_r m k w Hk). Qed.

Lemma bind_halted {A C} (m : Script S B A) (k : A -> Script S B C) (w w' : World S B) (h : Halt) :
  m w = (inl h, w') -> (m ≫= k) w = (inl h, w').
Proof. intros E. unfold mbind, script_bind. by rewrite E. Qed.

Lemma bind_returned {A C} (m : Script S B A) (k : A -> Script S B C) (w w' : World S B) (a : A) :
  m w = (inr a, w') -> (m ≫= k) w = k a w'.
Proof. intros E. unfold mbind, script_bind. by rewrite E. Qed.

End Laws.

Create HintDb page discriminated.
#[export] Hint Resolve keeps_ret keeps_bind keeps_draw keeps_halt keeps_raise keeps_load : page.
#[export] Hint Extern 1 (keeps (match ?c with _ => _ end)) => destruct c : page.
#[export] Hint Extern 2 (keeps (let '(_, _) := ?p in _)) => destruct p : page.

(** One step at the head of a script, in the world it starts from. *)
Section Head.
Context {S B : Type}.

Lemma bind_draw {C} (x : Widget) (k : unit -> Script S B C) (w : World S B) :
  (draw x ≫= k) w = k tt (mkWorld (store w) (client w) (shown w ++ [x])).
Proof. done. Qed.

Lemma bind_ret {A C} (a : A) (k : A -> Script S B C) (w : World S B) : (mret a ≫= k) w = k a w.
Proof. done. Qed.

Lemma bind_raise {A C} (r : PyExc + A) (k : A -> Script S B C) (w : World S B) :
  (raise_ r ≫= k) w = match r with inl e => (inl (Raised e), w) | inr a => k a w end.
Proof. by destruct r. Qed.

Lemma bind_halt {A C} (h : Halt) (k : A -> Script S B C) (w : World S B) : (halt h ≫= k) w = (inl h, w).
Proof. done. Qed.

Lemma bind_load `{DocumentStore S} {C} (p : string) (k : Json -> Script S B C) (w : World S B) :
  (load p ≫= k) w = match load_json (store w) p with inl e => (inl (Raised e), w) | inr d => k d w end.
Proof. unfold load, mbind, script_bind. by destruct (load_json (store w) p). Qed.

Lemma bind_save `{DocumentStore S} {C} (p : string) (d : Json) (m : string) (k : unit -> Script S B C) (w : World S B) :
  (save p d m ≫= k) w =
  match save_json (store w) p d m with inl e => (inl (Raised e), w) | inr s' => k tt (set_store w s') end.
Proof. unfold save, store_op, mbind, script_bind. by destruct (save_json (store w) p d m). Qed.

Lemma bind_assoc {A A' C} (m : Script S B A) (f : A -> Script S B A') (g : A' -> Script S B C) (w : World S B) :
  ((m ≫= f) ≫= g) w = (m ≫= fun x => f x ≫= g) w.
Proof. unfold mbind, script_bind. by destruct (m w) as [[]]. Qed.

Lemma bind_unfold {A C} (m : Script S B A) (k : A -> Script S B C) (w : World S B) :
  (m ≫= k) w = match m w with (inl h, w') => (inl h, w') | (inr a, w') => k a w' end.
Proof. done. Qed.

Lemma bind_with_client {A C} (f : B -> A * B) (k : A -> Script S B C) (w : World S B) :
  (with_client f ≫= k) w = k (f (client w)).1 (set_client w (f (client w)).2).
Proof. done. Qed.

End Head.

Create Rewrite HintDb script.
#[export] Hint Rewrite @bind_draw @bind_ret @bind_raise @bind_halt @bind_load @bind_save @bind_with_client @bind_assoc : script.

(** Take the steps at the head of a script. *)
Ltac script_head :=
  repeat progress (autorewrite with script;
                   cbn [store client shown set_store set_client draw halt py_bind fst snd]).

(** Evaluate the monad's plumbing. *)
Ltac script_simpl :=
  repeat progress (
    unfold mbind, mret, script_bind, script_ret, save, store_op, load, with_client in *;
    cbn [halt draw raise_ set_store set_client store client shown py_bind fst snd] in * ).

(** ** The archive's date order *)

#[export] Instance string_ge_trans : Transitive (flip String.le).
Proof. intros x y z Hxy Hyz. unfold flip in *. by trans y. Qed.

#[export] Instance string_ge_antisym : AntiSymm (=) (flip String.le).
Proof. intros x y Hxy Hyx. by apply (anti_symm String.le). Qed.

#[export] Instance string_ge_total : Total (flip String.le).
Proof. intros x y. unfold flip. destruct (total String.le x y); auto. Qed.

Lemma py_sorted_desc_perm (ks : list string) : py_sorted_desc ks ≡ₚ ks.
Proof. apply merge_sort_Permutation. Qed.

Lemma py_sorted_desc_sorted (ks : list string) : StronglySorted (flip String.le) (py_sorted_desc ks).
Proof. apply StronglySorted_merge_sort; apply _. Qed.

(** The first date of the sorted list is the greatest key. *)
Lemma py_sorted_desc_head (ks : list string) :
  ks <> [] -> exists k rest, py_sorted_desc ks = k :: rest /\ k ∈ ks /\ forall x, x ∈ ks -> String.le x k.
Proof.
  intros Hne. pose proof (py_sorted_desc_perm ks) as P. pose proof (py_sorted_desc_sorted ks) as So.
  destruct (py_sorted_desc ks) as [|k rest] eqn:E.
  { apply Permutation_nil in P. done. }
  exists k, rest. split; [done|]. split; [rewrite <- P; by left|].
  intros x Hx. rewrite <- P in Hx. apply StronglySorted_inv in So as [_ Hk].
  apply elem_of_cons in Hx as [->|Hx]; [done|].
  rewrite Forall_forall in Hk. exact (Hk x Hx).
Qed.

(** ** What a run does to the store *)

Section Effects.
Context {S : Type} `{DocumentStore S}.
Context {B : Type} `{ModelBackend B}.
Variable cfg : Config.
Variable utc_offset : Z.
Variable parse : string -> PyExc + Feed.
Variables now1 now2 : Z.

Lemma stats_tab_keeps : keeps (stats_tab : Script S B unit).
Proof. unfold stats_tab. eauto 10 with page. Qed.

Lemma feed_rows_keeps (req : Request) (feeds : Json) (k : nat) (rows : list Json) :
  (forall i, deletes_row (click req) i = false) -> keeps (feed_rows req feeds k rows : Script S B unit).
Proof.
  intros Hno. revert k. induction rows as [|feed rows IH]; intros k; cbn [feed_rows]; [apply keeps_ret|].
  rewrite Hno. eauto with page.
Qed.

#[local] Hint Resolve feed_rows_keeps : page.
#[local] Hint Extern 1 (deletes_row _ _ = false) =>
  match goal with Hc : click _ = _ |- _ => rewrite Hc; reflexivity end : page.

Lemma run_tab_keeps (nc : NewsCollector) (req : Request) :
  click req <> ClickRun -> keeps (run_tab utc_offset parse now1 now2 nc req : Script S B unit).
Proof. intros Hc. unfold run_tab. destruct (click req); [..|done]; eauto with page. Qed.

Lemma newsroom_store (req : Request) (w : World S B) :
  store (newsroom req w).2 = (if update_view_count (store w) is inr (_, s') then s' else store w) /\
  client (newsroom req w).2 = client w.
Proof.
  unfold newsroom. rewrite bind_keeps_store, bind_keeps_client; [|intros; eauto 20 with page..].
  unfold store_op. by destruct (update_view_count (store w)) as [|[]].
Qed.

Lemma add_clicked_store (feeds : Json) (x : string) (w : World S B) :
  load_json (store w) feeds_path = inr feeds ->
  store (add_clicked feeds x w).2 = effect_or (store w) (add_feed (store w) x) /\
  client (add_clicked feeds x w).2 = client w.
Proof.
  intros Hl. unfold add_clicked, add_feed. rewrite Hl. cbn [py_bind].
  destruct (String.eqb x ""); [done|].
  destruct (py_in_json x feeds) as [e|[]]; script_simpl; [done|done|].
  destruct (py_append feeds (JStr x)) as [e|feeds']; script_simpl; [done|].
  by destruct (save_json (store w) feeds_path feeds' ("Add feed: " ++ x)).
Qed.

Lemma feed_tab_add (req : Request) (w : World S B) :
  click req = ClickAdd ->
  store (feed_tab req w).2 = effect_or (store w) (add_feed (store w) (feed_input req)) /\
  client (feed_tab req w).2 = client w.
Proof.
  intros Hc. unfold feed_tab. rewrite Hc. script_head.
  destruct (load_json (store w) feeds_path) as [e|feeds] eqn:Hl; script_head.
  - unfold add_feed. by rewrite Hl.
  - rewrite bind_keeps_store, bind_keeps_client.
    + exact (add_clicked_store feeds _ (mkWorld _ _ _) Hl).
    + intros; eauto 20 with page.
    + intros; eauto 20 with page.
Qed.

Lemma feed_rows_delete (req : Request) (feeds : Json) (i : nat) (rows : list Json) (k : nat) (w : World S B) :
  click req = ClickDelete i ->
  store (feed_rows req feeds k rows w).2 =
    (if decide (k <= i)%nat then
       match rows !! (i - k)%nat, py_pop feeds i with
       | Some feed, inr feeds' =>
           effect_or (store w) (save_json (store w) feeds_path feeds' ("Delete feed: " ++ py_str_json feed))
       | _, _ => store w
       end
     else store w) /\
  client (feed_rows req feeds k rows w).2 = client w.
Proof.
  intros Hc. revert k w. induction rows as [|feed rows IH]; intros k w; cbn [feed_rows].
  - cbn. destruct (decide (k <= i)%nat); [|done]. by rewrite lookup_nil.
  - script_head. unfold deletes_row. rewrite Hc. destruct (Nat.eqb_spec i k) as [->|Hne].
    + rewrite decide_True, Nat.sub_diag by lia. cbn [lookup list_lookup].
      script_head. destruct (py_pop feeds k) as [e|feeds']; script_head; [done|].
      by destruct (save_json (store w) feeds_path feeds' _).
    + rewrite (proj1 (IH (Datatypes.S k) _)), (proj2 (IH (Datatypes.S k) _)). cbn [store client].
      split; [|done]. destruct (decide (Datatypes.S k <= i)%nat), (decide (k <= i)%nat); try lia; [|done].
      by replace (i - k)%nat with (Datatypes.S (i - Datatypes.S k)) by lia.
Qed.

Lemma feed_tab_delete (req : Request) (i : nat) (w : World S B) :
  click req = ClickDelete i ->
  store (feed_tab req w).2 = effect_or (store w) (delete_feed (store w) i) /\
  client (feed_tab req w).2 = client w.
Proof.
  intros Hc. unfold feed_tab. rewrite Hc. script_head. unfold delete_feed.
  destruct (load_json (store w) feeds_path) as [e|feeds] eqn:Hl; script_head; [done|].
  destruct feeds as [| | | |xs|kvs]; cbn [py_iter py_bind]; script_head; try done;
    rewrite (proj1 (feed_rows_delete _ _ i _ 0 _ Hc)), (proj2 (feed_rows_delete _ _ i _ 0 _ Hc));
    cbn [store client]; (split; [|done]);
    rewrite Nat.sub_0_r; destruct (decide (0 <= i)%nat); try lia.
  - destruct (_ !! i); cbn [py_pop]; done.
  - destruct (xs !! i) as [feed|] eqn:E; [|done]. cbn [py_pop].
    by rewrite decide_True by (eapply lookup_lt_Some; eauto).
  - destruct (_ !! i); cbn [py_pop]; done.
Qed.

Lemma run_tab_store (nc : NewsCollector) (req : Request) (w : World S B) :
  click req = ClickRun ->
  store (run_tab utc_offset parse now1 now2 nc req w).2 =
    (if run_analysis utc_offset parse nc now1 now2 (store w) (client w) is inr (_, s', _) then s' else store w) /\
  (forall r s' b', run_analysis utc_offset parse nc now1 now2 (store w) (client w) = inr (r, s', b') ->
     client (run_tab utc_offset parse now1 now2 nc req w).2 = b').
Proof.
  intros Hc. unfold run_tab, run_analysis. rewrite Hc. script_head.
  destruct (load_json (store w) feeds_path) as [e|feeds]; script_head; [split; [done|discriminate]|].
  destruct (py_truthy feeds); cbn [negb]; script_head; [|split; [done|by intros ??? [= _ <- <-]]].
  destruct (feed_urls feeds) as [e|urls]; script_head; [split; [done|discriminate]|].
  destruct (generate_report nc _ (client w)) as [rep b1]; script_head.
  destruct (load_json (store w) archive_path) as [e|archive]; script_head; [split; [done|discriminate]|].
  destruct (py_setitem archive _ (JStr rep)) as [e|archive']; script_head; [split; [done|discriminate]|].
  destruct (save_json (store w) archive_path archive' _); script_head; [split; [done|discriminate]|].
  split; [done|by intros ??? [= _ <- <-]].
Qed.

Lemma feed_rows_returns (req : Request) (feeds : Json) (k : nat) (rows : list Json) (w : World S B) :
  (forall i, deletes_row (click req) i = false) -> (feed_rows req feeds k rows w).1 = inr tt.
Proof.
  intros Hno. revert k w. induction rows as [|feed rows IH]; intros k w; [done|].
  cbn [feed_rows]. script_head. rewrite Hno. apply IH.
Qed.

Lemma feed_tab_keeps (req : Request) :
  click req = NoClick \/ click req = ClickRun -> keeps (feed_tab req : Script S B unit).
Proof. intros Hc. unfold feed_tab. destruct Hc as [Hc|Hc]; rewrite Hc; eauto 20 with page. Qed.

(** Without an add or delete button, the feed tab only stops on a store
    error or on a feed document it cannot iterate. *)
Lemma feed_tab_halted (req : Request) (w w' : World S B) (h : Halt) :
  click req = ClickRun -> feed_tab req w = (inl h, w') ->
  exists e, load_json (store w) feeds_path = inl e \/
            exists feeds, load_json (store w) feeds_path = inr feeds /\ py_iter feeds = inl e.
Proof.
  intros Hc. unfold feed_tab. rewrite Hc. script_head.
  destruct (load_json (store w) feeds_path) as [e|feeds] eqn:Hl; [eauto|]. script_head.
  destruct (py_iter feeds) as [e|rows] eqn:Hi; [intros _; eauto 6|]. script_head. intros F.
  apply (f_equal fst) in F. rewrite feed_rows_returns in F; [discriminate|]. by rewrite Hc.
Qed.

Lemma feed_urls_iter (j : Json) :
  feed_urls j = match py_iter j with inl e => inl e | inr xs => inr (map py_str_json xs) end.
Proof. destruct j; cbn; try done; by rewrite map_map. Qed.

(** A run whose feed document cannot be iterated writes nothing. *)
Lemma run_analysis_iter_fails (nc : NewsCollector) (s : S) (b : B) (feeds : Json) (e : PyExc) :
  load_json s feeds_path = inr feeds -> py_iter feeds = inl e ->
  (if run_analysis utc_offset parse nc now1 now2 s b is inr (_, s', _) then s' else s) = s.
Proof.
  intros Hl Hi. unfold run_analysis. rewrite Hl. cbn [py_bind].
  destruct (py_truthy feeds); [|done]. cbn [negb]. by rewrite feed_urls_iter, Hi.
Qed.

Lemma dashboard_store (nc : NewsCollector) (req : Request) (w : World S B) :
  store (dashboard cfg utc_offset parse now1 now2 nc req w).2 =
    if admin_ok cfg req then dashboard_effect utc_offset parse now1 now2 nc req (store w) (client w) else store w.
Proof.
  unfold dashboard. script_head. destruct (admin_ok cfg req); cbn [negb]; script_head; [|done].
  unfold dashboard_effect. destruct (click req) as [| |i|] eqn:Hc.
  - rewrite bind_keeps_store; [|intros; apply keeps_bind; [apply run_tab_keeps; congruence|eauto using stats_tab_keeps]].
    apply (feed_tab_keeps req (or_introl Hc) (mkWorld _ _ _)).
  - rewrite bind_keeps_store; [|intros; apply keeps_bind; [apply run_tab_keeps; congruence|eauto using stats_tab_keeps]].
    exact (proj1 (feed_tab_add req (mkWorld _ _ _) Hc)).
  - rewrite bind_keeps_store; [|intros; apply keeps_bind; [apply run_tab_keeps; congruence|eauto using stats_tab_keeps]].
    exact (proj1 (feed_tab_delete req i (mkWorld _ _ _) Hc)).
  - match goal with |- context [(feed_tab req ≫= ?k) ?w0] => set (w1 := w0) end.
    rewrite bind_unfold.
    destruct (feed_tab_keeps req (or_intror Hc) w1) as [K1 K2].
    destruct (feed_tab req w1) as [[h|[]] w2] eqn:F; cbn [fst snd] in K1, K2; script_head.
    + destruct (feed_tab_halted req _ _ _ Hc F) as (e & [Hl|(feeds & Hl & Hi)]);
        rewrite K1; unfold w1 in *; cbn [store] in *.
      * unfold run_analysis. by rewrite Hl.
      * symmetry. by eapply run_analysis_iter_fails.
    + rewrite bind_keeps_store by (intros; apply stats_tab_keeps).
      by rewrite (proj1 (run_tab_store nc req w2 Hc)), K1, K2.
Qed.

(** The store a run leaves, for every outcome [init] of lines 12-13. *)
Lemma app_script_refines (init : PyExc + NewsCollector) (req : Request) (w : World S B) :
  store (app_script cfg utc_offset parse now1 now2 init req w).2 =
  app_effect_with cfg utc_offset parse now1 now2 init req (store w) (client w).
Proof.
  unfold app_script, app_effect_with. script_head. unfold app_init.
  destruct init as [e|nc]; script_head; [done|].
  destruct (String.eqb _ menu_newsroom); [exact (proj1 (newsroom_store req (mkWorld _ _ _)))|].
  destruct (String.eqb _ menu_admin); [by rewrite dashboard_store|done].
Qed.

(** A newsroom visit whose counter cannot be read or written (line 31)
    stops with that exception before the archive is read; the store and
    the model client are untouched. *)
Lemma app_run_newsroom_raises (req : Request) (w : World S B) (nc : NewsCollector) (e : PyExc) :
  init_collector cfg = inr nc ->
  widget_value menu_options (menu_choice req) = menu_newsroom -> update_view_count (store w) = inl e ->
  app_run cfg utc_offset parse now1 now2 req w =
    (inl (Raised e), mkWorld (store w) (client w)
       (shown w ++ [PageConfig "AI IT Newsroom"; Sidebar (Title "🚀 IT Newsroom"); Sidebar (Radio "메뉴" menu_options)])).
Proof.
  intros He Hm Hu. unfold app_run, app_script, app_init. script_head. rewrite He. script_head.
  rewrite Hm, String.eqb_refl. unfold newsroom. rewrite bind_unfold. unfold store_op at 1.
  cbn [store]. rewrite Hu. cbn [store client shown]. by rewrite <- !app_assoc.
Qed.

End Effects.

Lemma dict_set_Forall (P : string * Json -> Prop) (kvs : list (string * Json)) (k : string) (v : Json) :
  (forall k', P (k', v)) -> Forall P kvs -> Forall P (dict_set kvs k v).
Proof.
  intros Hv. induction 1 as [|[k' v'] kvs Hp Hkvs IH]; cbn [dict_set]; [by constructor|].
  destruct (String.eqb k' k); constructor; auto.
Qed.

Lemma dict_get_elem (kvs : list (string * Json)) (k : string) :
  k ∈ map fst kvs -> exists v, dict_get kvs k = Some v.
Proof.
  induction kvs as [|[k' v'] kvs IH]; cbn [map fst dict_get]; [by intros ?%not_elem_of_nil|].
  intros [->|Hk]%elem_of_cons; [rewrite String.eqb_refl; eauto|].
  destruct (String.eqb k' k); eauto.
Qed.

Section Typed.
Context {S : Type} `{DocumentStoreLaws S}.
Context {B : Type} `{ModelBackend B}.
Variable utc_offset : Z.
Variable parse : string -> PyExc + Feed.
Variables now1 now2 : Z.

Lemma feeds_ok_typed (s : S) : feeds_ok s <-> exists d, load_json s feeds_path = inr d /\ feeds_doc_ok d.
Proof.
  split; [intros (xs & Hl & Hnd & Hne); eexists; split; [done|]; by exists xs|].
  intros (d & Hl & xs & -> & Hnd & Hne). by exists xs.
Qed.

(** Writing one path keeps the documents of the other two. *)
Lemma typed_frame (s s' : S) (p : string) :
  store_typed s -> (forall q, q <> p -> load_json s' q = load_json s q) ->
  (p = stats_path -> exists d, load_json s' p = inr d /\ stats_doc_ok d) ->
  (p = feeds_path -> exists d, load_json s' p = inr d /\ feeds_doc_ok d) ->
  (p = archive_path -> exists d, load_json s' p = inr d /\ archive_doc_ok d) ->
  store_typed s'.
Proof.
  intros (Hs & Hf & Ha) Hq Ps Pf Pa. pose proof paths_distinct as (D1 & D2 & D3).
  split_and!;
    [destruct (decide (p = stats_path)) as [->|Hp]; [by apply Ps|rewrite Hq; auto]
    |destruct (decide (p = feeds_path)) as [->|Hp]; [by apply Pf|rewrite Hq; auto]
    |destruct (decide (p = archive_path)) as [->|Hp]; [by apply Pa|rewrite Hq; auto]].
Qed.

Ltac frame_solve :=
  match goal with
  | Hs : save_json ?s ?p _ _ = inr ?s' |- store_typed ?s' =>
      apply (typed_frame s s' p); [done|intros q Hq; by eapply load_save_ne|..];
      intros Hp; try (exfalso; pose proof paths_distinct; unfold stats_path, feeds_path, archive_path in *; congruence)
  end.

Lemma typed_view (s s' : S) (v : Json) :
  store_typed s -> update_view_count s = inr (v, s') -> store_typed s'.
Proof.
  intros Ht Hu. pose proof Ht as ((d & Hl & kvs & n & -> & Hg) & _).
  destruct (view_count_step s s' n v) as [_ (kvs' & Hl' & Hg')]; [by exists kvs|done|].
  destruct (update_view_count_inv s s' v Hu) as (? & ? & ? & _ & _ & _ & _ & Hsave).
  frame_solve. exists (JObj kvs'). split; [by subst|]. by exists kvs', (n + 1)%Z.
Qed.

Lemma typed_add (s s' : S) (x : string) :
  store_typed s -> add_feed s x = inr s' -> store_typed s'.
Proof.
  intros Ht Ha. pose proof Ht as (_ & (d & Hl & xs & -> & _) & _).
  destruct (add_feed_effect s s' xs x Hl Ha) as [[_ ->]|[_ Hsave]]; [done|].
  frame_solve. subst. apply feeds_ok_typed. eapply feeds_ok_add; [|done]. apply feeds_ok_typed, Ht.
Qed.

Lemma typed_delete (s s' : S) (i : nat) :
  store_typed s -> delete_feed s i = inr s' -> store_typed s'.
Proof.
  intros Ht Hd. pose proof Ht as (_ & (d & Hl & xs & -> & _) & _).
  destruct (delete_feed_effect s s' _ i Hl Hd) as (feed & _ & Hsave).
  frame_solve. subst. apply feeds_ok_typed. eapply feeds_ok_delete; [|done]. apply feeds_ok_typed, Ht.
Qed.

Lemma typed_run (nc : NewsCollector) (s s' : S) (b b' : B) (r : RunResult) :
  store_typed s -> run_analysis utc_offset parse nc now1 now2 s b = inr (r, s', b') -> store_typed s'.
Proof.
  intros Ht Hr. destruct (run_analysis_inv _ _ _ _ _ _ _ _ _ _ Hr) as
    (feeds & _ & [(_ & _ & -> & _)|(urls & archive & archive' & Hrun)]); [done|].
  cbn zeta in Hrun. destruct Hrun as (_ & _ & Ha & Hset & Hsave & _).
  pose proof Ht as (_ & _ & (d & Ha' & kvs & -> & Hkvs)). rewrite Ha in Ha'. injection Ha' as ->.
  injection Hset as <-. frame_solve. exists (JObj (dict_set kvs (strftime_ymd_hm (now_local utc_offset now2))
    (JStr (run_report utc_offset parse nc now1 urls b).1))).
  split; [subst; by eapply load_save_eq|]. eexists; split; [done|]. apply dict_set_Forall; [eauto|done].
Qed.

Lemma typed_dashboard_effect (nc : NewsCollector) (req : Request) (s : S) (b : B) :
  store_typed s -> store_typed (dashboard_effect utc_offset parse now1 now2 nc req s b).
Proof.
  intros Ht. unfold dashboard_effect, effect_or. destruct (click req) as [| |i|]; [done|..].
  - destruct (add_feed s _) eqn:E; [done|]. by eapply typed_add.
  - destruct (delete_feed s i) eqn:E; [done|]. by eapply typed_delete.
  - destruct (run_analysis _ _ _ _ _ s b) as [|[[r s'] b']] eqn:E; [done|]. by eapply typed_run.
Qed.

Lemma typed_app_effect_with (cfg : Config) (init : PyExc + NewsCollector) (req : Request) (s : S) (b : B) :
  store_typed s -> store_typed (app_effect_with cfg utc_offset parse now1 now2 init req s b).
Proof.
  intros Ht. unfold app_effect_with. destruct init as [e|nc]; [done|].
  destruct (String.eqb _ menu_newsroom).
  - destruct (update_view_count s) as [|[v s']] eqn:U; [done|]. by eapply typed_view.
  - destruct (String.eqb _ menu_admin); [|done].
    destruct (admin_ok cfg req); [by apply typed_dashboard_effect|done].
Qed.

End Typed.

(** ** Properties of a run *)

(** [sorted(keys, reverse=True)] is the ascending sort reversed: as
    strings that compare equal are equal, the stable descending sort and
    the reversed ascending one give the same list. *)
Theorem py_sorted_desc_reverse (ks : list string) :
  py_sorted_desc ks = reverse (merge_sort String.le ks).
Proof.
  apply (Sorted_unique (flip String.le)).
  - apply Sorted_merge_sort. apply _.
  - apply Sorted_reverse, Sorted_merge_sort. apply _.
  - by rewrite py_sorted_desc_perm, reverse_Permutation, merge_sort_Permutation.
Qed.

(** ** The page only grows *)

Section Appends.
Context {S : Type} `{DocumentStore S}.
Context {B : Type} `{ModelBackend B}.

Lemma appends_ret {A} (a : A) : appends (mret a : Script S B A).
Proof. intros w. exists []. by rewrite app_nil_r. Qed.

Lemma appends_halt {A} (h : Halt) : appends (halt h : Script S B A).
Proof. intros w. exists []. by rewrite app_nil_r. Qed.

Lemma appends_draw (x : Widget) : appends (draw x : Script S B unit).
Proof. intros w. by exists [x]. Qed.

Lemma appends_raise {A} (r : PyExc + A) : appends (raise_ r : Script S B A).
Proof. destruct r; [apply appends_halt|apply appends_ret]. Qed.

Lemma appends_store_op {A} (f : S -> PyExc + (A * S)) : appends (store_op f : Script S B A).
Proof. intros w. exists []. rewrite app_nil_r. unfold store_op. by destruct (f (store w)) as [|[]]. Qed.

Lemma appends_save (p : string) (d : Json) (m : string) : appends (save p d m : Script S B unit).
Proof. apply appends_store_op. Qed.

Lemma appends_load (p : string) : appends (load p : Script S B Json).
Proof. intros w. exists []. rewrite app_nil_r. unfold load. by destruct (load_json (store w) p). Qed.

Lemma appends_with_client {A} (f : B -> A * B) : appends (with_client f : Script S B A).
Proof. intros w. exists []. by rewrite app_nil_r. Qed.

Lemma appends_bind {A C} (m : Script S B A) (k : A -> Script S B C) :
  appends m -> (forall a, appends (k a)) -> appends (m ≫= k).
Proof.
  intros Hm Hk w. rewrite bind_unfold. destruct (Hm w) as [l1 E1].
  destruct (m w) as [[h|a] w']; cbn [fst snd] in *; [by exists l1|].
  destruct (Hk a w') as [l2 E2]. exists (l1 ++ l2)%list. by rewrite E2, E1, app_assoc.
Qed.

End Appends.

Create HintDb appends discriminated.
#[export] Hint Resolve appends_bind appends_ret appends_halt appends_draw appends_raise appends_store_op
  appends_save appends_load appends_with_client : appends.
#[export] Hint Extern 1 (appends (match ?c with _ => _ end)) => destruct c : appends.

Section AppendsPages.
Context {S : Type} `{DocumentStore S}.
Context {B : Type} `{ModelBackend B}.
Variable utc_offset : Z.
Variable parse : string -> PyExc + Feed.
Variables now1 now2 : Z.

Lemma feed_rows_appends (req : Request) (feeds : Json) (i : nat) (rows : list Json) :
  appends (feed_rows req feeds i rows : Script S B unit).
Proof. revert i. induction rows as [|feed rows IH]; intros i; cbn [feed_rows]; eauto 20 with appends. Qed.

#[local] Hint Resolve feed_rows_appends : appends.

(** The three tabs after the gate only add to the page. *)
Lemma tabs_appends (nc : NewsCollector) (req : Request) :
  appends (feed_tab req;; run_tab utc_offset parse now1 now2 nc req;; stats_tab : Script S B unit).
Proof.
  unfold feed_tab, add_clicked, run_tab, stats_tab.
  repeat (apply appends_bind; intros); eauto 30 with appends.
Qed.

End AppendsPages.

Section Run.
Context {S : Type} `{DocumentStoreLaws S}.
Context {B : Type} `{ModelBackend B}.
Variable cfg : Config.
Variable utc_offset : Z.
Variable parse : string -> PyExc + Feed.
Variables now1 now2 : Z.

(** C20. The newsroom page (lines 30-46), on a visit that does not pick
    a date: it counts the visit, lists the archive keys newest first, and
    shows the report of the greatest key, the first entry of the box,
    followed by the new count. *)
Theorem newsroom_latest_first (req : Request) (w : World S B) (kvs akvs : list (string * Json))
    (n : Z) (s' : S) :
  date_choice req = None ->
  load_json (store w) stats_path = inr (JObj kvs) -> dict_get kvs "total_views" = Some (JInt n) ->
  save_json (store w) stats_path (JObj (dict_set kvs "total_views" (JInt (n + 1)%Z))) "Increment view count" = inr s' ->
  load_json (store w) archive_path = inr (JObj akvs) -> akvs <> [] ->
  exists latest report,
    latest ∈ map fst akvs /\ (forall k, k ∈ map fst akvs -> String.le k latest) /\
    dict_get akvs latest = Some report /\
    newsroom req w =
      (inr tt, mkWorld s' (client w) (shown w ++
        [Title "🗞️ 오늘의 AI IT 뉴스 브리핑";
         Sidebar (Selectbox "과거 리포트 보기" (py_sorted_desc (map fst akvs)) latest);
         Markdown ("### 📅 " ++ latest ++ " 리포트");
         Markdown (py_str_json report);
         Sidebar (Markdown ("**누적 방문자 수:** " ++ z_to_str (n + 1)))])).
Proof.
  intros Hd Hl Hg Hs Ha Hne.
  destruct (py_sorted_desc_head (map fst akvs)) as (k & rest & Hsort & Hk & Hmax); [by destruct akvs|].
  destruct (dict_get_elem akvs k Hk) as [report Hr]. exists k, report. split_and!; [done..|].
  unfold newsroom. rewrite bind_unfold. unfold store_op at 1.
  rewrite (update_view_count_run _ _ kvs n Hl Hg Hs). script_head.
  rewrite (load_save_ne _ _ _ _ _ _ (proj1 (proj2 paths_distinct)) Hs), Ha. script_head.
  cbn [py_truthy]. rewrite (bool_decide_eq_false_2 _ Hne). cbn [negb py_keys]. script_head.
  rewrite Hsort, Hd. cbn [widget_value head default from_option id py_getitem]. rewrite Hr. script_head.
  unfold draw. cbn [store client shown py_str_json json_str]. by rewrite <- !app_assoc.
Qed.

(** C22. Refinement: the store a whole run of the script leaves is the
    one [app_effect] computes from the request: nothing on a failed
    initialisation; on the newsroom, the counter of [update_view_count];
    on the dashboard with the right password, the effect of the button
    pressed as the handlers [add_feed], [delete_feed] and [run_analysis]
    of [App] compute it; nothing otherwise. *)
Theorem app_run_refines (req : Request) (w : World S B) :
  store (app_run cfg utc_offset parse now1 now2 req w).2 =
  app_effect cfg utc_offset parse now1 now2 req (store w) (client w).
Proof. apply app_script_refines. Qed.

(** C23. Safety of the early stops: when the initialisation fails (lines
    14-16) the page shows the error and stops; when the dashboard is
    opened with a wrong password (lines 55-57) it shows the warning and
    stops; when the newsroom's counter cannot be read or written (line
    31) the page stops with that exception before the archive is read.
    In every case the store and the model client are untouched. *)
Theorem app_run_gated (req : Request) (w : World S B) :
  (forall e, init_collector cfg = inl e ->
     app_run cfg utc_offset parse now1 now2 req w =
       (inl Stopped, mkWorld (store w) (client w)
          (shown w ++ [PageConfig "AI IT Newsroom"; ErrorBox ("Initialization Error: " ++ py_str_exc e)]))) /\
  (forall nc, init_collector cfg = inr nc ->
     widget_value menu_options (menu_choice req) = menu_admin -> admin_ok cfg req = false ->
     app_run cfg utc_offset parse now1 now2 req w =
       (inl Stopped, mkWorld (store w) (client w)
          (shown w ++ [PageConfig "AI IT Newsroom"; Sidebar (Title "🚀 IT Newsroom");
                       Sidebar (Radio "메뉴" menu_options); Title "⚙️ 관리자 대시보드";
                       Sidebar (PasswordInput "관리자 암호"); WarningBox "비밀번호를 입력해 주세요."]))) /\
  (forall nc e, init_collector cfg = inr nc ->
     widget_value menu_options (menu_choice req) = menu_newsroom -> update_view_count (store w) = inl e ->
     app_run cfg utc_offset parse now1 now2 req w =
       (inl (Raised e), mkWorld (store w) (client w)
          (shown w ++ [PageConfig "AI IT Newsroom"; Sidebar (Title "🚀 IT Newsroom");
                       Sidebar (Radio "메뉴" menu_options)]))).
Proof.
  split_and!.
  - intros e He. unfold app_run, app_script, app_init. script_head. rewrite He. script_head. by rewrite <- !app_assoc.
  - intros nc He Hm Hp. unfold app_run, app_script, app_init. script_head. rewrite He. script_head.
    rewrite Hm. cbn [String.eqb menu_admin menu_newsroom Ascii.eqb Bool.eqb andb].
    unfold dashboard. script_head. rewrite Hp. cbn [negb]. script_head. by rewrite <- !app_assoc.
  - intros nc e. apply app_run_newsroom_raises.
Qed.

(** C19. The default password opens the dashboard: with no
    [ADMIN_PASSWORD] in the secrets or the environment, a run of the
    admin page gets past the gate of lines 53-57 and draws the three tabs
    exactly when the password typed is ["admin123"], the string written
    in the code; any other password stops the run at the warning. *)
Theorem app_run_default_password (req : Request) (w : World S B) (nc : NewsCollector) :
  init_collector cfg = inr nc -> cfg_secret cfg "ADMIN_PASSWORD" = None -> cfg_env cfg "ADMIN_PASSWORD" = None ->
  widget_value menu_options (menu_choice req) = menu_admin -> Tabs ["피드 관리"; "분석 실행"; "통계"] ∉ shown w ->
  Tabs ["피드 관리"; "분석 실행"; "통계"] ∈ shown (app_run cfg utc_offset parse now1 now2 req w).2 <->
  password_input req = "admin123".
Proof.
  intros He Hs Hv Hm Hw.
  assert (Hok : admin_ok cfg req = String.eqb (password_input req) "admin123").
  { unfold admin_ok. rewrite Hs, Hv. reflexivity. }
  unfold app_run, app_script, app_init. script_head. rewrite He. script_head.
  rewrite Hm. cbn [String.eqb menu_admin menu_newsroom Ascii.eqb Bool.eqb andb].
  unfold dashboard. script_head. rewrite Hok.
  destruct (String.eqb_spec (password_input req) "admin123") as [Hp|Hp]; cbn [negb]; script_head.
  - split; [done|intros _].
    match goal with |- _ ∈ shown (?m ?w0).2 => destruct (tabs_appends utc_offset parse now1 now2 nc req w0) as [l ->] end.
    cbn [shown]. rewrite !elem_of_app, !elem_of_cons. naive_solver.
  - split; [|done]. cbn [shown]. rewrite !elem_of_app, !elem_of_cons, elem_of_nil.
    naive_solver.
Qed.

(** C24. Type invariant: every run of the script, whatever the request,
    keeps the store well typed ([store_typed]: an integer counter, a list
    of distinct non-empty URLs, a dict of report strings). *)
Theorem app_run_typed (req : Request) (w : World S B) :
  store_typed (store w) -> store_typed (store (app_run cfg utc_offset parse now1 now2 req w).2).
Proof. intros Ht. unfold app_run. rewrite app_script_refines. by apply typed_app_effect_with. Qed.

End Run.

(** ** Witnesses *)

Module Scenarios.
Local Open Scope string_scope.

Definition cfg0 : Config :=
  mkConfig (fun k => if String.eqb k "ADMIN_PASSWORD" then None else Some "secret-value")
           (fun _ => None) (fun _ _ => None).

Definition nc0 : NewsCollector := mkNewsCollector "secret-value" default_candidate_models.

Definition old_day : string := "2026-11-08 10:00".
Definition new_day : string := "2026-11-09 09:00".
Definition archive1 : list (string * Json) := [(old_day, JStr "old report"); (new_day, JStr "new report")].

Definition repo1 : Repo :=
  mkRepo (<[archive_path := JObj archive1]> (files App.Scenarios.repo0)) [] None.

Definition w0 : World Repo Recorder := mkWorld repo1 App.Scenarios.rec0 [].

Definition visit : Request := mkRequest None None "" "" NoClick.

Definition visited1 : Repo :=
  write_file repo1 stats_path (JObj [("total_views", JInt 42)]) "Increment view count" Updated.

Lemma newsroom_latest_first_witness :
  exists latest report,
    latest ∈ map fst archive1 /\ (forall k, k ∈ map fst archive1 -> String.le k latest) /\
    dict_get archive1 latest = Some report /\
    newsroom visit w0 =
      (inr tt, mkWorld visited1 (client w0) (shown w0 ++
        [Title "🗞️ 오늘의 AI IT 뉴스 브리핑";
         Sidebar (Selectbox "과거 리포트 보기" (py_sorted_desc (map fst archive1)) latest);
         Markdown ("### 📅 " ++ latest ++ " 리포트");
         Markdown (py_str_json report);
         Sidebar (Markdown ("**누적 방문자 수:** " ++ z_to_str (41 + 1)))])).
Proof.
  apply (newsroom_latest_first visit w0 [("total_views", JInt 41)] archive1 41 visited1);
    [reflexivity..|discriminate].
Defined.

Definition wrong_password : Request := mkRequest (Some menu_admin) None "letmein" "" ClickRun.

Lemma app_run_gated_witness :
  init_collector cfg0 = inr nc0 /\
  app_run cfg0 0 Collector.Scenarios.parse_demo App.Scenarios.now1 App.Scenarios.now2 wrong_password w0 =
    (inl Stopped, mkWorld repo1 App.Scenarios.rec0
       [PageConfig "AI IT Newsroom"; Sidebar (Title "🚀 IT Newsroom");
        Sidebar (Radio "메뉴" menu_options); Title "⚙️ 관리자 대시보드";
        Sidebar (PasswordInput "관리자 암호"); WarningBox "비밀번호를 입력해 주세요."]).
Proof.
  split; [reflexivity|].
  exact (proj1 (proj2 (app_run_gated cfg0 0 Collector.Scenarios.parse_demo App.Scenarios.now1 App.Scenarios.now2
                  wrong_password w0)) nc0 eq_refl eq_refl eq_refl).
Defined.

Definition add_new : Request := mkRequest (Some menu_admin) None "admin123" App.Scenarios.new_url ClickAdd.

Lemma app_run_default_password_witness :
  Tabs ["피드 관리"; "분석 실행"; "통계"] ∈
    shown (app_run cfg0 0 Collector.Scenarios.parse_demo App.Scenarios.now1 App.Scenarios.now2 add_new w0).2 <->
  password_input add_new = "admin123".
Proof.
  apply (app_run_default_password cfg0 0 Collector.Scenarios.parse_demo App.Scenarios.now1 App.Scenarios.now2
           add_new w0 nc0); [reflexivity..|]. apply not_elem_of_nil.
Defined.

Lemma repo1_typed : store_typed repo1.
Proof.
  split_and!.
  - eexists; split; [reflexivity|]. by exists [("total_views", JInt 41)], 41%Z.
  - eexists; split; [reflexivity|]. exists [App.Scenarios.tech_url].
    split; [reflexivity|]. split; [apply NoDup_singleton|]. rewrite list_elem_of_singleton. discriminate.
  - eexists; split; [reflexivity|]. eexists; split; [reflexivity|].
    repeat constructor; eexists; reflexivity.
Qed.

Lemma app_run_typed_witness :
  store_typed (store (app_run cfg0 0 Collector.Scenarios.parse_demo App.Scenarios.now1 App.Scenarios.now2
                        add_new w0).2).
Proof. apply app_run_typed. exact repo1_typed. Defined.

End Scenarios.
