(* ===== verification/Session.v ===== *)
(** * The cached singletons, reruns and a session of runs

    [get_storage] (github_storage.py lines 59-61) and [get_collector]
    (news_collector.py lines 122-124) carry [@st.cache_resource]: the
    first call that returns stores its object in a cache that lives as
    long as the server process, shared by every run and every user; a
    call that raises stores nothing, so the next run calls the
    constructor again. app.py calls them at lines 12-13 on every run.

    A run that reaches [st.rerun()] (app.py lines 72 and 83) is stopped
    and the script is started again at once, with the widgets keeping
    their values and every button released.

    This file models:
    - the cache as a [Cache] of two slots, [cache_resource] as the
      decorator, [get_storage], [get_collector] and [init_cached] (app.py
      lines 11-13) on it;
    - the process state [Proc] (the cache, the repository, the model
      client) and one user interaction as [interact]: a run of
      [app_script] on a blank page, and the rerun it asks for;
    - a [session], a sequence of interactions (from one user or several)
      on one process.

    The theorems: every interaction ends after at most two runs; the
    store it leaves is the effect of one run of the request, so the
    rerun neither repeats an add or delete nor counts a visit; the page it
    leaves never shows the success boxes of lines 71 and 82; and an
    object once cached is kept whatever the later configuration. *)

From S2P Require Import Prelude Collector Backend Reporter Storage App Page.

Local Open Scope string_scope.

(** ** The resource cache *)

Record Cache := mkCache {
  storage_slot : option GitHubStorageObj;
  collector_slot : option NewsCollector
}.

Definition empty_cache : Cache := mkCache None None.

(** [@st.cache_resource] on a function without arguments: the object of
    an earlier call that returned, or the call itself, whose object is
    kept when it returns and forgotten when it raises. *)
Definition cache_resource {A} (slot : option A) (call : PyExc + A) : (PyExc + A) * option A :=
  match slot with
  | Some v => (inr v, Some v)
  | None => match call with
            | inl e => (inl e, None)
            | inr v => (inr v, Some v)
            end
  end.

(** github_storage.py lines 59-61. *)
Definition get_storage (cfg : Config) (c : Cache) : (PyExc + GitHubStorageObj) * Cache :=
  let '(r, slot) := cache_resource (storage_slot c) (GitHubStorage_init cfg) in
  (r, mkCache slot (collector_slot c)).

(** news_collector.py lines 122-124. *)
Definition get_collector (cfg : Config) (c : Cache) : (PyExc + NewsCollector) * Cache :=
  let '(r, slot) := cache_resource (collector_slot c) (NewsCollector_new cfg) in
  (r, mkCache (storage_slot c) slot).

(** app.py lines 11-13: the storage, then the collector; an exception of
    the first skips the second. *)
Definition init_cached (cfg : Config) (c : Cache) : (PyExc + NewsCollector) * Cache :=
  let '(r, c1) := get_storage cfg c in
  match r with
  | inl e => (inl e, c1)
  | inr _ => get_collector cfg c1
  end.

(** The request of the run [st.rerun()] starts: the same widget values,
    no button pressed. *)
Definition no_click (req : Request) : Request :=
  mkRequest (menu_choice req) (date_choice req) (password_input req) (feed_input req) NoClick.

(** One interaction of a user: the configuration (secrets and
    environment) and the clocks at the time, and the request. *)
Record Interaction := mkInteraction {
  cfg_at : Config;
  req_at : Request;
  now1_at : Z;
  now2_at : Z
}.

(** ** Runs and sessions *)

Section Session.
Context {St : Type} `{DocumentStore St}.
Context {B : Type} `{ModelBackend B}.
Variable utc_offset : Z.
Variable parse : string -> PyExc + Feed.

(** What lives across runs in the server process. *)
Record Proc := mkProc { cache : Cache; pstore : St; pclient : B }.

(** One execution of app.py from the top, on a blank page, with lines
    12-13 given by [init_of]: the run's outcome, the process after it and
    the page drawn. *)
Definition script_run_with (init_of : Config -> Cache -> (PyExc + NewsCollector) * Cache)
    (x : Interaction) (req : Request) (p : Proc) : (Halt + unit) * Proc * list Widget :=
  let '(init, c) := init_of (cfg_at x) (cache p) in
  let '(r, w) := app_script (cfg_at x) utc_offset parse (now1_at x) (now2_at x) init req
                   (mkWorld (pstore p) (pclient p) []) in
  (r, mkProc c (store w) (client w), shown w).

(** The runs of one interaction: a run that ends at [st.rerun()] is
    followed by a run of the same widgets with no button, [fuel] runs at
    most. *)
Fixpoint reruns_with (init_of : Config -> Cache -> (PyExc + NewsCollector) * Cache) (fuel : nat)
    (x : Interaction) (req : Request) (p : Proc) : option ((Halt + unit) * Proc * list Widget) :=
  match fuel with
  | O => None
  | S fuel' =>
      let '(r, p', page) := script_run_with init_of x req p in
      match r with
      | inl Rerun => reruns_with init_of fuel' x (no_click req) p'
      | _ => Some (r, p', page)
      end
  end.

(** An interaction: its runs, two at most ([interact_terminates]). *)
Definition interact_with (init_of : Config -> Cache -> (PyExc + NewsCollector) * Cache)
    (x : Interaction) (p : Proc) : option ((Halt + unit) * Proc * list Widget) :=
  reruns_with init_of 2 x (req_at x) p.

(** A session: the interactions in order on one process, and the page
    each one leaves. *)
Fixpoint session_with (init_of : Config -> Cache -> (PyExc + NewsCollector) * Cache)
    (xs : list Interaction) (p : Proc) : option (Proc * list (list Widget)) :=
  match xs with
  | [] => Some (p, [])
  | x :: xs' =>
      '(_, p', page) ← interact_with init_of x p;
      '(p'', pages) ← session_with init_of xs' p';
      Some (p'', page :: pages)
  end.

Definition interact := interact_with init_cached.
Definition session := session_with init_cached.

(** The model of [Page]: both constructors run on every run. *)
Definition fresh_init (cfg : Config) (c : Cache) : (PyExc + NewsCollector) * Cache :=
  (init_collector cfg, c).

End Session.

Arguments Proc : clear implicits.

(** The confirmations of lines 71 and 82, each drawn just before
    [st.rerun()]. *)
Definition confirmations : list Widget :=
  [SuccessBox "피드가 추가되었습니다."; SuccessBox "피드가 삭제되었습니다."].

(** The last character of a string. *)
Fixpoint last_char (s : string) : option Ascii.ascii :=
  match s with
  | EmptyString => None
  | String c EmptyString => Some c
  | String _ s' => last_char s'
  end.

Section Predicates.
Context {St B : Type}.

(** A script that never ends at [st.rerun()]. *)
Definition no_rerun {A} (m : Script St B A) : Prop := forall w, (m w).1 <> inl Rerun.

(** A script that, when it does not end at [st.rerun()], adds to the
    page none of the [confirmations]. *)
Definition confirms_nothing {A} (m : Script St B A) : Prop :=
  forall w, (m w).1 <> inl Rerun ->
    exists l, shown (m w).2 = (shown w ++ l)%list /\ Forall (fun x => x ∉ confirmations) l.

(** A cache slot agrees with the constructor on a configuration: empty,
    or holding the object the constructor returns. *)
Definition slot_ok {A} (slot : option A) (call : PyExc + A) : Prop :=
  match slot with None => True | Some v => call = inr v end.

Definition cache_ok (cfg : Config) (c : Cache) : Prop :=
  slot_ok (storage_slot c) (GitHubStorage_init cfg) /\ slot_ok (collector_slot c) (NewsCollector_new cfg).

(** The second cache holds every object the first holds. *)
Definition cache_le (c c' : Cache) : Prop :=
  (forall gs, storage_slot c = Some gs -> storage_slot c' = Some gs) /\
  (forall nc, collector_slot c = Some nc -> collector_slot c' = Some nc).

(** Two processes that differ at most in their caches, the first's
    agreeing with [cfg]. *)
Definition agree (cfg : Config) (p1 p2 : Proc St B) : Prop :=
  cache_ok cfg (cache p1) /\ pstore p1 = pstore p2 /\ pclient p1 = pclient p2.

(** Two runs with the same outcome and page, from processes that agree. *)
Definition run_rel (cfg : Config) (a b : (Halt + unit) * Proc St B * list Widget) : Prop :=
  a.1.1 = b.1.1 /\ a.2 = b.2 /\ agree cfg a.1.2 b.1.2.

Definition sess_rel (cfg : Config) (a b : Proc St B * list (list Widget)) : Prop :=
  a.2 = b.2 /\ agree cfg a.1 b.1.

(** What a session shows of the process: the store, the client and the
    pages, not the cache. *)
Definition forget (r : Proc St B * list (list Widget)) : St * B * list (list Widget) :=
  (pstore r.1, pclient r.1, r.2).

End Predicates.

(** ** Laws of the two predicates *)

Section Laws.
Context {St B : Type}.

Lemma no_rerun_ret {A} (a : A) : no_rerun (mret a : Script St B A).
Proof. done. Qed.

Lemma no_rerun_bind {A C} (m : Script St B A) (k : A -> Script St B C) :
  no_rerun m -> (forall a, no_rerun (k a)) -> no_rerun (m ≫= k).
Proof.
  intros Hm Hk w. unfold mbind, script_bind. specialize (Hm w).
  destruct (m w) as [[h|a] w']; simpl in *; [intros [= ->]; by apply Hm|apply Hk].
Qed.

Lemma no_rerun_draw (x : Widget) : no_rerun (draw x : Script St B unit).
Proof. done. Qed.

Lemma no_rerun_halt {A} (h : Halt) : h <> Rerun -> no_rerun (halt h : Script St B A).
Proof. intros Hh w [= ->]. done. Qed.

Lemma no_rerun_raise {A} (r : PyExc + A) : no_rerun (raise_ r : Script St B A).
Proof. by destruct r. Qed.

Lemma no_rerun_store_op {A} (f : St -> PyExc + (A * St)) : no_rerun (store_op f : Script St B A).
Proof. intros w. unfold store_op. by destruct (f (store w)) as [|[]]. Qed.

Lemma no_rerun_with_client {A} (f : B -> A * B) : no_rerun (with_client f : Script St B A).
Proof. done. Qed.

Lemma no_rerun_load `{DocumentStore St} (p : string) : no_rerun (load p : Script St B Json).
Proof. intros w. unfold load. by destruct (load_json (store w) p). Qed.

Lemma no_rerun_save `{DocumentStore St} (p : string) (d : Json) (m : string) :
  no_rerun (save p d m : Script St B unit).
Proof. apply no_rerun_store_op. Qed.

(** The primitives that leave the page as it is. *)
Lemma confirms_nothing_same {A} (m : Script St B A) :
  (forall w, shown (m w).2 = shown w) -> confirms_nothing m.
Proof. intros Hm w _. exists []. by rewrite Hm, app_nil_r. Qed.

Lemma confirms_nothing_ret {A} (a : A) : confirms_nothing (mret a : Script St B A).
Proof. by apply confirms_nothing_same. Qed.

Lemma confirms_nothing_bind {A C} (m : Script St B A) (k : A -> Script St B C) :
  confirms_nothing m -> (forall a, confirms_nothing (k a)) -> confirms_nothing (m ≫= k).
Proof.
  intros Hm Hk w. unfold mbind, script_bind. specialize (Hm w).
  destruct (m w) as [[h|a] w'] eqn:E; cbn [fst snd] in *; [intros Hr; apply Hm; intros [= ->]; by apply Hr|]. intros Hr.
  destruct Hm as (l1 & Hl1 & F1); [done|]. destruct (Hk a w' Hr) as (l2 & Hl2 & F2).
  exists (l1 ++ l2)%list. rewrite Hl2, Hl1, app_assoc. split; [done|]. by apply Forall_app.
Qed.

Lemma confirms_nothing_draw (x : Widget) : x ∉ confirmations -> confirms_nothing (draw x : Script St B unit).
Proof. intros Hx w _. exists [x]. split; [done|]. by constructor. Qed.

(** A confirmation drawn just before [st.rerun()] is never left shown. *)
Lemma confirms_nothing_draw_rerun (x : Widget) : confirms_nothing (draw x ;; halt Rerun : Script St B unit).
Proof. intros w Hr. by destruct Hr. Qed.

Lemma confirms_nothing_halt {A} (h : Halt) : confirms_nothing (halt h : Script St B A).
Proof. by apply confirms_nothing_same. Qed.

Lemma confirms_nothing_raise {A} (r : PyExc + A) : confirms_nothing (raise_ r : Script St B A).
Proof. apply confirms_nothing_same. by destruct r. Qed.

Lemma confirms_nothing_store_op {A} (f : St -> PyExc + (A * St)) : confirms_nothing (store_op f : Script St B A).
Proof. apply confirms_nothing_same. intros w. unfold store_op. by destruct (f (store w)) as [|[]]. Qed.

Lemma confirms_nothing_with_client {A} (f : B -> A * B) : confirms_nothing (with_client f : Script St B A).
Proof. by apply confirms_nothing_same. Qed.

Lemma confirms_nothing_load `{DocumentStore St} (p : string) : confirms_nothing (load p : Script St B Json).
Proof. apply confirms_nothing_same. intros w. unfold load. by destruct (load_json (store w) p). Qed.

Lemma confirms_nothing_save `{DocumentStore St} (p : string) (d : Json) (m : string) :
  confirms_nothing (save p d m : Script St B unit).
Proof. apply confirms_nothing_store_op. Qed.

End Laws.

Lemma last_char_app (s t : string) : t <> EmptyString -> last_char (s ++ t) = last_char t.
Proof.
  intros Ht. induction s as [|c s IH]; [done|]. rewrite str_app_cons. cbn [last_char].
  rewrite IH. destruct s; [destruct t|]; done.
Qed.

(** Only constructors and the two messages of the [confirmations]
    distinguish a widget from them. *)
Lemma report_done_not_confirmation (t : string) : SuccessBox (t ++ " 리포트 생성 완료!") ∉ confirmations.
Proof.
  unfold confirmations. rewrite !not_elem_of_cons. split_and!; [..|apply not_elem_of_nil];
    intros [= E]; apply (f_equal last_char) in E; rewrite last_char_app in E; done.
Qed.

Create HintDb session discriminated.
#[export] Hint Resolve no_rerun_ret no_rerun_bind no_rerun_draw no_rerun_raise no_rerun_store_op
  no_rerun_with_client no_rerun_load no_rerun_save : session.
#[export] Hint Resolve confirms_nothing_draw_rerun | 0 : session.
#[export] Hint Resolve confirms_nothing_ret confirms_nothing_bind confirms_nothing_draw confirms_nothing_halt
  confirms_nothing_raise confirms_nothing_store_op confirms_nothing_with_client confirms_nothing_load
  confirms_nothing_save report_done_not_confirmation : session.
#[export] Hint Extern 1 (no_rerun (halt _)) => apply no_rerun_halt; discriminate : session.
#[export] Hint Extern 1 (_ ∉ confirmations) =>
  unfold confirmations; rewrite !not_elem_of_cons; split_and!; [discriminate..|apply not_elem_of_nil] : session.
#[export] Hint Extern 1 (no_rerun (match ?c with _ => _ end)) => destruct c : session.
#[export] Hint Extern 1 (confirms_nothing (match ?c with _ => _ end)) => destruct c : session.

(** ** The handlers under the two predicates *)

Section Handlers.
Context {St : Type} `{DocumentStore St}.
Context {B : Type} `{ModelBackend B}.
Variable cfg : Config.
Variable utc_offset : Z.
Variable parse : string -> PyExc + Feed.
Variables now1 now2 : Z.

Lemma newsroom_no_rerun (req : Request) : no_rerun (newsroom req : Script St B unit).
Proof. unfold newsroom. eauto 20 with session. Qed.

Lemma newsroom_confirms_nothing (req : Request) : confirms_nothing (newsroom req : Script St B unit).
Proof. unfold newsroom. eauto 20 with session. Qed.

Lemma add_clicked_confirms_nothing (feeds : Json) (new_feed : string) :
  confirms_nothing (add_clicked feeds new_feed : Script St B unit).
Proof. unfold add_clicked. eauto 20 with session. Qed.

Lemma feed_rows_no_rerun (req : Request) (feeds : Json) (k : nat) (rows : list Json) :
  click req = NoClick -> no_rerun (feed_rows req feeds k rows : Script St B unit).
Proof.
  intros Hc. revert k. induction rows as [|feed rows IH]; intros k; cbn [feed_rows]; [apply no_rerun_ret|].
  rewrite Hc. cbn [deletes_row]. eauto with session.
Qed.

Lemma feed_rows_confirms_nothing (req : Request) (feeds : Json) (k : nat) (rows : list Json) :
  confirms_nothing (feed_rows req feeds k rows : Script St B unit).
Proof.
  revert k. induction rows as [|feed rows IH]; intros k; cbn [feed_rows]; [apply confirms_nothing_ret|].
  eauto 20 with session.
Qed.

#[local] Hint Resolve feed_rows_no_rerun feed_rows_confirms_nothing add_clicked_confirms_nothing : session.

Lemma feed_tab_no_rerun (req : Request) : click req = NoClick -> no_rerun (feed_tab req : Script St B unit).
Proof. intros Hc. unfold feed_tab. rewrite Hc. eauto 20 with session. Qed.

Lemma feed_tab_confirms_nothing (req : Request) : confirms_nothing (feed_tab req : Script St B unit).
Proof. unfold feed_tab. eauto 20 with session. Qed.

Lemma run_tab_no_rerun (nc : NewsCollector) (req : Request) :
  no_rerun (run_tab utc_offset parse now1 now2 nc req : Script St B unit).
Proof. unfold run_tab. eauto 30 with session. Qed.

Lemma run_tab_confirms_nothing (nc : NewsCollector) (req : Request) :
  confirms_nothing (run_tab utc_offset parse now1 now2 nc req : Script St B unit).
Proof. unfold run_tab. eauto 30 with session. Qed.

Lemma stats_tab_no_rerun : no_rerun (stats_tab : Script St B unit).
Proof. unfold stats_tab. eauto 10 with session. Qed.

Lemma stats_tab_confirms_nothing : confirms_nothing (stats_tab : Script St B unit).
Proof. unfold stats_tab. eauto 10 with session. Qed.

#[local] Hint Resolve feed_tab_no_rerun feed_tab_confirms_nothing run_tab_no_rerun run_tab_confirms_nothing
  stats_tab_no_rerun stats_tab_confirms_nothing newsroom_no_rerun newsroom_confirms_nothing : session.

Lemma dashboard_no_rerun (nc : NewsCollector) (req : Request) :
  click req = NoClick -> no_rerun (dashboard cfg utc_offset parse now1 now2 nc req : Script St B unit).
Proof. intros Hc. unfold dashboard. eauto 20 with session. Qed.

Lemma dashboard_confirms_nothing (nc : NewsCollector) (req : Request) :
  confirms_nothing (dashboard cfg utc_offset parse now1 now2 nc req : Script St B unit).
Proof. unfold dashboard. eauto 20 with session. Qed.

#[local] Hint Resolve dashboard_no_rerun dashboard_confirms_nothing : session.

(** The run [st.rerun()] starts never asks for another. *)
Lemma app_script_no_click (init : PyExc + NewsCollector) (req : Request) :
  no_rerun (app_script cfg utc_offset parse now1 now2 init (no_click req) : Script St B unit).
Proof. unfold app_script, app_init. eauto 20 with session. Qed.

Lemma app_script_confirms_nothing (init : PyExc + NewsCollector) (req : Request) :
  confirms_nothing (app_script cfg utc_offset parse now1 now2 init req : Script St B unit).
Proof. unfold app_script, app_init. eauto 20 with session. Qed.

(** A run that ends at [st.rerun()] has built the collector and is not a
    newsroom visit. *)
Lemma app_script_rerun (init : PyExc + NewsCollector) (req : Request) (w : World St B) :
  (app_script cfg utc_offset parse now1 now2 init req w).1 = inl Rerun ->
  (exists nc, init = inr nc) /\ String.eqb (widget_value menu_options (menu_choice req)) menu_newsroom = false.
Proof.
  unfold app_script. script_head. unfold app_init. destruct init as [e|nc]; script_head; [done|].
  intros Hr. split; [by eexists|]. destruct (String.eqb _ menu_newsroom); [|done].
  by destruct (newsroom_no_rerun req _ Hr).
Qed.

End Handlers.

(** ** The cache *)

#[export] Instance cache_le_preorder : PreOrder cache_le.
Proof. split; [by split|]. intros c1 c2 c3 [H12s H12c] [H23s H23c]. split; auto. Qed.

Lemma cache_resource_le {A} (slot : option A) (call : PyExc + A) (v : A) :
  slot = Some v -> (cache_resource slot call).2 = Some v.
Proof. by intros ->. Qed.

Lemma init_cached_le (cfg : Config) (c : Cache) : cache_le c (init_cached cfg c).2.
Proof.
  unfold init_cached, get_storage, get_collector, cache_resource.
  destruct c as [[gs|] [nc|]]; cbn; repeat case_match; split; cbn; intros; simplify_eq; done.
Qed.

(** On a cache that agrees with [cfg], lines 12-13 give what both
    constructors give, and the cache keeps agreeing. *)
Lemma init_cached_ok (cfg : Config) (c : Cache) :
  cache_ok cfg c -> (init_cached cfg c).1 = init_collector cfg /\ cache_ok cfg (init_cached cfg c).2.
Proof.
  unfold cache_ok, slot_ok, init_cached, get_storage, get_collector, cache_resource, init_collector.
  destruct (GitHubStorage_init cfg) eqn:G, (NewsCollector_new cfg) eqn:N;
    destruct c as [[gs|] [nc|]]; cbn; rewrite ?G, ?N; intuition congruence.
Qed.

(** Once both objects are cached, lines 12-13 return the cached
    collector, whatever the configuration. *)
Lemma init_cached_full (cfg : Config) (gs : GitHubStorageObj) (nc : NewsCollector) :
  init_cached cfg (mkCache (Some gs) (Some nc)) = (inr nc, mkCache (Some gs) (Some nc)).
Proof. done. Qed.

(** A run whose lines 12-13 give the collector leaves both objects cached. *)
Lemma init_cached_fills (cfg : Config) (c : Cache) (nc : NewsCollector) :
  (init_cached cfg c).1 = inr nc -> exists gs, (init_cached cfg c).2 = mkCache (Some gs) (Some nc).
Proof.
  unfold init_cached, get_storage, get_collector, cache_resource.
  destruct c as [[gs|] [nc'|]]; cbn; repeat case_match; cbn; intros; simplify_eq; eauto.
Qed.

(** A cache holding both objects is the greatest one above it. *)
Lemma cache_le_full (gs : GitHubStorageObj) (nc : NewsCollector) (c : Cache) :
  cache_le (mkCache (Some gs) (Some nc)) c -> c = mkCache (Some gs) (Some nc).
Proof. intros [Hs Hc]. destruct c as [s0 c0]. cbn in *. by rewrite (Hs gs), (Hc nc). Qed.

(** ** Runs *)

Section Runs.
Context {St : Type} `{DocumentStore St}.
Context {B : Type} `{ModelBackend B}.
Variable utc_offset : Z.
Variable parse : string -> PyExc + Feed.

Implicit Types (init_of : Config -> Cache -> (PyExc + NewsCollector) * Cache) (p : Proc St B).

Lemma script_run_no_click init_of (x : Interaction) (req : Request) p :
  (script_run_with utc_offset parse init_of x (no_click req) p).1.1 <> inl Rerun.
Proof.
  unfold script_run_with. destruct (init_of (cfg_at x) (cache p)) as [init c].
  pose proof (app_script_no_click (cfg_at x) utc_offset parse (now1_at x) (now2_at x) init req
                (mkWorld (pstore p) (pclient p) [])) as Hn.
  by destruct (app_script _ _ _ _ _ init (no_click req) _) as [r w].
Qed.

Lemma script_run_store init_of (x : Interaction) (req : Request) p :
  pstore (script_run_with utc_offset parse init_of x req p).1.2 =
  app_effect_with (cfg_at x) utc_offset parse (now1_at x) (now2_at x)
    (init_of (cfg_at x) (cache p)).1 req (pstore p) (pclient p).
Proof.
  unfold script_run_with. destruct (init_of (cfg_at x) (cache p)) as [init c].
  pose proof (app_script_refines (cfg_at x) utc_offset parse (now1_at x) (now2_at x) init req
                (mkWorld (pstore p) (pclient p) [])) as E.
  by destruct (app_script _ _ _ _ _ init req _) as [r w].
Qed.

Lemma script_run_rerun init_of (x : Interaction) (req : Request) p :
  (script_run_with utc_offset parse init_of x req p).1.1 = inl Rerun ->
  String.eqb (widget_value menu_options (menu_choice req)) menu_newsroom = false.
Proof.
  unfold script_run_with. destruct (init_of (cfg_at x) (cache p)) as [init c].
  pose proof (app_script_rerun (cfg_at x) utc_offset parse (now1_at x) (now2_at x) init req
                (mkWorld (pstore p) (pclient p) [])) as Hr.
  destruct (app_script _ _ _ _ _ init req _) as [r w]. cbn. intros E. by apply Hr.
Qed.

Lemma script_run_page init_of (x : Interaction) (req : Request) p :
  (script_run_with utc_offset parse init_of x req p).1.1 <> inl Rerun ->
  Forall (fun y => y ∉ confirmations) (script_run_with utc_offset parse init_of x req p).2.
Proof.
  unfold script_run_with. destruct (init_of (cfg_at x) (cache p)) as [init c].
  pose proof (app_script_confirms_nothing (cfg_at x) utc_offset parse (now1_at x) (now2_at x) init req
                (mkWorld (pstore p) (pclient p) [])) as Hc.
  destruct (app_script _ _ _ _ _ init req _) as [r w]. cbn in *. intros Hr.
  by destruct (Hc Hr) as (l & -> & F).
Qed.

Lemma script_run_cache init_of (x : Interaction) (req : Request) p :
  cache (script_run_with utc_offset parse init_of x req p).1.2 = (init_of (cfg_at x) (cache p)).2.
Proof.
  unfold script_run_with. destruct (init_of (cfg_at x) (cache p)) as [init c].
  by destruct (app_script _ _ _ _ _ init req _) as [r w].
Qed.

Lemma script_run_le (x : Interaction) (req : Request) p :
  cache_le (cache p) (cache (script_run_with utc_offset parse init_cached x req p).1.2).
Proof.
  unfold script_run_with. pose proof (init_cached_le (cfg_at x) (cache p)) as Hle.
  destruct (init_cached (cfg_at x) (cache p)) as [init c].
  by destruct (app_script _ _ _ _ _ init req _) as [r w].
Qed.

(** The store the no-button run leaves, when it is not a newsroom visit. *)
Lemma app_effect_no_click (cfg : Config) (now1 now2 : Z) (init : PyExc + NewsCollector) (req : Request) (s : St) (b : B) :
  String.eqb (widget_value menu_options (menu_choice req)) menu_newsroom = false ->
  app_effect_with cfg utc_offset parse now1 now2 init (no_click req) s b = s.
Proof.
  intros Hm. unfold app_effect_with. destruct init; [done|]. cbn [menu_choice no_click]. rewrite Hm.
  destruct (String.eqb _ menu_admin); [|done]. by destruct (admin_ok _ _).
Qed.

(** Every interaction ends in a run that does not ask for another. *)
Lemma reruns_some init_of (n : nat) (x : Interaction) (req : Request) p r p' page :
  reruns_with utc_offset parse init_of n x req p = Some (r, p', page) ->
  exists req' q, script_run_with utc_offset parse init_of x req' q = (r, p', page) /\ r <> inl Rerun.
Proof.
  revert req p. induction n as [|n IH]; intros req p; cbn [reruns_with]; [done|].
  destruct (script_run_with _ _ init_of x req p) as [[r1 p1] page1] eqn:E.
  destruct r1 as [[| |e]|[]]; [| by apply IH| |];
    intros [= <- <- <-]; exists req, p; by rewrite E.
Qed.

End Runs.

(** ** The cache against the per-run model *)

Section Agree.
Context {St : Type} `{DocumentStore St}.
Context {B : Type} `{ModelBackend B}.
Variable utc_offset : Z.
Variable parse : string -> PyExc + Feed.
Variable cfg : Config.

Lemma script_run_agree (x : Interaction) (req : Request) (p1 p2 : Proc St B) :
  cfg_at x = cfg -> agree cfg p1 p2 ->
  run_rel cfg (script_run_with utc_offset parse init_cached x req p1)
              (script_run_with utc_offset parse fresh_init x req p2).
Proof.
  intros Hx (Hc & Hs & Hb). unfold script_run_with, fresh_init. rewrite Hx, <- Hs, <- Hb.
  destruct (init_cached_ok _ _ Hc) as [Hi Hc'].
  destruct (init_cached cfg (cache p1)) as [i c]. cbn in Hi, Hc'. subst i.
  destruct (app_script _ _ _ _ _ _ _ _) as [r w]. exact (conj eq_refl (conj eq_refl (conj Hc' (conj eq_refl eq_refl)))).
Qed.

Lemma reruns_agree (n : nat) (x : Interaction) (req : Request) (p1 p2 : Proc St B) :
  cfg_at x = cfg -> agree cfg p1 p2 ->
  option_Forall2 (run_rel cfg) (reruns_with utc_offset parse init_cached n x req p1)
                               (reruns_with utc_offset parse fresh_init n x req p2).
Proof.
  intros Hx. revert req p1 p2. induction n as [|n IH]; intros req p1 p2 Ha; cbn [reruns_with]; [constructor|].
  pose proof (script_run_agree x req p1 p2 Hx Ha) as (Hr & Hp & Ha').
  destruct (script_run_with _ _ init_cached x req p1) as [[r1 q1] pg1].
  destruct (script_run_with _ _ fresh_init x req p2) as [[r2 q2] pg2]. cbn in Hr, Hp, Ha'. subst r2 pg2.
  destruct r1 as [[| |e]|[]]; [| by apply IH| |]; apply Some_Forall2; exact (conj eq_refl (conj eq_refl Ha')).
Qed.

Lemma session_agree (xs : list Interaction) (p1 p2 : Proc St B) :
  Forall (fun x => cfg_at x = cfg) xs -> agree cfg p1 p2 ->
  option_Forall2 (sess_rel cfg) (session_with utc_offset parse init_cached xs p1)
                                (session_with utc_offset parse fresh_init xs p2).
Proof.
  intros Hxs. revert p1 p2. induction Hxs as [|x xs Hx Hxs IH]; intros p1 p2 Ha; cbn [session_with].
  - apply Some_Forall2. by split.
  - unfold interact_with. destruct (reruns_agree 2 x (req_at x) p1 p2 Hx Ha) as [[[r1 q1] pg1] [[r2 q2] pg2] (_ & Hp & Ha')|];
      cbn; [|constructor]. cbn in Hp, Ha'. subst pg2.
    destruct (IH q1 q2 Ha') as [[q1' pgs1] [q2' pgs2] (Hpgs & Ha'')|]; cbn; constructor.
    cbn in *. by subst.
Qed.

End Agree.

(** ** Caches only grow *)

Section Grow.
Context {St : Type} `{DocumentStore St}.
Context {B : Type} `{ModelBackend B}.
Variable utc_offset : Z.
Variable parse : string -> PyExc + Feed.

Lemma reruns_le (n : nat) (x : Interaction) (req : Request) (p p' : Proc St B) r page :
  reruns_with utc_offset parse init_cached n x req p = Some (r, p', page) -> cache_le (cache p) (cache p').
Proof.
  revert req p. induction n as [|n IH]; intros req p; cbn [reruns_with]; [done|].
  pose proof (script_run_le utc_offset parse x req p) as Hle.
  destruct (script_run_with _ _ init_cached x req p) as [[r1 p1] pg1]. cbn in Hle.
  destruct r1 as [[| |e]|[]]; [| |intros [= <- <- <-]; done..].
  - intros [= <- <- <-]. done.
  - intros E. etrans; [exact Hle|]. exact (IH _ _ E).
Qed.

(** The cache after an interaction holds what its first run's lines
    12-13 cached. *)
Lemma reruns_first_le (n : nat) (x : Interaction) (req : Request) (p p' : Proc St B) r page :
  reruns_with utc_offset parse init_cached n x req p = Some (r, p', page) ->
  cache_le (init_cached (cfg_at x) (cache p)).2 (cache p').
Proof.
  destruct n as [|n]; cbn [reruns_with]; [done|].
  pose proof (script_run_cache utc_offset parse init_cached x req p) as Hc.
  destruct (script_run_with _ _ init_cached x req p) as [[r1 p1] pg1]. cbn in Hc. rewrite <- Hc.
  destruct r1 as [[| |e]|[]]; [intros [= <- <- <-]; done| |intros [= <- <- <-]; done..].
  apply reruns_le.
Qed.

Lemma session_le (xs : list Interaction) (p p' : Proc St B) (pages : list (list Widget)) :
  session utc_offset parse xs p = Some (p', pages) -> cache_le (cache p) (cache p').
Proof.
  unfold session. revert p pages. induction xs as [|x xs IH]; intros p pages; cbn [session_with].
  - by intros [= <- _].
  - unfold interact_with. destruct (reruns_with _ _ init_cached 2 x (req_at x) p) as [[[r q] pg]|] eqn:E; [|done].
    cbn. destruct (session_with _ _ init_cached xs q) as [[q' pgs]|] eqn:E'; [|done]. intros [= <- _].
    etrans; [exact (reruns_le _ _ _ _ _ _ _ E)|exact (IH _ _ E')].
Qed.

End Grow.

(** ** Properties *)

Section Props.
Context {St : Type} `{DocumentStore St}.
Context {B : Type} `{ModelBackend B}.
Variable utc_offset : Z.
Variable parse : string -> PyExc + Feed.

(** C25. Termination of the rerun loop: whatever the configuration, the
    request and the state, an interaction ends after at most two runs of
    the script, because the run [st.rerun()] starts has no button pressed
    and so never reaches [st.rerun()] again. *)
Theorem interact_terminates (x : Interaction) (p : Proc St B) :
  exists r p' page, interact utc_offset parse x p = Some (r, p', page).
Proof.
  unfold interact, interact_with. cbn [reruns_with].
  destruct (script_run_with _ _ init_cached x (req_at x) p) as [[r p1] page]; cbn.
  destruct r as [[| |e]|[]]; eauto.
  pose proof (script_run_no_click utc_offset parse init_cached x (req_at x) p1) as Hn.
  destruct (script_run_with _ _ init_cached x (no_click (req_at x)) p1) as [[r2 p2] page2]; cbn in *.
  destruct r2 as [[| |e]|[]]; eauto. done.
Qed.

(** C26. Refinement of an interaction: the store an interaction leaves,
    its rerun included, is the effect [app_effect_with] of one run of the
    request; the rerun that follows an add or a delete writes nothing
    more and counts no visit. *)
Theorem interact_effect (x : Interaction) (p p' : Proc St B) (r : Halt + unit) (page : list Widget) :
  interact utc_offset parse x p = Some (r, p', page) ->
  pstore p' = app_effect_with (cfg_at x) utc_offset parse (now1_at x) (now2_at x)
                (init_cached (cfg_at x) (cache p)).1 (req_at x) (pstore p) (pclient p).
Proof.
  unfold interact, interact_with. cbn [reruns_with].
  pose proof (script_run_store utc_offset parse init_cached x (req_at x) p) as Hs1.
  pose proof (script_run_rerun utc_offset parse init_cached x (req_at x) p) as Hr1.
  destruct (script_run_with _ _ init_cached x (req_at x) p) as [[r1 p1] page1]; cbn in Hs1, Hr1 |- *.
  destruct r1 as [[| |e]|[]]; [intros [= <- <- <-]; exact Hs1| |intros [= <- <- <-]; exact Hs1..].
  pose proof (script_run_store utc_offset parse init_cached x (no_click (req_at x)) p1) as Hs2.
  rewrite app_effect_no_click in Hs2 by (apply Hr1; done).
  destruct (script_run_with _ _ init_cached x (no_click (req_at x)) p1) as [[r2 p2] page2]; cbn in Hs2 |- *.
  destruct r2 as [[| |e]|[]]; try done; intros [= <- <- <-]; congruence.
Qed.

(** C27. The confirmations are never seen: the page an interaction
    leaves never shows "피드가 추가되었습니다." (line 71) nor
    "피드가 삭제되었습니다." (line 82), because each is drawn just before
    [st.rerun()] and the rerun draws the page afresh. *)
Theorem interact_hides_confirmations (x : Interaction) (p p' : Proc St B) (r : Halt + unit) (page : list Widget) :
  interact utc_offset parse x p = Some (r, p', page) ->
  (SuccessBox "피드가 추가되었습니다." ∉ page) /\ (SuccessBox "피드가 삭제되었습니다." ∉ page).
Proof.
  intros E. destruct (reruns_some _ _ _ _ _ _ _ _ _ _ E) as (req' & q & Hrun & Hr).
  pose proof (script_run_page utc_offset parse init_cached x req' q) as F.
  rewrite Hrun in F. cbn in F. specialize (F Hr). rewrite Forall_forall in F.
  split; intros Hin; apply (F _ Hin); unfold confirmations; set_solver.
Qed.

(** C28. The objects are built once and then kept: when the first
    interaction of a session gets the collector [nc] from lines 12-13,
    the cache at the end of the session holds [nc] and a storage object,
    whatever the configurations of the later interactions, and the next
    run's lines 12-13 return [nc] whatever the configuration then; a
    secret removed or changed after the first successful run has no
    effect until the cache is cleared. *)
Theorem session_cache_stable (x : Interaction) (xs : list Interaction) (p p' : Proc St B)
    (pages : list (list Widget)) (nc : NewsCollector) (cfg' : Config) :
  (init_cached (cfg_at x) (cache p)).1 = inr nc ->
  session utc_offset parse (x :: xs) p = Some (p', pages) ->
  (exists gs, cache p' = mkCache (Some gs) (Some nc)) /\ init_cached cfg' (cache p') = (inr nc, cache p').
Proof.
  intros Hi E. destruct (init_cached_fills _ _ _ Hi) as [gs Hc].
  unfold session in E. cbn [session_with] in E. unfold interact_with in E.
  destruct (reruns_with _ _ init_cached 2 x (req_at x) p) as [[[r q] pg]|] eqn:E1; [|done]. cbn in E.
  destruct (session_with _ _ init_cached xs q) as [[q' pgs]|] eqn:E2; [|done]. injection E as <- _.
  pose proof (reruns_first_le utc_offset parse _ _ _ _ _ _ _ E1) as L1. rewrite Hc in L1.
  pose proof (session_le _ _ xs q q' pgs E2) as L2.
  assert (Hp : cache q' = mkCache (Some gs) (Some nc)) by (apply cache_le_full; by etrans).
  split; [by exists gs|]. rewrite Hp. apply init_cached_full.
Qed.

End Props.

(** ** Witnesses *)

Module Scenarios.
Import Page.Scenarios.
Local Open Scope string_scope.

(** The server process at start-up, on the repository of [Page]. *)
Definition p0 : Proc Repo Recorder := mkProc empty_cache repo1 App.Scenarios.rec0.

Definition at_cfg0 (req : Request) : Interaction :=
  mkInteraction cfg0 req App.Scenarios.now1 App.Scenarios.now2.

Definition delete_first : Request := mkRequest (Some menu_admin) None "admin123" "" (ClickDelete 0).

(** Secrets and environment emptied, after a first successful run. *)
Definition cfg_empty : Config := mkConfig (fun _ => None) (fun _ => None) (fun _ _ => None).


Lemma interact_effect_witness :
  (script_run_with 0 Collector.Scenarios.parse_demo init_cached (at_cfg0 delete_first) delete_first p0).1.1
    = inl Rerun /\
  exists r p' page,
    interact 0 Collector.Scenarios.parse_demo (at_cfg0 delete_first) p0 = Some (r, p', page) /\
    pstore p' = app_effect_with cfg0 0 Collector.Scenarios.parse_demo App.Scenarios.now1 App.Scenarios.now2
                  (inr nc0) delete_first repo1 App.Scenarios.rec0.
Proof.
  split; [vm_compute; reflexivity|].
  destruct (interact 0 Collector.Scenarios.parse_demo (at_cfg0 delete_first) p0) as [[[r p'] page]|] eqn:E;
    [|vm_compute in E; discriminate].
  exists r, p', page. split; [done|]. exact (interact_effect 0 Collector.Scenarios.parse_demo _ _ _ _ _ E).
Defined.

Lemma interact_hides_confirmations_witness :
  last (script_run_with 0 Collector.Scenarios.parse_demo init_cached (at_cfg0 add_new) add_new p0).2
    = Some (SuccessBox "피드가 추가되었습니다.") /\
  exists r p' page,
    interact 0 Collector.Scenarios.parse_demo (at_cfg0 add_new) p0 = Some (r, p', page) /\
    (SuccessBox "피드가 추가되었습니다." ∉ page) /\ (SuccessBox "피드가 삭제되었습니다." ∉ page).
Proof.
  split; [vm_compute; reflexivity|].
  destruct (interact 0 Collector.Scenarios.parse_demo (at_cfg0 add_new) p0) as [[[r p'] page]|] eqn:E;
    [|vm_compute in E; discriminate].
  exists r, p', page. split; [done|]. exact (interact_hides_confirmations 0 Collector.Scenarios.parse_demo _ _ _ _ _ E).
Defined.

Lemma session_cache_stable_witness :
  (init_cached cfg0 (cache p0)).1 = inr nc0 /\
  init_collector cfg_empty =
    inl (mkExc "ValueError" "GITHUB_TOKEN and REPO_NAME must be set in secrets or environment variables.") /\
  exists p' pages,
    session 0 Collector.Scenarios.parse_demo
      [at_cfg0 visit; mkInteraction cfg_empty visit App.Scenarios.now1 App.Scenarios.now2] p0 = Some (p', pages) /\
    (exists gs, cache p' = mkCache (Some gs) (Some nc0)) /\ init_cached cfg_empty (cache p') = (inr nc0, cache p').
Proof.
  split; [reflexivity|]. split; [reflexivity|].
  destruct (session 0 Collector.Scenarios.parse_demo
              [at_cfg0 visit; mkInteraction cfg_empty visit App.Scenarios.now1 App.Scenarios.now2] p0)
    as [[p' pages]|] eqn:E; [|vm_compute in E; discriminate].
  exists p', pages. split; [done|].
  exact (session_cache_stable 0 Collector.Scenarios.parse_demo (at_cfg0 visit) _ p0 p' pages nc0 cfg_empty eq_refl E).
Defined.

End Scenarios.
