(* ===== verification/Race.v ===== *)
(** * Concurrent runs on the shared repository

    Streamlit runs the script of every browser session in a thread of
    its own, and every session reaches the same GitHub repository. A
    handler of app.py reads a document with [load_json] and writes it
    back with [save_json]: the two are separate calls of the GitHub API,
    and between them another session's run can write the same path.

    This file writes a handler as a program of its storage calls
    ([Prog]: a load with the code that uses the document, a save, or the
    end of the handler with its value or exception), gives it its atomic
    meaning [run_prog] (the handler of [App] it is, [run_prog_update_view_count]
    and [run_prog_add_feed]) and its interleaved meaning: [interleave]
    runs two programs under a schedule that says which of them makes its
    next storage call. A [save_json] is one step: its [get_contents] and
    [update_file] are taken as one call here; [TextRace] takes them one at
    a time, with the conflict GitHub reports when a file changes between
    the two.

    The theorems: the serial schedule of two newsroom visits adds two to
    the counter, and the schedule load, load, save, save adds one while
    both visitors are shown the same count and two commits are made; two
    admins adding different feeds at the same time lose one of them. *)

From S2P Require Import Prelude Storage App.

Local Open Scope string_scope.

(** ** Handlers as programs of storage calls *)

Inductive Prog (A : Type) : Type :=
| PLoad (p : string) (k : Json -> Prog A)
| PSave (p : string) (d : Json) (m : string) (k : Prog A)
| PDone (r : PyExc + A).

Arguments PLoad {A} p k.
Arguments PSave {A} p d m k.
Arguments PDone {A} r.

(** The Python code between two storage calls, which may raise. *)
Definition pbind {A B} (r : PyExc + A) (k : A -> Prog B) : Prog B :=
  match r with inl e => PDone (inl e) | inr a => k a end.

Notation "'plet!' x ':=' c 'in' k" := (pbind c (fun x => k))
  (at level 10, x name, c at level 100, k at level 200).

(** [update_view_count] (app.py lines 23-27). *)
Definition update_view_count_prog : Prog Json :=
  PLoad stats_path (fun stats =>
  plet! v := py_getitem stats "total_views" in
  plet! v' := py_add_one v in
  plet! stats' := py_setitem stats "total_views" v' in
  PSave stats_path stats' "Increment view count" (PDone (inr v'))).

(** The add button of one run (app.py lines 64-72). *)
Definition add_feed_prog (new_feed : string) : Prog unit :=
  PLoad feeds_path (fun feeds =>
  if String.eqb new_feed "" then PDone (inr tt) else
  plet! present := py_in_json new_feed feeds in
  if present then PDone (inr tt) else
  plet! feeds' := py_append feeds (JStr new_feed) in
  PSave feeds_path feeds' ("Add feed: " ++ new_feed) (PDone (inr tt))).

Section Semantics.
Context {S : Type} `{DocumentStore S}.

(** The program run alone. *)
Fixpoint run_prog {A} (s : S) (m : Prog A) : PyExc + (A * S) :=
  match m with
  | PLoad p k => match load_json s p with inl e => inl e | inr d => run_prog s (k d) end
  | PSave p d msg k => match save_json s p d msg with inl e => inl e | inr s' => run_prog s' k end
  | PDone r => match r with inl e => inl e | inr a => inr (a, s) end
  end.

(** The next storage call of a program, on the shared store. *)
Definition prog_step {A} (s : S) (m : Prog A) : S * Prog A :=
  match m with
  | PLoad p k => (s, match load_json s p with inl e => PDone (inl e) | inr d => k d end)
  | PSave p d msg k =>
      match save_json s p d msg with inl e => (s, PDone (inl e)) | inr s' => (s', k) end
  | PDone r => (s, PDone r)
  end.

(** Two runs under a schedule: [true] lets the first make its next
    storage call, [false] the second. *)
Fixpoint interleave {A C} (sched : list bool) (s : S) (m1 : Prog A) (m2 : Prog C) : S * Prog A * Prog C :=
  match sched with
  | [] => (s, m1, m2)
  | true :: sched' => let '(s', m1') := prog_step s m1 in interleave sched' s' m1' m2
  | false :: sched' => let '(s', m2') := prog_step s m2 in interleave sched' s' m1 m2'
  end.

End Semantics.

(** The stored feed list is the list of URLs [xs]. *)
Definition feeds_are {S} `{DocumentStore S} (s : S) (xs : list string) : Prop :=
  load_json s feeds_path = inr (JArr (map JStr xs)).

(** ** The programs are the handlers *)

Section Refinement.
Context {S : Type} `{DocumentStore S}.

Lemma run_prog_update_view_count (s : S) : run_prog s update_view_count_prog = update_view_count s.
Proof.
  unfold update_view_count_prog, update_view_count. cbn [run_prog].
  destruct (load_json s stats_path) as [e|stats]; [done|]. cbn [pbind py_bind].
  destruct (py_getitem stats _) as [e|v]; [done|]. cbn [pbind py_bind].
  destruct (py_add_one v) as [e|v']; [done|]. cbn [pbind py_bind].
  destruct (py_setitem stats _ _) as [e|stats']; [done|]. cbn [pbind py_bind run_prog].
  by destruct (save_json s _ _ _).
Qed.

Lemma run_prog_add_feed (s : S) (x : string) :
  run_prog s (add_feed_prog x) = match add_feed s x with inl e => inl e | inr s' => inr (tt, s') end.
Proof.
  unfold add_feed_prog, add_feed. cbn [run_prog].
  destruct (load_json s feeds_path) as [e|feeds]; [done|]. cbn [py_bind].
  destruct (String.eqb x ""); [done|].
  destruct (py_in_json x feeds) as [e|[]]; [done..|]. cbn [pbind py_bind].
  destruct (py_append feeds _) as [e|feeds']; [done|]. cbn [pbind py_bind run_prog].
  by destruct (save_json s _ _ _).
Qed.

End Refinement.

(** ** Steps on the GitHub store *)

(** With the API answering, every save succeeds and keeps it answering. *)
Lemma github_save_total (r : Repo) (p : string) (d : Json) (m : string) :
  api_fault r = None ->
  exists k, github_save_json r p d m = inr (write_file r p d m k).
Proof.
  intros Hf. unfold github_save_json, get_contents. rewrite Hf.
  destruct (files r !! p); eauto.
Qed.

Lemma write_file_fault (r : Repo) (p : string) (d : Json) (m : string) (k : CommitKind) :
  api_fault (write_file r p d m k) = api_fault r.
Proof. done. Qed.

Lemma write_file_commits (r : Repo) (p : string) (d : Json) (m : string) (k : CommitKind) :
  length (commits (write_file r p d m k)) = S (length (commits r)).
Proof. unfold write_file. cbn. rewrite length_app. cbn. lia. Qed.

(** One visit's save of the counter [n + 1] on a store read as [kvs]. *)
Lemma visit_save (r : Repo) (kvs : list (string * Json)) (n : Z) :
  api_fault r = None ->
  exists r', save_json r stats_path (JObj (dict_set kvs "total_views" (JInt (n + 1)%Z))) "Increment view count" = inr r' /\
    api_fault r' = None /\ length (commits r') = S (length (commits r)) /\
    load_json r' stats_path = inr (JObj (dict_set kvs "total_views" (JInt (n + 1)%Z))).
Proof.
  intros Hf. destruct (github_save_total r stats_path (JObj (dict_set kvs "total_views" (JInt (n + 1)%Z)))
                        "Increment view count" Hf) as [k Hs].
  exists (write_file r stats_path (JObj (dict_set kvs "total_views" (JInt (n + 1)%Z))) "Increment view count" k).
  split_and!; [exact Hs|by rewrite write_file_fault|apply write_file_commits|].
  exact (load_save_eq _ _ _ _ _ Hs).
Qed.

(** The step of a visit that has read the counter [n]. *)
Lemma visit_after_load (kvs : list (string * Json)) (n : Z) :
  dict_get kvs "total_views" = Some (JInt n) ->
  (fun stats => plet! v := py_getitem stats "total_views" in
                plet! v' := py_add_one v in
                plet! stats' := py_setitem stats "total_views" v' in
                PSave stats_path stats' "Increment view count" (PDone (inr v'))) (JObj kvs) =
  PSave stats_path (JObj (dict_set kvs "total_views" (JInt (n + 1)%Z))) "Increment view count"
    (PDone (inr (JInt (n + 1)%Z))).
Proof. intros Hg. cbn [py_getitem]. by rewrite Hg. Qed.

(** ** Properties *)

(** C29. Lost update of the view counter: from a store whose counter is
    [n], two newsroom visits run one after the other leave [n + 2] and
    show [n + 1] and [n + 2]; run at the same time, both loading before
    either saves, they leave [n + 1], both show [n + 1], and the history
    still records two commits "Increment view count". *)
Theorem concurrent_visits_lose_count (r : Repo) (n : Z) :
  api_fault r = None -> view_count_is r n ->
  (exists r', interleave [true; true; false; false] r update_view_count_prog update_view_count_prog
               = (r', PDone (inr (JInt (n + 1)%Z)), PDone (inr (JInt (n + 2)%Z))) /\
              view_count_is r' (n + 2)%Z) /\
  (exists r', interleave [true; false; true; false] r update_view_count_prog update_view_count_prog
               = (r', PDone (inr (JInt (n + 1)%Z)), PDone (inr (JInt (n + 1)%Z))) /\
              view_count_is r' (n + 1)%Z /\ length (commits r') = length (commits r) + 2).
Proof.
  intros Hf (kvs & Hl & Hg). split.
  - destruct (visit_save r kvs n Hf) as (r1 & Hs1 & Hf1 & _ & Hl1).
    pose proof (dict_get_set_eq kvs "total_views" (JInt (n + 1)%Z)) as Hg1.
    destruct (visit_save r1 (dict_set kvs "total_views" (JInt (n + 1)%Z)) (n + 1) Hf1) as (r2 & Hs2 & _ & _ & Hl2).
    exists r2. cbn [interleave prog_step update_view_count_prog]. rewrite Hl, (visit_after_load _ _ Hg).
    cbn [prog_step]. rewrite Hs1. cbn [prog_step]. rewrite Hl1, (visit_after_load _ _ Hg1).
    cbn [prog_step]. rewrite Hs2. replace (n + 1 + 1)%Z with (n + 2)%Z in * by lia.
    split; [done|]. eexists. split; [exact Hl2|apply dict_get_set_eq].
  - destruct (visit_save r kvs n Hf) as (r1 & Hs1 & Hf1 & Hc1 & Hl1).
    destruct (visit_save r1 kvs n Hf1) as (r2 & Hs2 & _ & Hc2 & Hl2).
    exists r2. cbn [interleave prog_step update_view_count_prog]. rewrite Hl, (visit_after_load _ _ Hg).
    cbn [prog_step]. rewrite Hs1. cbn [prog_step]. rewrite Hs2.
    split; [done|]. split; [|lia]. exists (dict_set kvs "total_views" (JInt (n + 1)%Z)).
    split; [done|]. apply dict_get_set_eq.
Qed.

(** C30. Lost update of the feed list: two admins who add two different
    new URLs [x1] and [x2] at the same time, both loading the list before
    either saves, leave the list with [x2] appended and [x1] missing,
    though both runs end without error. *)
Theorem concurrent_adds_lose_feed (r : Repo) (xs : list string) (x1 x2 : string) :
  api_fault r = None -> feeds_are r xs -> x1 <> "" -> x2 <> "" -> x1 ∉ xs -> x2 ∉ xs -> x1 <> x2 ->
  exists r', interleave [true; false; true; false] r (add_feed_prog x1) (add_feed_prog x2)
               = (r', PDone (inr tt), PDone (inr tt)) /\
             feeds_are r' (xs ++ [x2])%list /\ x1 ∉ (xs ++ [x2])%list.
Proof.
  intros Hf Hl Hx1 Hx2 Hn1 Hn2 Hne.
  destruct (github_save_total r feeds_path (JArr (map JStr (xs ++ [x1])%list)) ("Add feed: " ++ x1) Hf) as [k1 Hs1].
  set (r1 := write_file r feeds_path (JArr (map JStr (xs ++ [x1])%list)) ("Add feed: " ++ x1) k1) in Hs1.
  assert (Hf1 : api_fault r1 = None) by (unfold r1; by rewrite write_file_fault).
  destruct (github_save_total r1 feeds_path (JArr (map JStr (xs ++ [x2])%list)) ("Add feed: " ++ x2) Hf1) as [k2 Hs2].
  pose proof Hs1 as Hs1'. pose proof Hs2 as Hs2'. rewrite map_app in Hs1', Hs2'. cbn [map] in Hs1', Hs2'.
  eexists. split.
  - cbn [interleave prog_step add_feed_prog]. unfold feeds_are in Hl. rewrite Hl.
    rewrite (proj2 (String.eqb_neq _ _) Hx1), (proj2 (String.eqb_neq _ _) Hx2).
    rewrite !(py_in_json_strs _ xs), !bool_decide_eq_false_2 by done. cbn [pbind py_append].
    cbn [prog_step]. change (save_json r) with (github_save_json r). rewrite Hs1'.
    cbn [prog_step]. change (save_json r1) with (github_save_json r1). rewrite Hs2'. reflexivity.
  - split; [unfold feeds_are; rewrite map_app; exact (load_save_eq _ _ _ _ _ Hs2')|]. rewrite elem_of_app, list_elem_of_singleton. tauto.
Qed.

(** ** Witnesses *)

Module Scenarios.

Definition repo_views (n : Z) : Repo :=
  mkRepo (<[stats_path := JObj [("total_views", JInt n)]]> ∅) [] None.

Lemma concurrent_visits_lose_count_witness :
  api_fault (repo_views 41) = None /\ view_count_is (repo_views 41) 41 /\
  (exists r', interleave [true; true; false; false] (repo_views 41) update_view_count_prog update_view_count_prog
               = (r', PDone (inr (JInt 42)), PDone (inr (JInt 43))) /\ view_count_is r' 43) /\
  (exists r', interleave [true; false; true; false] (repo_views 41) update_view_count_prog update_view_count_prog
               = (r', PDone (inr (JInt 42)), PDone (inr (JInt 42))) /\
              view_count_is r' 42 /\ length (commits r') = length (commits (repo_views 41)) + 2).
Proof.
  assert (Hv : view_count_is (repo_views 41) 41) by (eexists; split; reflexivity).
  split; [reflexivity|]. split; [exact Hv|].
  exact (concurrent_visits_lose_count (repo_views 41) 41 eq_refl Hv).
Defined.

Definition repo_feeds : Repo :=
  mkRepo (<[feeds_path := JArr [JStr "https://a.example/rss"]]> ∅) [] None.

Lemma concurrent_adds_lose_feed_witness :
  exists r', interleave [true; false; true; false] repo_feeds
               (add_feed_prog "https://b.example/rss") (add_feed_prog "https://c.example/rss")
               = (r', PDone (inr tt), PDone (inr tt)) /\
             feeds_are r' (["https://a.example/rss"] ++ ["https://c.example/rss"])%list /\
             "https://b.example/rss" ∉ (["https://a.example/rss"] ++ ["https://c.example/rss"])%list.
Proof.
  apply (concurrent_adds_lose_feed repo_feeds ["https://a.example/rss"]); try reflexivity; try discriminate.
  - rewrite list_elem_of_singleton. discriminate.
  - rewrite list_elem_of_singleton. discriminate.
Defined.

End Scenarios.
