(* ===== verification/JsonText.v ===== *)
(** * The JSON text of the stored documents

    [GitHubStorage.save_json] writes [json.dumps(data, indent=2,
    ensure_ascii=False)] (github_storage.py line 38) and [load_json]
    reads [json.loads(content.decoded_content.decode('utf-8'))] (line
    21). This file models the two on byte strings (a Python [str] is
    held as its UTF-8 bytes):
    - [json_dumps]: the encoder of json/encoder.py with an indent of 2
      and the separators [","] and [": "]; [escape_char] is its
      [ESCAPE_DCT] for [ensure_ascii=False] (quote, backslash, the five
      named controls, the other controls as [\u00XX], every other byte
      as it is);
    - [utf8_valid]: the strict UTF-8 decoder's check ([bytes.decode]
      rejects overlong forms, surrogates and code points above
      U+10FFFF);
    - [json_loads]: the scanner of json/decoder.py and json/scanner.py
      (as the C accelerator runs it): whitespace, literals, [NUMBER_RE],
      strings with their escapes and surrogate pairs, arrays, objects
      built as [dict(pairs)] (a repeated key keeps its first place and
      its last value), the BOM check and "Extra data". The recursion is
      on a fuel of one more than the input's length, which bounds the
      number of values in it.

    A number with a fraction or an exponent, and [NaN] and [Infinity],
    are Python floats, which the [Json] type of the documents does not
    have: [json_loads] returns the exception [float_not_modelled] for
    them (the app never writes a float). The position that
    [JSONDecodeError] messages carry is not modelled, nor is Python's
    recursion limit on deeply nested text.

    The theorems: [json_loads] inverts [json_dumps] on every well-formed
    document ([json_wf]: distinct keys, strings of valid UTF-8), and a
    GitHub store that holds the text refines the store of [Storage] that
    holds the documents. *)

From S2P Require Import Prelude Datetime Storage App.
From Stdlib Require Import Decimal DecimalString DecimalFacts DecimalPos DecimalZ.

Local Open Scope string_scope.
Local Open Scope nat_scope.

(** ** Characters *)

Definition quote : ascii := ascii_of_nat 34.
Definition bslash : ascii := ascii_of_nat 92.
Definition newline : ascii := ascii_of_nat 10.

Definition is_digit (c : ascii) : bool := (48 <=? nat_of_ascii c) && (nat_of_ascii c <=? 57).

(** [' \t\n\r'], the whitespace of [json.decoder.WHITESPACE]. *)
Definition is_ws (c : ascii) : bool :=
  let n := nat_of_ascii c in (n =? 32) || (n =? 9) || (n =? 10) || (n =? 13).

(** Lower-case hexadecimal digit, as ['{0:04x}'.format(i)]. *)
Definition hex_digit (n : nat) : ascii := ascii_of_nat (if n <? 10 then 48 + n else 87 + n).

Definition hex_val (c : ascii) : option N :=
  let n := nat_of_ascii c in
  if (48 <=? n) && (n <=? 57) then Some (N.of_nat (n - 48))
  else if (97 <=? n) && (n <=? 102) then Some (N.of_nat (n - 87))
  else if (65 <=? n) && (n <=? 70) then Some (N.of_nat (n - 55))
  else None.

Definition hex4 (a b c d : ascii) : option N :=
  match hex_val a, hex_val b, hex_val c, hex_val d with
  | Some x, Some y, Some z, Some w => Some (((x * 16 + y) * 16 + z) * 16 + w)%N
  | _, _, _, _ => None
  end.

(** ** json.dumps(data, indent=2, ensure_ascii=False) *)

(** [ESCAPE_DCT] on one byte. *)
Definition escape_char (c : ascii) : string :=
  let n := nat_of_ascii c in
  if n =? 34 then String bslash (String quote "")
  else if n =? 92 then String bslash (String bslash "")
  else if n =? 8 then String bslash "b"
  else if n =? 12 then String bslash "f"
  else if n =? 10 then String bslash "n"
  else if n =? 13 then String bslash "r"
  else if n =? 9 then String bslash "t"
  else if n <? 32 then
    String bslash (String "u" (String "0" (String "0"
      (String (hex_digit (n / 16)) (String (hex_digit (n mod 16)) "")))))
  else String c "".

Fixpoint escape_string (s : string) : string :=
  match s with
  | "" => ""
  | String c s' => escape_char c ++ escape_string s'
  end.

(** [py_encode_basestring]. *)
Definition encode_string (s : string) : string := String quote (escape_string s ++ String quote "").

Fixpoint spaces (n : nat) : string :=
  match n with O => "" | S n' => String " " (spaces n') end.

(** ['\n' + ' ' * (indent * level)]. *)
Definition newline_indent (level : nat) : string := String newline (spaces (2 * level)).

(** [_iterencode] at nesting [level]. *)
Fixpoint dumps_at (level : nat) (v : Json) : string :=
  match v with
  | JNull => "null"
  | JBool b => if b then "true" else "false"
  | JInt n => z_to_str n
  | JStr s => encode_string s
  | JArr [] => "[]"
  | JArr xs =>
      "[" ++ newline_indent (S level) ++
      py_join ("," ++ newline_indent (S level)) (map (dumps_at (S level)) xs) ++
      newline_indent level ++ "]"
  | JObj [] => "{}"
  | JObj kvs =>
      "{" ++ newline_indent (S level) ++
      py_join ("," ++ newline_indent (S level))
        (map (fun '(k, x) => encode_string k ++ ": " ++ dumps_at (S level) x) kvs) ++
      newline_indent level ++ "}"
  end.

Definition json_dumps (v : Json) : string := dumps_at 0 v.

(** ** bytes.decode('utf-8') *)

Definition cont_byte (c : ascii) : bool := (128 <=? nat_of_ascii c) && (nat_of_ascii c <=? 191).

(** The second byte of a three-byte form: no overlong form after
    [E0], no surrogate after [ED]. *)
Definition second3_ok (n1 : nat) (c : ascii) : bool :=
  let n := nat_of_ascii c in
  if n1 =? 224 then (160 <=? n) && (n <=? 191)
  else if n1 =? 237 then (128 <=? n) && (n <=? 159)
  else cont_byte c.

(** The second byte of a four-byte form: no overlong form after [F0],
    nothing above U+10FFFF after [F4]. *)
Definition second4_ok (n1 : nat) (c : ascii) : bool :=
  let n := nat_of_ascii c in
  if n1 =? 240 then (144 <=? n) && (n <=? 191)
  else if n1 =? 244 then (128 <=? n) && (n <=? 143)
  else cont_byte c.

Fixpoint utf8_valid (s : string) : bool :=
  match s with
  | "" => true
  | String c1 s1 =>
      let n1 := nat_of_ascii c1 in
      if n1 <? 128 then utf8_valid s1
      else if (194 <=? n1) && (n1 <=? 223) then
        match s1 with String c2 s2 => cont_byte c2 && utf8_valid s2 | _ => false end
      else if (224 <=? n1) && (n1 <=? 239) then
        match s1 with
        | String c2 (String c3 s3) => second3_ok n1 c2 && cont_byte c3 && utf8_valid s3
        | _ => false
        end
      else if (240 <=? n1) && (n1 <=? 244) then
        match s1 with
        | String c2 (String c3 (String c4 s4)) =>
            second4_ok n1 c2 && cont_byte c3 && cont_byte c4 && utf8_valid s4
        | _ => false
        end
      else false
  end.

(** ** json.loads *)

Definition decode_error (msg : string) : PyExc := mkExc "JSONDecodeError" msg.

Definition expecting_value : PyExc := decode_error "Expecting value".
Definition expecting_delimiter : PyExc := decode_error "Expecting ',' delimiter".
Definition expecting_name : PyExc := decode_error "Expecting property name enclosed in double quotes".
Definition expecting_colon : PyExc := decode_error "Expecting ':' delimiter".
Definition unterminated : PyExc := decode_error "Unterminated string starting at".
Definition invalid_uxxxx : PyExc := decode_error "Invalid \uXXXX escape".

(** What the model returns where Python returns a float. *)
Definition float_not_modelled : PyExc := mkExc "float" "a float value".

(** The exhausted fuel; never reached from [json_loads]. *)
Definition nesting_exhausted : PyExc := mkExc "RecursionError" "maximum recursion depth exceeded".

Fixpoint skip_ws (s : string) : string :=
  match s with
  | String c s' => if is_ws c then skip_ws s' else s
  | "" => ""
  end.

(** [chr(u)] as UTF-8 bytes; a lone surrogate is written with the
    three-byte pattern, which [utf8_valid] rejects. *)
Definition utf8_encode (u : N) : string :=
  if (u <? 128)%N then String (ascii_of_N u) ""
  else if (u <? 2048)%N then
    String (ascii_of_N (192 + u / 64)) (String (ascii_of_N (128 + u mod 64)) "")
  else if (u <? 65536)%N then
    String (ascii_of_N (224 + u / 4096)) (String (ascii_of_N (128 + (u / 64) mod 64))
      (String (ascii_of_N (128 + u mod 64)) ""))
  else
    String (ascii_of_N (240 + u / 262144)) (String (ascii_of_N (128 + (u / 4096) mod 64))
      (String (ascii_of_N (128 + (u / 64) mod 64)) (String (ascii_of_N (128 + u mod 64)) ""))).

(** [BACKSLASH]: the one-character escapes. *)
Definition simple_escape (c : ascii) : option ascii :=
  let n := nat_of_ascii c in
  if n =? 34 then Some quote
  else if n =? 92 then Some bslash
  else if n =? 47 then Some "/"%char
  else if n =? 98 then Some (ascii_of_nat 8)
  else if n =? 102 then Some (ascii_of_nat 12)
  else if n =? 110 then Some newline
  else if n =? 114 then Some (ascii_of_nat 13)
  else if n =? 116 then Some (ascii_of_nat 9)
  else None.

Definition prepend (t : string) (r : PyExc + (string * string)) : PyExc + (string * string) :=
  match r with inl e => inl e | inr (u, rest) => inr (t ++ u, rest) end.

Definition is_high_surrogate (u : N) : bool := ((55296 <=? u) && (u <=? 56319))%N.
Definition is_low_surrogate (u : N) : bool := ((56320 <=? u) && (u <=? 57343))%N.

(** [scanstring] after the opening quote: the string and the rest. As
    in the C scanner, a [\u] escape needs one character after its four
    digits ([end >= len] is an error), and a second [\uXXXX] is joined
    to a high surrogate only when one more character follows it. *)
Fixpoint scan_chars (s : string) : PyExc + (string * string) :=
  match s with
  | "" => inl unterminated
  | String c s1 =>
      let n := nat_of_ascii c in
      if n =? 34 then inr ("", s1)
      else if n =? 92 then
        match s1 with
        | "" => inl unterminated
        | String e s2 =>
            if nat_of_ascii e =? 117 then
              match s2 with
              | String h1 (String h2 (String h3 (String h4 (String _ _ as s3)))) =>
                  match hex4 h1 h2 h3 h4 with
                  | None => inl invalid_uxxxx
                  | Some u =>
                      if is_high_surrogate u then
                        match s3 with
                        | String b (String v (String k1 (String k2 (String k3 (String k4 (String _ _ as s4)))))) =>
                            if (nat_of_ascii b =? 92) && (nat_of_ascii v =? 117) then
                              match hex4 k1 k2 k3 k4 with
                              | None => inl invalid_uxxxx
                              | Some u2 =>
                                  if is_low_surrogate u2 then
                                    prepend (utf8_encode (65536 + (u - 55296) * 1024 + (u2 - 56320))%N) (scan_chars s4)
                                  else prepend (utf8_encode u) (scan_chars s3)
                              end
                            else prepend (utf8_encode u) (scan_chars s3)
                        | _ => prepend (utf8_encode u) (scan_chars s3)
                        end
                      else prepend (utf8_encode u) (scan_chars s3)
                  end
              | _ => inl invalid_uxxxx
              end
            else match simple_escape e with
                 | Some c' => prepend (String c' "") (scan_chars s2)
                 | None => inl (decode_error "Invalid \escape")
                 end
        end
      else if n <? 32 then inl (decode_error "Invalid control character at")
      else prepend (String c "") (scan_chars s1)
  end.

Fixpoint span_digits (s : string) : string * string :=
  match s with
  | String c s' => if is_digit c then let '(d, r) := span_digits s' in (String c d, r) else ("", s)
  | "" => ("", "")
  end.

(** The integer group of [NUMBER_RE]: an optional minus, then [0] or a
    digit from 1 to 9 followed by any digits. *)
Definition scan_int_part (s : string) : option (string * string) :=
  let '(sign, s1) :=
    match s with
    | String c s' => if nat_of_ascii c =? 45 then ("-", s') else ("", s)
    | "" => ("", "")
    end in
  match s1 with
  | String c s2 =>
      if nat_of_ascii c =? 48 then Some (sign ++ "0", s2)
      else if is_digit c then let '(d, r) := span_digits s2 in Some (sign ++ String c d, r)
      else None
  | "" => None
  end.

(** Whether the fraction [\.\d+] or the exponent [[eE][-+]?\d+] of
    [NUMBER_RE] matches at the start. *)
Definition float_tail (s : string) : bool :=
  match s with
  | String c r =>
      if nat_of_ascii c =? 46 then
        match r with String d _ => is_digit d | "" => false end
      else if (nat_of_ascii c =? 101) || (nat_of_ascii c =? 69) then
        match r with
        | String d r' =>
            if (nat_of_ascii d =? 43) || (nat_of_ascii d =? 45) then
              match r' with String d' _ => is_digit d' | "" => false end
            else is_digit d
        | "" => false
        end
      else false
  | "" => false
  end.

(** [NaN], [Infinity] and [-Infinity]. *)
Definition float_constant (s : string) : bool :=
  String.prefix "NaN" s || String.prefix "Infinity" s || String.prefix "-Infinity" s.

Definition scan_literal (s : string) : option (Json * string) :=
  match s with
  | String "n" (String "u" (String "l" (String "l" r))) => Some (JNull, r)
  | String "t" (String "r" (String "u" (String "e" r))) => Some (JBool true, r)
  | String "f" (String "a" (String "l" (String "s" (String "e" r)))) => Some (JBool false, r)
  | _ => None
  end.

(** A number: [parse_int] of the integer group. *)
Definition scan_number (s : string) : PyExc + (Json * string) :=
  match scan_int_part s with
  | Some (txt, r) =>
      if float_tail r then inl float_not_modelled
      else match NilEmpty.int_of_string txt with
           | Some d => inr (JInt (Z.of_int d), r)
           | None => inl expecting_value
           end
  | None => if float_constant s then inl float_not_modelled else inl expecting_value
  end.

(** [dict(pairs)]: a repeated key keeps its first place and its last
    value. *)
Definition dict_of_pairs (kvs : list (string * Json)) : list (string * Json) :=
  fold_left (fun acc '(k, v) => dict_set acc k v) kvs [].

(** [scan_once], with the array and object loops of [JSONArray] and
    [JSONObject] on the same fuel. *)
Fixpoint scan_value (fuel : nat) (s : string) {struct fuel} : PyExc + (Json * string) :=
  match fuel with
  | O => inl nesting_exhausted
  | S f =>
      match s with
      | "" => inl expecting_value
      | String c s1 =>
          let n := nat_of_ascii c in
          if n =? 34 then
            match scan_chars s1 with inl e => inl e | inr (t, r) => inr (JStr t, r) end
          else if n =? 91 then
            match skip_ws s1 with
            | String "]" r => inr (JArr [], r)
            | s2 => match scan_elems f s2 with inl e => inl e | inr (xs, r) => inr (JArr xs, r) end
            end
          else if n =? 123 then
            match skip_ws s1 with
            | String "}" r => inr (JObj [], r)
            | String q r =>
                if nat_of_ascii q =? 34 then
                  match scan_members f r with
                  | inl e => inl e
                  | inr (kvs, r') => inr (JObj (dict_of_pairs kvs), r')
                  end
                else inl expecting_name
            | "" => inl expecting_name
            end
          else match scan_literal s with
               | Some (v, r) => inr (v, r)
               | None => scan_number s
               end
      end
  end
with scan_elems (fuel : nat) (s : string) {struct fuel} : PyExc + (list Json * string) :=
  match fuel with
  | O => inl nesting_exhausted
  | S f =>
      match scan_value f s with
      | inl e => inl e
      | inr (v, r) =>
          match skip_ws r with
          | String "]" r' => inr ([v], r')
          | String "," r' =>
              match scan_elems f (skip_ws r') with inl e => inl e | inr (vs, r'') => inr (v :: vs, r'') end
          | _ => inl expecting_delimiter
          end
      end
  end
with scan_members (fuel : nat) (s : string) {struct fuel} : PyExc + (list (string * Json) * string) :=
  match fuel with
  | O => inl nesting_exhausted
  | S f =>
      match scan_chars s with
      | inl e => inl e
      | inr (k, r) =>
          match skip_ws r with
          | String ":" r1 =>
              match scan_value f (skip_ws r1) with
              | inl e => inl e
              | inr (v, r2) =>
                  match skip_ws r2 with
                  | String "}" r3 => inr ([(k, v)], r3)
                  | String "," r3 =>
                      match skip_ws r3 with
                      | String q r4 =>
                          if nat_of_ascii q =? 34 then
                            match scan_members f r4 with
                            | inl e => inl e
                            | inr (kvs, r5) => inr ((k, v) :: kvs, r5)
                            end
                          else inl expecting_name
                      | "" => inl expecting_name
                      end
                  | _ => inl expecting_delimiter
                  end
              end
          | _ => inl expecting_colon
          end
      end
  end.

(** U+FEFF in UTF-8. *)
Definition utf8_bom : string := String (ascii_of_nat 239) (String (ascii_of_nat 187) (String (ascii_of_nat 191) "")).

(** [json.loads] on a [str] ([JSONDecoder.decode]). *)
Definition json_loads_str (s : string) : PyExc + Json :=
  if String.prefix utf8_bom s
  then inl (decode_error "Unexpected UTF-8 BOM (decode using utf-8-sig)")
  else match scan_value (S (String.length s)) (skip_ws s) with
       | inl e => inl e
       | inr (v, r) => if String.eqb (skip_ws r) "" then inr v else inl (decode_error "Extra data")
       end.

(** [json.loads(b.decode('utf-8'))], line 21. *)
Definition json_loads (b : string) : PyExc + Json :=
  if utf8_valid b then json_loads_str b
  else inl (mkExc "UnicodeDecodeError" "'utf-8' codec can't decode bytes").

(** ** Well-formed documents *)

(** The documents [json.dumps] can write and [json.loads] gives back: the
    keys of an object are distinct (a Python dict) and every string is
    valid UTF-8 (a Python [str] from [bytes.decode]). *)
Fixpoint keys_distinct (ks : list string) : bool :=
  match ks with
  | [] => true
  | k :: ks' => negb (existsb (String.eqb k) ks') && keys_distinct ks'
  end.

Fixpoint json_wf (v : Json) : bool :=
  match v with
  | JNull | JBool _ | JInt _ => true
  | JStr s => utf8_valid s
  | JArr xs => forallb json_wf xs
  | JObj kvs => keys_distinct (map fst kvs) && forallb (fun '(k, x) => utf8_valid k && json_wf x) kvs
  end.

(** The number of values in a document, which bounds the fuel. *)
Fixpoint json_size (v : Json) : nat :=
  match v with
  | JArr xs => S (list_sum (map (fun x => S (json_size x)) xs))
  | JObj kvs => S (list_sum (map (fun '(_, x) => S (json_size x)) kvs))
  | _ => 1
  end.

(** What [json.dumps] writes after a value: the end of the text, an item
    separator or a newline. *)
Definition value_stop (r : string) : bool :=
  match r with
  | "" => true
  | String c _ => (nat_of_ascii c =? 44) || (nat_of_ascii c =? 10)
  end.

(** The scanner reads a printed document back at every nesting level,
    whatever of the printed text follows it. *)
Definition scans_back (v : Json) : Prop :=
  forall (L F : nat) (r : string), json_wf v = true -> json_size v <= F -> value_stop r = true ->
    scan_value F (dumps_at L v ++ r) = inr (v, r).

(** ** Induction on documents *)

Section JsonInd.
Variable P : Json -> Prop.
Hypothesis HNull : P JNull.
Hypothesis HBool : forall b, P (JBool b).
Hypothesis HInt : forall n, P (JInt n).
Hypothesis HStr : forall s, P (JStr s).
Hypothesis HArr : forall xs, Forall P xs -> P (JArr xs).
Hypothesis HObj : forall kvs, Forall (fun kv => P kv.2) kvs -> P (JObj kvs).

Fixpoint Json_nested_ind (v : Json) : P v :=
  match v with
  | JNull => HNull
  | JBool b => HBool b
  | JInt n => HInt n
  | JStr s => HStr s
  | JArr xs => HArr xs ((fix go (xs : list Json) : Forall P xs :=
      match xs with [] => List.Forall_nil _ | x :: xs' => @List.Forall_cons _ P x xs' (Json_nested_ind x) (go xs') end) xs)
  | JObj kvs => HObj kvs ((fix go (kvs : list (string * Json)) : Forall (fun kv => P kv.2) kvs :=
      match kvs with
      | [] => List.Forall_nil _
      | kv :: kvs' => @List.Forall_cons _ (fun kv => P kv.2) kv kvs' (Json_nested_ind kv.2) (go kvs')
      end) kvs)
  end.
End JsonInd.

(** ** Strings: [scanstring] inverts [py_encode_basestring] *)

Lemma escape_char_scan (c : ascii) (X : string) :
  X <> "" -> scan_chars (escape_char c ++ X) = prepend (String c "") (scan_chars X).
Proof.
  destruct X as [|x X]; [done|]. intros _.
  destruct c as [[] [] [] [] [] [] [] []]; reflexivity.
Qed.

Lemma str_app_nil_l (a : string) : "" ++ a = a.
Proof. reflexivity. Qed.

Ltac str_simpl := repeat (rewrite str_app_cons || rewrite str_app_nil_l).

Lemma escape_string_app (s t : string) :
  escape_string s ++ t = match s with "" => t | String c s' => escape_char c ++ (escape_string s' ++ t) end.
Proof. destruct s; [done|]. cbn [escape_string]. by rewrite str_app_assoc. Qed.

Lemma escape_string_scan (s r : string) :
  scan_chars (escape_string s ++ String quote r) = inr (s, r).
Proof.
  induction s as [|c s IH]; [reflexivity|].
  rewrite escape_string_app, escape_char_scan, IH; [done|].
  by destruct s as [|c' s]; [|rewrite escape_string_app; destruct (escape_char c') eqn:E; [destruct c' as [[] [] [] [] [] [] [] []]; discriminate|]].
Qed.

Lemma encode_string_app (s r : string) : encode_string s ++ r = String quote (escape_string s ++ String quote r).
Proof. unfold encode_string. by rewrite str_app_cons, str_app_assoc. Qed.

(** ** The text is valid UTF-8 *)

Lemma string_len_ind (P : string -> Prop) :
  (forall s, (forall t, String.length t < String.length s -> P t) -> P s) -> forall s, P s.
Proof.
  intros H s. remember (String.length s) as n eqn:Hn. revert s Hn.
  induction n as [n IH] using lt_wf_ind. intros s ->. apply H. intros t Ht. by apply (IH _ Ht).
Qed.

Lemma utf8_valid_app (a b : string) : utf8_valid a = true -> utf8_valid (a ++ b) = utf8_valid b.
Proof.
  revert a. refine (string_len_ind _ _). intros [|c1 a1] IH Ha; [done|].
  rewrite str_app_cons. cbn [utf8_valid] in Ha |- *.
  destruct (_ <? 128); [apply IH; [simpl; lia|done]|].
  destruct (_ && _).
  { destruct a1 as [|c2 a2]; [done|]. rewrite str_app_cons.
    apply andb_true_iff in Ha as [-> Ha]. apply IH; [simpl; lia|done]. }
  destruct (_ && _).
  { destruct a1 as [|c2 [|c3 a3]]; [done..|]. rewrite !str_app_cons.
    apply andb_true_iff in Ha as [[-> ->]%andb_true_iff Ha]. apply IH; [simpl; lia|done]. }
  destruct (_ && _); [|done].
  destruct a1 as [|c2 [|c3 [|c4 a4]]]; [done..|]. rewrite !str_app_cons.
  apply andb_true_iff in Ha as [[[-> ->]%andb_true_iff ->]%andb_true_iff Ha]. apply IH; [simpl; lia|done].
Qed.

Lemma escape_char_valid (c : ascii) : utf8_valid (escape_char c) = (nat_of_ascii c <? 128).
Proof. destruct c as [[] [] [] [] [] [] [] []]; reflexivity. Qed.

Lemma escape_char_high (c : ascii) : 128 <= nat_of_ascii c -> escape_char c = String c "".
Proof. intros H. destruct c as [[] [] [] [] [] [] [] []]; try reflexivity; apply Nat.leb_le in H; vm_compute in H; discriminate. Qed.

Lemma escape_string_valid (s : string) : utf8_valid s = true -> utf8_valid (escape_string s) = true.
Proof.
  revert s. refine (string_len_ind _ _). intros [|c1 s1] IH Hs; [done|].
  cbn [escape_string]. cbn [utf8_valid] in Hs.
  destruct (nat_of_ascii c1 <? 128) eqn:Ha.
  { rewrite utf8_valid_app by (by rewrite escape_char_valid). apply IH; [simpl; lia|done]. }
  apply Nat.ltb_ge in Ha. rewrite escape_char_high by done.
  assert (Hc : forall c, cont_byte c = true -> escape_char c = String c "").
  { intros c Hc. apply escape_char_high. unfold cont_byte in Hc. apply andb_true_iff in Hc as [Hc _].
    apply Nat.leb_le in Hc. lia. }
  str_simpl. cbn [utf8_valid]. apply Nat.ltb_ge in Ha as ->.
  destruct (_ && _).
  { destruct s1 as [|c2 s2]; [done|]. apply andb_true_iff in Hs as [H2 Hs].
    cbn [escape_string]. rewrite Hc by done. str_simpl. rewrite H2. apply IH; [simpl; lia|done]. }
  destruct (_ && _).
  { destruct s1 as [|c2 [|c3 s3]]; [done..|]. apply andb_true_iff in Hs as [[H2 H3]%andb_true_iff Hs].
    cbn [escape_string]. rewrite (Hc c3 H3). rewrite escape_char_high.
    - str_simpl. rewrite H2, H3. apply IH; [simpl; lia|done].
    - unfold second3_ok, cont_byte in H2. repeat case_match; apply andb_true_iff in H2 as [H2 _]; apply Nat.leb_le in H2; lia. }
  destruct (_ && _); [|done].
  destruct s1 as [|c2 [|c3 [|c4 s4]]]; [done..|].
  apply andb_true_iff in Hs as [[[H2 H3]%andb_true_iff H4]%andb_true_iff Hs].
  cbn [escape_string]. rewrite (Hc c3 H3), (Hc c4 H4). rewrite escape_char_high.
  - str_simpl. rewrite H2, H3, H4. apply IH; [simpl; lia|done].
  - unfold second4_ok, cont_byte in H2. repeat case_match; apply andb_true_iff in H2 as [H2 _]; apply Nat.leb_le in H2; lia.
Qed.

(** ** Numbers: [_match_number_unicode] inverts [int.__repr__] *)

Lemma value_stop_cases (r : string) :
  value_stop r = true -> r = "" \/ (exists t, r = String "," t) \/ (exists t, r = String newline t).
Proof.
  intros Hr. destruct r as [|c t]; [by left|]. right.
  destruct c as [[] [] [] [] [] [] [] []]; cbn in Hr; try discriminate; eauto.
Qed.

Lemma value_stop_float_tail (r : string) : value_stop r = true -> float_tail r = false.
Proof. intros [->|[[t ->]|[t ->]]]%value_stop_cases; reflexivity. Qed.

Lemma span_digits_uint (d : uint) (r : string) :
  value_stop r = true -> span_digits (NilEmpty.string_of_uint d ++ r) = (NilEmpty.string_of_uint d, r).
Proof.
  intros Hr. induction d; cbn [NilEmpty.string_of_uint]; str_simpl; cbn [span_digits];
    try (rewrite IHd; reflexivity).
  by destruct (value_stop_cases r Hr) as [->|[[t ->]|[t ->]]].
Qed.

(** [Pos.to_uint] writes no leading zero. *)
Lemma pos_uint_head (p : positive) : match Pos.to_uint p with Nil | D0 _ => False | _ => True end.
Proof.
  pose proof (Unsigned.to_uint_nonzero p) as Hz.
  assert (Hn : unorm (Pos.to_uint p) = Pos.to_uint p).
  { by rewrite <- Unsigned.to_of, Unsigned.of_to. }
  destruct (Pos.to_uint p) as [|u|u|u|u|u|u|u|u|u|u] eqn:E; try exact I.
  - by apply (unorm_nonnil Nil).
  - destruct (nzhead (D0 u)) eqn:Ez; [by apply unorm_0 in Ez; rewrite Ez in Hn|..];
      rewrite unorm_nzhead in Hn by (by rewrite Ez); by apply (nzhead_nonzero (D0 u) u).
Qed.

Lemma scan_int_part_pos (p : positive) (sign r : string) :
  sign = "" \/ sign = "-" -> value_stop r = true ->
  scan_int_part (sign ++ NilEmpty.string_of_uint (Pos.to_uint p) ++ r) =
    Some (sign ++ NilEmpty.string_of_uint (Pos.to_uint p), r).
Proof.
  intros Hs Hr. pose proof (pos_uint_head p) as Hh.
  destruct (Pos.to_uint p) as [|u|u|u|u|u|u|u|u|u|u]; try contradiction;
    destruct Hs as [->| ->]; cbn [NilEmpty.string_of_uint]; str_simpl; unfold scan_int_part;
    simpl; rewrite span_digits_uint by done; reflexivity.
Qed.

Lemma z_to_str_pos (p : positive) : z_to_str (Zpos p) = NilEmpty.string_of_uint (Pos.to_uint p).
Proof. reflexivity. Qed.

Lemma z_to_str_neg (p : positive) : z_to_str (Zneg p) = "-" ++ NilEmpty.string_of_uint (Pos.to_uint p).
Proof. reflexivity. Qed.

Lemma scan_number_z (n : Z) (r : string) :
  value_stop r = true -> scan_number (z_to_str n ++ r) = inr (JInt n, r).
Proof.
  intros Hr. unfold scan_number.
  destruct n as [|p|p].
  - destruct (value_stop_cases r Hr) as [->|[[t ->]|[t ->]]]; reflexivity.
  - rewrite z_to_str_pos, <- (str_app_nil_l (NilEmpty.string_of_uint _ ++ r)), scan_int_part_pos by auto.
    rewrite value_stop_float_tail by done. str_simpl.
    change (NilEmpty.string_of_uint (Pos.to_uint p)) with (NilEmpty.string_of_int (Z.to_int (Zpos p))).
    by rewrite NilEmpty.isi, DecimalZ.of_to.
  - rewrite z_to_str_neg, str_app_assoc, scan_int_part_pos by auto.
    rewrite value_stop_float_tail by done. rewrite <- z_to_str_neg.
    unfold z_to_str. by rewrite NilEmpty.isi, DecimalZ.of_to.
Qed.

(** ** The shape of the printed text *)

Lemma skip_ws_spaces (n : nat) (s : string) : skip_ws (spaces n ++ s) = skip_ws s.
Proof. induction n as [|n IH]; [done|]. cbn [spaces]. by rewrite str_app_cons. Qed.

Lemma skip_ws_nli (L : nat) (s : string) : skip_ws (newline_indent L ++ s) = skip_ws s.
Proof. unfold newline_indent. rewrite str_app_cons. apply skip_ws_spaces. Qed.

Definition number_heads : list ascii := ["-"; "0"; "1"; "2"; "3"; "4"; "5"; "6"; "7"; "8"; "9"]%char.
Definition value_heads : list ascii := number_heads ++ ["n"; "t"; "f"; quote; "["; "{"]%char.

Lemma z_to_str_head (n : Z) : exists c t, z_to_str n = String c t /\ In c number_heads.
Proof.
  destruct n as [|p|p]; [by exists "0"%char, ""; split; [|simpl; tauto]| |].
  - rewrite z_to_str_pos. pose proof (pos_uint_head p) as H.
    destruct (Pos.to_uint p); try contradiction; eexists _, _; (split; [reflexivity|simpl; tauto]).
  - rewrite z_to_str_neg. eexists _, _; (split; [reflexivity|simpl; tauto]).
Qed.

Lemma dumps_head (L : nat) (v : Json) : exists c t, dumps_at L v = String c t /\ In c value_heads.
Proof.
  unfold value_heads. destruct v as [| [] | n | s | [|x xs] | [|kv kvs]];
    try (eexists _, _; split; [reflexivity|apply in_or_app; right; simpl; tauto]).
  destruct (z_to_str_head n) as (c & t & E & Hc). exists c, t. split; [done|]. apply in_or_app; by left.
Qed.

Lemma value_head_not_ws (c : ascii) : In c value_heads -> is_ws c = false.
Proof. intros H. repeat (destruct H as [<-|H]; [reflexivity|]). contradiction. Qed.

Lemma skip_ws_dumps (L : nat) (v : Json) (r : string) : skip_ws (dumps_at L v ++ r) = dumps_at L v ++ r.
Proof.
  destruct (dumps_head L v) as (c & t & -> & Hc). rewrite str_app_cons. cbn [skip_ws].
  by rewrite value_head_not_ws.
Qed.

(** The heads of [scan_once_unicode]. *)
Lemma scan_value_str (f : nat) (t : string) :
  scan_value (S f) (String quote t) = match scan_chars t with inl e => inl e | inr (s, r) => inr (JStr s, r) end.
Proof. reflexivity. Qed.

Lemma scan_value_arr (f : nat) (s : string) :
  (forall r, skip_ws s <> String "]" r) ->
  scan_value (S f) (String "[" s) = match scan_elems f (skip_ws s) with inl e => inl e | inr (xs, r) => inr (JArr xs, r) end.
Proof.
  cbn [scan_value]. intros H. destruct (skip_ws s) as [|c t]; [reflexivity|].
  destruct c as [[] [] [] [] [] [] [] []]; try reflexivity. by destruct (H t).
Qed.

Lemma scan_value_obj (f : nat) (s t : string) :
  skip_ws s = String quote t ->
  scan_value (S f) (String "{" s) = match scan_members f t with inl e => inl e | inr (kvs, r) => inr (JObj (dict_of_pairs kvs), r) end.
Proof. cbn [scan_value]. intros ->. reflexivity. Qed.

Lemma scan_value_number (f : nat) (c : ascii) (t : string) :
  In c number_heads -> scan_value (S f) (String c t) = scan_number (String c t).
Proof. intros H. repeat (destruct H as [<-|H]; [reflexivity|]). contradiction. Qed.

(** ** Arrays and objects: [_parse_array_unicode], [_parse_object_unicode] *)

Lemma py_join_cons2 (sep x y : string) (ys : list string) :
  py_join sep (x :: y :: ys) = x ++ sep ++ py_join sep (y :: ys).
Proof. reflexivity. Qed.

Lemma py_join_cons_ne (sep x : string) (ys : list string) :
  ys <> [] -> py_join sep (x :: ys) = x ++ sep ++ py_join sep ys.
Proof. by destruct ys. Qed.

Lemma py_join_app_head (sep x : string) (xs : list string) (X : string) :
  exists t, py_join sep (x :: xs) ++ X = x ++ t.
Proof. destruct xs as [|y ys]; [by exists X|]. rewrite py_join_cons2, !str_app_assoc. by eexists. Qed.

Lemma value_stop_nli (L : nat) (X : string) : value_stop (newline_indent L ++ X) = true.
Proof. unfold newline_indent. by rewrite str_app_cons. Qed.

Lemma value_stop_sep (X : string) : value_stop ("," ++ X) = true.
Proof. reflexivity. Qed.

Lemma skip_ws_sep (X : string) : skip_ws ("," ++ X) = String "," X.
Proof. reflexivity. Qed.

Lemma skip_ws_colon (X : string) : skip_ws (": " ++ X) = String ":" (" " ++ X).
Proof. reflexivity. Qed.

Lemma skip_ws_space (X : string) : skip_ws (" " ++ X) = skip_ws X.
Proof. reflexivity. Qed.

Lemma skip_ws_close (L : nat) (c : ascii) (r : string) :
  is_ws c = false -> skip_ws (newline_indent L ++ String c r) = String c r.
Proof. intros H. rewrite skip_ws_nli. cbn [skip_ws]. by rewrite H. Qed.

Lemma scan_elems_dumps (M L : nat) (xs : list Json) (F : nat) (r : string) :
  Forall scans_back xs -> xs <> [] -> forallb json_wf xs = true ->
  list_sum (map (fun x => S (json_size x)) xs) <= F ->
  scan_elems F (py_join ("," ++ newline_indent M) (map (dumps_at M) xs) ++ newline_indent L ++ String "]" r) =
    inr (xs, r).
Proof.
  intros Hxs. revert F. induction Hxs as [|x xs Hx Hxs IH]; intros F Hne Hwf HF; [done|].
  simpl in Hwf, HF. apply andb_true_iff in Hwf as [Hwx Hwf].
  destruct F as [|F]; [lia|]. cbn [scan_elems].
  destruct xs as [|y ys].
  - cbn [map py_join]. rewrite Hx by (auto using value_stop_nli; lia).
    by rewrite skip_ws_close.
  - cbn [map]. rewrite py_join_cons2, !str_app_assoc.
    rewrite Hx by (auto using value_stop_sep; lia). rewrite skip_ws_sep. cbn -[String.append py_join].
    rewrite skip_ws_nli. destruct (py_join_app_head ("," ++ newline_indent M) (dumps_at M y) (map (dumps_at M) ys)
      (newline_indent L ++ String "]" r)) as [t Ht].
    rewrite Ht, skip_ws_dumps, <- Ht. cbn [map] in IH. rewrite IH by (done || simpl in *; lia).
    reflexivity.
Qed.

Lemma members_head (M : nat) (kv : string * Json) (kvs : list (string * Json)) (X : string) :
  exists t, py_join ("," ++ newline_indent M)
    (map (fun '(k, x) => encode_string k ++ ": " ++ dumps_at M x) (kv :: kvs)) ++ X = String quote t.
Proof.
  destruct kv as [k x]. cbn [map].
  destruct (py_join_app_head ("," ++ newline_indent M) (encode_string k ++ ": " ++ dumps_at M x)
    (map (fun '(k, x) => encode_string k ++ ": " ++ dumps_at M x) kvs) X) as [t ->].
  rewrite encode_string_app. by eexists.
Qed.

Lemma scan_members_dumps (M L : nat) (kvs : list (string * Json)) (F : nat) (r t : string) :
  Forall (fun kv => scans_back kv.2) kvs -> kvs <> [] ->
  forallb (fun '(k, x) => utf8_valid k && json_wf x) kvs = true ->
  list_sum (map (fun '(_, x) => S (json_size x)) kvs) <= F ->
  String quote t = py_join ("," ++ newline_indent M)
    (map (fun '(k, x) => encode_string k ++ ": " ++ dumps_at M x) kvs) ++ newline_indent L ++ String "}" r ->
  scan_members F t = inr (kvs, r).
Proof.
  intros Hkvs. revert F t. induction Hkvs as [|[k x] kvs Hx Hkvs IH]; intros F t Hne Hwf HF Ht; [done|].
  cbn [snd] in Hx. simpl in Hwf, HF. apply andb_true_iff in Hwf as [[_ Hwx]%andb_true_iff Hwf].
  destruct F as [|F]; [lia|]. cbn [scan_members].
  destruct kvs as [|kv2 kvs].
  - cbn [map py_join] in Ht. rewrite !str_app_assoc, encode_string_app in Ht. injection Ht as ->.
    rewrite escape_string_scan. str_simpl. simpl.
    rewrite skip_ws_dumps, Hx by (auto using value_stop_nli; lia).
    by rewrite skip_ws_close.
  - rewrite map_cons, py_join_cons_ne in Ht by (simpl; discriminate). cbn beta iota in Ht.
    destruct (members_head M kv2 kvs (newline_indent L ++ String "}" r)) as [t' Ht'].
    rewrite !str_app_assoc, Ht', encode_string_app in Ht. injection Ht as ->.
    rewrite escape_string_scan. cbn -[String.append skip_ws].
    rewrite skip_ws_colon. cbn -[String.append skip_ws].
    rewrite skip_ws_space, skip_ws_dumps, Hx by (auto using value_stop_sep; lia).
    rewrite skip_ws_sep. cbn -[String.append skip_ws]. rewrite skip_ws_nli. simpl.
    rewrite (IH F t'); [reflexivity|discriminate|done|simpl in *; lia|by rewrite Ht'].
Qed.

Lemma keys_distinct_mid (xs ys : list string) (y : string) :
  keys_distinct (xs ++ y :: ys)%list = true -> existsb (String.eqb y) xs = false.
Proof.
  induction xs as [|x xs IH]; [done|]. cbn [app keys_distinct existsb].
  intros [Hx Hd]%andb_true_iff. apply negb_true_iff in Hx. rewrite existsb_app in Hx. cbn [existsb] in Hx.
  apply orb_false_iff in Hx as [_ Hx]. apply orb_false_iff in Hx as [Hxy _].
  by rewrite String.eqb_sym, Hxy, IH.
Qed.

Lemma dict_set_fresh (acc : list (string * Json)) (k : string) (v : Json) :
  existsb (String.eqb k) (map fst acc) = false -> dict_set acc k v = (acc ++ [(k, v)])%list.
Proof.
  induction acc as [|[k' v'] acc IH]; [done|]. cbn [map existsb fst dict_set].
  intros [Hk Hr]%orb_false_iff. by rewrite String.eqb_sym, Hk, IH.
Qed.

(** [dict(pairs)] keeps a list of distinct keys as it is. *)
Lemma dict_of_pairs_distinct (kvs : list (string * Json)) :
  keys_distinct (map fst kvs) = true -> dict_of_pairs kvs = kvs.
Proof.
  unfold dict_of_pairs. change kvs with ([] ++ kvs)%list at 1 3. generalize (@nil (string * Json)).
  induction kvs as [|[k v] kvs IH]; intros acc Hd; [by rewrite List.app_nil_r|].
  cbn [fold_left]. rewrite dict_set_fresh.
  - rewrite IH; rewrite <- List.app_assoc; [done|exact Hd].
  - rewrite map_app in Hd. by apply (keys_distinct_mid (map fst acc) (map fst kvs) k Hd).
Qed.

Lemma value_head_not_close (c : ascii) : In c value_heads -> c <> "]"%char.
Proof. intros H. repeat (destruct H as [<-|H]; [discriminate|]). contradiction. Qed.

Lemma dumps_arr (L : nat) (x : Json) (xs : list Json) :
  dumps_at L (JArr (x :: xs)) =
    String "[" (newline_indent (S L) ++ py_join ("," ++ newline_indent (S L)) (map (dumps_at (S L)) (x :: xs)) ++
      newline_indent L ++ "]").
Proof. reflexivity. Qed.

Lemma dumps_obj (L : nat) (kv : string * Json) (kvs : list (string * Json)) :
  dumps_at L (JObj (kv :: kvs)) =
    String "{" (newline_indent (S L) ++
      py_join ("," ++ newline_indent (S L))
        (map (fun '(k, x) => encode_string k ++ ": " ++ dumps_at (S L) x) (kv :: kvs)) ++
      newline_indent L ++ "}").
Proof. reflexivity. Qed.

(** The scanner reads back every well-formed document printed at any
    nesting level, leaving what follows it. *)
Lemma scan_value_dumps (v : Json) : scans_back v.
Proof.
  induction v as [| b | n | s | xs IH | kvs IH] using Json_nested_ind; intros L F r Hwf HF Hr;
    (destruct F as [|F]; [simpl in HF; lia|]).
  - by str_simpl.
  - by destruct b; str_simpl.
  - destruct (z_to_str_head n) as (c & t & E & Hc). cbn [dumps_at]. rewrite E, str_app_cons, scan_value_number by done.
    rewrite <- str_app_cons, <- E. by apply scan_number_z.
  - cbn [dumps_at]. by rewrite encode_string_app, scan_value_str, escape_string_scan.
  - destruct xs as [|x xs]; [by str_simpl|]. simpl in HF, Hwf.
    rewrite dumps_arr, str_app_cons, !str_app_assoc, (str_app_cons "]"%char), str_app_nil_l.
    destruct (py_join_app_head ("," ++ newline_indent (S L)) (dumps_at (S L) x) (map (dumps_at (S L)) xs)
      (newline_indent L ++ String "]" r)) as [t Ht].
    rewrite scan_value_arr; rewrite skip_ws_nli; cbn [map]; rewrite Ht, skip_ws_dumps.
    + rewrite <- Ht. pose proof (scan_elems_dumps (S L) L (x :: xs) F r IH) as E. cbn [map] in E.
      rewrite E; [reflexivity|done|done|simpl; lia].
    + destruct (dumps_head (S L) x) as (c & u & -> & Hc). rewrite str_app_cons. intros r' [= Hc' _].
      by apply (value_head_not_close c).
  - destruct kvs as [|kv kvs]; [by str_simpl|]. simpl in HF. apply andb_true_iff in Hwf as [Hd Hwf].
    rewrite dumps_obj, str_app_cons, !str_app_assoc, (str_app_cons "}"%char), str_app_nil_l.
    destruct (members_head (S L) kv kvs (newline_indent L ++ String "}" r)) as [t Ht].
    rewrite (scan_value_obj F _ t) by (by rewrite skip_ws_nli, Ht).
    rewrite (scan_members_dumps (S L) L (kv :: kvs) F r t IH); [|done|done|simpl; lia|done].
    by rewrite dict_of_pairs_distinct.
Qed.

(** ** The fuel of [json_loads] is enough *)

Lemma str_length_app (a b : string) : String.length (a ++ b) = String.length a + String.length b.
Proof. induction a as [|c a IH]; [done|]. rewrite str_app_cons. cbn [String.length]. by rewrite IH. Qed.

Lemma list_sum_map_le {A} (f g : A -> nat) (xs : list A) :
  Forall (fun x => f x <= g x) xs -> list_sum (map f xs) <= list_sum (map g xs).
Proof. induction 1; simpl; lia. Qed.

Lemma py_join_length (sep : string) (ys : list string) :
  1 <= String.length sep -> list_sum (map (fun y => S (String.length y)) ys) <= S (String.length (py_join sep ys)).
Proof.
  intros Hs. induction ys as [|y ys IH]; [simpl; lia|]. destruct ys as [|y' ys]; [simpl; lia|].
  rewrite py_join_cons2, !str_length_app. cbn [map list_sum foldr] in *. lia.
Qed.

Lemma dumps_length (v : Json) (L : nat) : json_size v <= String.length (dumps_at L v).
Proof.
  revert L. induction v as [| [] | n | s | [|x xs] IH | [|kv kvs] IH] using Json_nested_ind; intros L;
    try (simpl; lia).
  - destruct (z_to_str_head n) as (c & t & E & _). cbn [dumps_at]. rewrite E. simpl. lia.
  - rewrite dumps_arr. cbn [json_size String.length]. rewrite !str_length_app.
    assert (H := py_join_length ("," ++ newline_indent (S L)) (map (dumps_at (S L)) (x :: xs)) ltac:(simpl; lia)).
    rewrite map_map in H. cbv beta in H. assert (String.length "]" = 1) by reflexivity.
    assert (list_sum (map (fun x => S (json_size x)) (x :: xs)) <=
      list_sum (map (fun x => S (String.length (dumps_at (S L) x))) (x :: xs))); [|lia].
    apply list_sum_map_le. eapply Forall_impl; [exact IH|]. simpl. intros y Hy. specialize (Hy (S L)). lia.
  - rewrite dumps_obj. cbn [json_size String.length]. rewrite !str_length_app.
    assert (H := py_join_length ("," ++ newline_indent (S L))
      (map (fun '(k, x) => encode_string k ++ ": " ++ dumps_at (S L) x) (kv :: kvs)) ltac:(simpl; lia)).
    rewrite map_map in H. cbv beta in H. assert (String.length "}" = 1) by reflexivity.
    assert (list_sum (map (fun '(_, x) => S (json_size x)) (kv :: kvs)) <=
      list_sum (map (fun y => S (String.length (let '(k, x) := y in encode_string k ++ ": " ++ dumps_at (S L) x)))
        (kv :: kvs))); [|lia].
    apply list_sum_map_le. eapply Forall_impl; [exact IH|]. intros [k y] Hy. specialize (Hy (S L)).
    cbn [snd] in Hy. rewrite !str_length_app. lia.
Qed.

(** ** The printed text decodes *)

Create HintDb json discriminated.

Lemma utf8_valid_app_true (a b : string) : utf8_valid a = true -> utf8_valid b = true -> utf8_valid (a ++ b) = true.
Proof. intros Ha Hb. by rewrite utf8_valid_app. Qed.

Lemma utf8_valid_spaces (n : nat) : utf8_valid (spaces n) = true.
Proof. by induction n. Qed.

Lemma utf8_valid_nli (L : nat) : utf8_valid (newline_indent L) = true.
Proof. apply utf8_valid_spaces. Qed.

Lemma utf8_valid_uint (d : uint) : utf8_valid (NilEmpty.string_of_uint d) = true.
Proof. by induction d. Qed.

Lemma utf8_valid_z (n : Z) : utf8_valid (z_to_str n) = true.
Proof. destruct n; [done|apply utf8_valid_uint|]. rewrite z_to_str_neg. apply utf8_valid_uint. Qed.

Lemma utf8_valid_encode (s : string) : utf8_valid s = true -> utf8_valid (encode_string s) = true.
Proof. intros H. apply utf8_valid_app_true; [by apply escape_string_valid|done]. Qed.

Lemma utf8_valid_py_join (sep : string) (ys : list string) :
  utf8_valid sep = true -> Forall (fun y => utf8_valid y = true) ys -> utf8_valid (py_join sep ys) = true.
Proof.
  intros Hs. induction 1 as [|y ys Hy Hys IH]; [done|]. destruct ys as [|y' ys]; [done|].
  rewrite py_join_cons2. by repeat apply utf8_valid_app_true.
Qed.

Lemma utf8_valid_ascii (c : ascii) (t : string) : nat_of_ascii c < 128 -> utf8_valid (String c t) = utf8_valid t.
Proof. intros H. cbn [utf8_valid]. by apply Nat.ltb_lt in H as ->. Qed.

Lemma Forall_forallb {A} (P : A -> Prop) (b : A -> bool) (xs : list A) :
  Forall (fun x => b x = true -> P x) xs -> forallb b xs = true -> Forall P xs.
Proof. induction 1; cbn [forallb]; [constructor|]. intros [? ?]%andb_true_iff. constructor; auto. Qed.

#[export] Hint Resolve utf8_valid_app_true utf8_valid_nli utf8_valid_z utf8_valid_encode utf8_valid_py_join
  escape_string_valid : json.
#[export] Hint Extern 1 (utf8_valid _ = true) => reflexivity : json.

Lemma dumps_valid (v : Json) (L : nat) : json_wf v = true -> utf8_valid (dumps_at L v) = true.
Proof.
  revert L. induction v as [| [] | n | s | [|x xs] IH | [|kv kvs] IH] using Json_nested_ind; intros L Hwf;
    try done; try (cbn [dumps_at]; solve [auto with json]).
  - rewrite dumps_arr, utf8_valid_ascii by (apply Nat.ltb_lt; reflexivity).
    repeat apply utf8_valid_app_true; auto with json. apply utf8_valid_py_join; [auto with json|].
    apply List.Forall_map. apply (Forall_forallb _ json_wf); [|done].
    eapply Forall_impl; [exact IH|]. eauto.
  - rewrite dumps_obj, utf8_valid_ascii by (apply Nat.ltb_lt; reflexivity).
    repeat apply utf8_valid_app_true; auto with json. apply utf8_valid_py_join; [auto with json|].
    apply andb_true_iff in Hwf as [_ Hwf]. apply List.Forall_map.
    apply (Forall_forallb _ (fun '(k, x) => utf8_valid k && json_wf x)); [|done].
    eapply Forall_impl; [exact IH|]. intros [k y] Hy [Hk Hy']%andb_true_iff. cbn [snd] in Hy.
    repeat apply utf8_valid_app_true; auto with json.
Qed.

Lemma json_loads_str_dumps (v : Json) : json_wf v = true -> json_loads_str (json_dumps v) = inr v.
Proof.
  intros Hwf. unfold json_loads_str, json_dumps.
  replace (String.prefix utf8_bom (dumps_at 0 v)) with false.
  2:{ destruct (dumps_head 0 v) as (c & t & -> & Hc). repeat (destruct Hc as [<-|Hc]; [reflexivity|]). contradiction. }
  rewrite <- (str_app_nil_r (dumps_at 0 v)), skip_ws_dumps, scan_value_dumps; [reflexivity|done| |done].
  rewrite str_app_nil_r. pose proof (dumps_length v 0). lia.
Qed.

(** [json.dumps] writes different texts for different well-formed
    documents. *)
Lemma json_dumps_inj (v w : Json) : json_wf v = true -> json_wf w = true -> json_dumps v = json_dumps w -> v = w.
Proof.
  intros Hv Hw E. pose proof (json_loads_str_dumps v Hv) as Lv. rewrite E, json_loads_str_dumps in Lv by done.
  by injection Lv.
Qed.

(** C31. Round trip of the stored text: for every well-formed document
    (distinct keys, valid UTF-8 strings), the text [json.dumps(data,
    indent=2, ensure_ascii=False)] is valid UTF-8, and [json.loads] of
    it ([load_json], line 21) gives the document back. *)
Theorem json_loads_dumps (v : Json) : json_wf v = true -> json_loads (json_dumps v) = inr v.
Proof. intros Hwf. unfold json_loads. rewrite (dumps_valid v 0 Hwf : utf8_valid (json_dumps v) = true). by apply json_loads_str_dumps. Qed.

Module Scenarios.

(** A report archive with a Korean report (UTF-8 bytes), a quote, a
    newline and a negative count. *)
Definition report_doc : Json :=
  JObj [("2026-11-09", JStr (String (ascii_of_nat 235) (String (ascii_of_nat 137) (String (ascii_of_nat 180)
          ("s " ++ String quote ("AI" ++ String quote (String newline "line")))))));
        ("meta", JArr [JInt (-12); JBool true; JNull; JObj []; JArr []])].

Lemma json_loads_dumps_witness :
  json_wf report_doc = true /\ json_loads (json_dumps report_doc) = inr report_doc.
Proof. split; [reflexivity|]. apply json_loads_dumps. reflexivity. Defined.

End Scenarios.
