(* ===== verification/TextStore.v ===== *)
(** * The repository as GitHub holds it: files of JSON text

    github_storage.py lines 17-56 over a repository whose files hold
    bytes. [Storage] models the store as a map from path to document; here
    a file holds the text [json.dumps] wrote, [get_contents] returns a
    [ContentFile] with the bytes and the blob's sha, [update_file] is given
    the sha of the content read before it (line 44) and refuses a stale one
    (409), and [create_file] refuses a path that exists (422).
    [text_load_json] and [text_save_json] are [load_json] and [save_json]
    line by line: [json.loads] of the decoded content, whose exceptions
    are not caught (only [GithubException] is); a 404 from [get_contents]
    or from [update_file] leads to [create_file], whose exceptions are not
    caught either.

    Git names a blob by the SHA-1 of its bytes; the model names it by the
    bytes themselves ([blob_sha]), which identify it as the hash does
    barring a collision.

    The theorems: a text repository that holds [json.dumps] of the
    documents of a [Storage.Repo] behaves as that repository under both
    operations ([text_store_refines]); and a statistics file whose text
    [json.loads] rejects is not a missing file: every newsroom visit then
    raises the decoding error. *)

From S2P Require Import Prelude Datetime Collector Backend Reporter Storage App Page JsonText.
From stdpp Require Import gmap.

Local Open Scope Z_scope.

(** ** The repository *)

Record TextRepo := mkTextRepo {
  blobs : gmap string string;
  tcommits : list Commit;
  tfault : option ApiFault
}.

(** PyGithub's [ContentFile]: [decoded_content] and [sha]. *)
Record ContentFile := mkContentFile { decoded_content : string; sha : string }.

Definition blob_sha (content : string) : string := content.

(** [self.repo.get_contents(file_path)] (lines 20 and 40). *)
Definition text_get_contents (t : TextRepo) (path : string) : Z + ContentFile :=
  match tfault t with
  | Some f => inl (fault_status f)
  | None =>
      match blobs t !! path with
      | Some c => inr (mkContentFile c (blob_sha c))
      | None => inl 404
      end
  end.

Definition text_write (t : TextRepo) (path content message : string) (k : CommitKind) : TextRepo :=
  mkTextRepo (<[path := content]> (blobs t)) (tcommits t ++ [mkCommit path message k]) (tfault t).

(** [self.repo.update_file(path, message, content, sha)] (lines 41-46). *)
Definition update_file (t : TextRepo) (path message content sha' : string) : Z + TextRepo :=
  match tfault t with
  | Some f => inl (fault_status f)
  | None =>
      match blobs t !! path with
      | None => inl 404
      | Some c => if String.eqb (blob_sha c) sha' then inr (text_write t path content message Updated) else inl 409
      end
  end.

(** [self.repo.create_file(path, message, content)] (lines 50-54). *)
Definition create_file (t : TextRepo) (path message content : string) : Z + TextRepo :=
  match tfault t with
  | Some f => inl (fault_status f)
  | None =>
      match blobs t !! path with
      | Some _ => inl 422
      | None => inr (text_write t path content message Created)
      end
  end.

(** [load_json] (lines 17-34). *)
Definition text_load_json (t : TextRepo) (path : string) : PyExc + Json :=
  match text_get_contents t path with
  | inr content => json_loads (decoded_content content)
  | inl status => if Z.eqb status 404 then inr (default_document path) else inl (github_exception status)
  end.

(** [save_json] (lines 36-56): the [try] of lines 39-46, then its
    [except]. *)
Definition text_save_json (t : TextRepo) (path : string) (data : Json) (message : string) : PyExc + TextRepo :=
  let content_str := json_dumps data in
  let tried :=
    match text_get_contents t path with
    | inr content => update_file t path message content_str (sha content)
    | inl status => inl status
    end in
  match tried with
  | inr t' => inr t'
  | inl status =>
      if Z.eqb status 404 then
        match create_file t path message content_str with
        | inr t' => inr t'
        | inl status' => inl (github_exception status')
        end
      else inl (github_exception status)
  end.

#[export] Instance TextStorage : DocumentStore TextRepo := {
  load_json := text_load_json;
  save_json := text_save_json
}.

(** The text repository holds [json.dumps] of the documents of [r]. *)
Definition text_refines (t : TextRepo) (r : Repo) : Prop :=
  tfault t = api_fault r /\ tcommits t = commits r /\ blobs t = json_dumps <$> files r /\
  map_Forall (fun _ d => json_wf d = true) (files r).

(** The results of the two saves correspond. *)
Definition save_corresponds (rt : PyExc + TextRepo) (rr : PyExc + Repo) : Prop :=
  match rt, rr with
  | inr t', inr r' => text_refines t' r'
  | inl e, inl e' => e = e'
  | _, _ => False
  end.

(** ** Refinement of the document store *)

Lemma text_get_contents_refines (t : TextRepo) (r : Repo) (p : string) :
  text_refines t r ->
  text_get_contents t p =
    match get_contents r p with
    | inr d => inr (mkContentFile (json_dumps d) (blob_sha (json_dumps d)))
    | inl status => inl status
    end.
Proof.
  intros (Hf & _ & Hb & _). unfold text_get_contents, get_contents. rewrite Hf, Hb.
  destruct (api_fault r); [done|]. rewrite lookup_fmap. by destruct (files r !! p).
Qed.

Lemma get_contents_wf (r : Repo) (p : string) (d : Json) :
  map_Forall (fun _ d => json_wf d = true) (files r) -> get_contents r p = inr d -> json_wf d = true.
Proof.
  intros Hw. unfold get_contents. destruct (api_fault r); [done|].
  destruct (files r !! p) eqn:E; intros [= <-]. exact (Hw _ _ E).
Qed.

Lemma fault_status_not_404 (f : ApiFault) : Z.eqb (fault_status f) 404 = false.
Proof. by destruct f. Qed.

Lemma text_refines_write (t : TextRepo) (r : Repo) (p : string) (d : Json) (m : string) (k : CommitKind) :
  text_refines t r -> json_wf d = true ->
  text_refines (text_write t p (json_dumps d) m k) (write_file r p d m k).
Proof.
  intros (Hf & Hc & Hb & Hw) Hd. unfold text_write, write_file, text_refines. cbn.
  rewrite Hf, Hc, Hb, fmap_insert. split_and!; [done..|]. by apply map_Forall_insert_2.
Qed.

Lemma text_load_refines (t : TextRepo) (r : Repo) (p : string) :
  text_refines t r -> text_load_json t p = github_load_json r p.
Proof.
  intros Hr. pose proof Hr as (_ & _ & _ & Hw).
  unfold text_load_json, github_load_json. rewrite (text_get_contents_refines t r p Hr).
  destruct (get_contents r p) as [status|d'] eqn:E; [done|]. cbn [decoded_content].
  apply (get_contents_wf r p d' Hw) in E. unfold json_loads.
  rewrite (dumps_valid d' 0 E : utf8_valid (json_dumps d') = true). by apply json_loads_str_dumps.
Qed.

Lemma text_save_refines (t : TextRepo) (r : Repo) (p : string) (d : Json) (m : string) :
  text_refines t r -> json_wf d = true -> save_corresponds (text_save_json t p d m) (github_save_json r p d m).
Proof.
  intros Hr Hd. pose proof Hr as (Hf & _ & Hb & _).
  unfold save_corresponds, text_save_json, github_save_json. rewrite (text_get_contents_refines t r p Hr).
  unfold get_contents, update_file, create_file. rewrite Hf.
  destruct (api_fault r) as [f|]; [by rewrite fault_status_not_404|].
  rewrite Hb, lookup_fmap.
  destruct (files r !! p); cbn [fmap option_fmap option_map sha]; rewrite ?String.eqb_refl;
    by apply text_refines_write.
Qed.

(** C32. Refinement: a text repository that holds [json.dumps] of the
    documents of a document repository behaves as it. [load_json] gives
    the same document or the same exception, and [save_json] of a
    well-formed document fails with the same exception or leaves text
    that holds [json.dumps] of the documents [Storage.github_save_json]
    leaves, with the same commits. *)
Theorem text_store_refines (t : TextRepo) (r : Repo) (p : string) (d : Json) (m : string) :
  text_refines t r -> json_wf d = true ->
  text_load_json t p = github_load_json r p /\ save_corresponds (text_save_json t p d m) (github_save_json r p d m).
Proof. intros Hr Hd. split; [by apply text_load_refines|by apply text_save_refines]. Qed.

(** ** A statistics file that does not parse *)

Section Corrupt.
Context {B : Type} `{ModelBackend B}.
Variable cfg : Config.
Variable utc_offset : Z.
Variable parse : string -> PyExc + Feed.
Variables now1 now2 : Z.

(** C33. Error path: when [stats.json] holds text that [json.loads]
    rejects (an empty file, a truncated write, invalid UTF-8), [load_json]
    raises the decoding error, which is not a [GithubException]: it is
    not the missing file of lines 24-31, the default counter is not
    used, and every newsroom visit stops at line 31 with that error, before
    the archive is read and without writing the repository. *)
Theorem corrupt_stats_raises (req : Request) (w : World TextRepo B) (nc : NewsCollector) (c : string) (e : PyExc) :
  init_collector cfg = inr nc -> widget_value menu_options (menu_choice req) = menu_newsroom ->
  tfault (store w) = None -> blobs (store w) !! stats_path = Some c -> json_loads c = inl e ->
  app_run cfg utc_offset parse now1 now2 req w =
    (inl (Raised e), mkWorld (store w) (client w)
       (shown w ++ [PageConfig "AI IT Newsroom"; Sidebar (Title "🚀 IT Newsroom"); Sidebar (Radio "메뉴" menu_options)])).
Proof.
  intros Hi Hm Hf Hc He. eapply app_run_newsroom_raises; [exact Hi|done|].
  unfold update_view_count. cbn [load_json TextStorage].
  unfold text_load_json, text_get_contents. rewrite Hf, Hc. cbn [decoded_content]. by rewrite He.
Qed.

End Corrupt.

Module Scenarios.
Local Open Scope string_scope.

Definition text0 : TextRepo := mkTextRepo ∅ [] None.

Lemma text0_refines : text_refines text0 Storage.Scenarios.empty_repo.
Proof. split_and!; [reflexivity..|apply map_Forall_empty]. Qed.

Lemma text_store_refines_witness :
  text_load_json text0 "data/feeds.json" = github_load_json Storage.Scenarios.empty_repo "data/feeds.json" /\
  save_corresponds (text_save_json text0 "data/feeds.json" Storage.Scenarios.feeds_json "Add feed")
    (github_save_json Storage.Scenarios.empty_repo "data/feeds.json" Storage.Scenarios.feeds_json "Add feed").
Proof. apply text_store_refines; [exact text0_refines|reflexivity]. Defined.

(** An empty [stats.json]: [json.loads('')] raises "Expecting value". *)
Definition text_empty_stats : TextRepo := mkTextRepo (<[stats_path := ""]> ∅) [] None.

Lemma corrupt_stats_raises_witness :
  app_run Page.Scenarios.cfg0 0 Collector.Scenarios.parse_demo App.Scenarios.now1 App.Scenarios.now2
    Page.Scenarios.visit (mkWorld text_empty_stats App.Scenarios.rec0 []) =
  (inl (Raised expecting_value), mkWorld text_empty_stats App.Scenarios.rec0
     [PageConfig "AI IT Newsroom"; Sidebar (Title "🚀 IT Newsroom"); Sidebar (Radio "메뉴" menu_options)]).
Proof.
  apply (corrupt_stats_raises Page.Scenarios.cfg0 0 Collector.Scenarios.parse_demo App.Scenarios.now1
    App.Scenarios.now2 Page.Scenarios.visit (mkWorld text_empty_stats App.Scenarios.rec0 []) Page.Scenarios.nc0
    "" expecting_value); reflexivity.
Defined.

End Scenarios.
