(* ===== verification/TextRace.v ===== *)
(** * Concurrent runs on the repository of text: the sha check

    [Race] takes a [save_json] as one call. Here a run is a [Thread] on
    the repository of [TextStore], and its [save_json] is the calls of
    github_storage.py lines 39-54 as separate steps: [get_contents] (line
    40) gives the sha of the file as it is then; [update_file] (lines
    41-46) is given that sha and answers 409 when the file has changed
    since; a 404 from either call leads to [create_file] (lines 50-54). A
    [load_json] is one call ([get_contents] and [json.loads], lines
    20-21). [text_interleave] runs two threads under a schedule, as
    [Race.interleave] does. A handler run with [Race.run_prog] on
    [TextStore.TextStorage], [load_json] and [save_json] taken as single
    calls, ends as on the document repository of [Storage] when it saves
    well-formed documents ([run_prog_text_refines], used by [TextPage]).

    The theorems: the sha passed to [update_file] is read in [save_json]
    itself, after the document was loaded and changed, so the check does
    not see the lost update of two visits that both load before either
    saves; it only turns a write that falls between lines 40 and 41 of
    the other visit into a [GithubException] 409 raised on its page. *)

From S2P Require Import Prelude Storage App JsonText TextStore Race.
From stdpp Require Import gmap.

Local Open Scope string_scope.

(** ** Threads *)

(** A run between two GitHub calls: its program, a [save_json] between
    [get_contents] and [update_file], or one between a 404 and
    [create_file]. *)
Inductive Thread (A : Type) : Type :=
| TProg (m : Prog A)
| TUpdate (p content message sha' : string) (k : Prog A)
| TCreate (p content message : string) (k : Prog A).

Arguments TProg {A} m.
Arguments TUpdate {A} p content message sha' k.
Arguments TCreate {A} p content message k.

Definition raised {A} (status : Z) : Thread A := TProg (PDone (inl (github_exception status))).

(** The next GitHub call of a thread. *)
Definition thread_step {A} (t : TextRepo) (th : Thread A) : TextRepo * Thread A :=
  match th with
  | TProg (PLoad p k) => (t, TProg (match text_load_json t p with inl e => PDone (inl e) | inr d => k d end))
  | TProg (PSave p d msg k) =>
      (t, match text_get_contents t p with
          | inr content => TUpdate p (json_dumps d) msg (sha content) k
          | inl status => if Z.eqb status 404 then TCreate p (json_dumps d) msg k else raised status
          end)
  | TProg (PDone r) => (t, TProg (PDone r))
  | TUpdate p c msg sha' k =>
      match update_file t p msg c sha' with
      | inr t' => (t', TProg k)
      | inl status => (t, if Z.eqb status 404 then TCreate p c msg k else raised status)
      end
  | TCreate p c msg k =>
      match create_file t p msg c with
      | inr t' => (t', TProg k)
      | inl status => (t, raised status)
      end
  end.

(** Two threads under a schedule: [true] lets the first make its next
    call, [false] the second. *)
Fixpoint text_interleave {A C} (sched : list bool) (t : TextRepo) (th1 : Thread A) (th2 : Thread C) :
    TextRepo * Thread A * Thread C :=
  match sched with
  | [] => (t, th1, th2)
  | true :: sched' => let '(t', th1') := thread_step t th1 in text_interleave sched' t' th1' th2
  | false :: sched' => let '(t', th2') := thread_step t th2 in text_interleave sched' t' th1 th2'
  end.

(** The document [stats.json] holds in the app: the default document of
    line 31 and every one [update_view_count] writes. *)
Definition stats_doc (n : Z) : Json := JObj [("total_views", JInt n)].

(** Along the handler's run on the document repository, every document
    it saves is well formed. *)
Fixpoint saves_wf {A} (r : Repo) (m : Prog A) : Prop :=
  match m with
  | PLoad p k => match github_load_json r p with inl _ => True | inr d => saves_wf r (k d) end
  | PSave p d msg k =>
      json_wf d = true /\ match github_save_json r p d msg with inl _ => True | inr r' => saves_wf r' k end
  | PDone _ => True
  end.

(** ** Steps *)

Lemma text_write_lookup (t : TextRepo) (p c m : string) (k : CommitKind) :
  blobs (text_write t p c m k) !! p = Some c.
Proof. apply lookup_insert_eq. Qed.

Lemma text_write_fault (t : TextRepo) (p c m : string) (k : CommitKind) : tfault (text_write t p c m k) = tfault t.
Proof. reflexivity. Qed.

Lemma text_write_commits (t : TextRepo) (p c m : string) (k : CommitKind) :
  length (tcommits (text_write t p c m k)) = S (length (tcommits t)).
Proof. unfold text_write. cbn. rewrite length_app. cbn. lia. Qed.

(** A file that holds [json.dumps] of a well-formed document loads as it. *)
Lemma text_load_written (t : TextRepo) (p : string) (d : Json) :
  tfault t = None -> blobs t !! p = Some (json_dumps d) -> json_wf d = true -> text_load_json t p = inr d.
Proof.
  intros Hf Hb Hd. unfold text_load_json, text_get_contents. rewrite Hf, Hb. cbn [decoded_content].
  unfold json_loads. rewrite (dumps_valid d 0 Hd : utf8_valid (json_dumps d) = true). by apply json_loads_str_dumps.
Qed.

Section Steps.
Context {A : Type}.

Lemma step_get (t : TextRepo) (p : string) (d : Json) (msg c : string) (k : Prog A) :
  tfault t = None -> blobs t !! p = Some c ->
  thread_step t (TProg (PSave p d msg k)) = (t, TUpdate p (json_dumps d) msg (blob_sha c) k).
Proof. intros Hf Hb. cbn [thread_step]. unfold text_get_contents. by rewrite Hf, Hb. Qed.

Lemma step_update_current (t : TextRepo) (p c c' msg : string) (k : Prog A) :
  tfault t = None -> blobs t !! p = Some c ->
  thread_step t (TUpdate p c' msg (blob_sha c) k) = (text_write t p c' msg Updated, TProg k).
Proof. intros Hf Hb. cbn [thread_step]. unfold update_file. by rewrite Hf, Hb, String.eqb_refl. Qed.

Lemma step_update_stale (t : TextRepo) (p c c' msg sha' : string) (k : Prog A) :
  tfault t = None -> blobs t !! p = Some c -> blob_sha c <> sha' ->
  thread_step t (TUpdate p c' msg sha' k) = (t, raised 409).
Proof.
  intros Hf Hb Hs. cbn [thread_step]. unfold update_file. rewrite Hf, Hb.
  by rewrite (proj2 (String.eqb_neq _ _) Hs).
Qed.

End Steps.

Lemma step_visit_load (t : TextRepo) (n : Z) :
  tfault t = None -> blobs t !! stats_path = Some (json_dumps (stats_doc n)) ->
  thread_step t (TProg update_view_count_prog) =
    (t, TProg (PSave stats_path (stats_doc (n + 1)) "Increment view count" (PDone (inr (JInt (n + 1)))))).
Proof. intros Hf Hb. cbn [thread_step update_view_count_prog]. by rewrite (text_load_written _ _ _ Hf Hb). Qed.

Lemma stats_doc_text_changes (n : Z) : blob_sha (json_dumps (stats_doc (n + 1))) <> json_dumps (stats_doc n).
Proof. intros E. apply json_dumps_inj in E; [|reflexivity..]. injection E. lia. Qed.

(** ** Properties *)

(** C34. The sha check does not catch the lost update: from a
    repository whose [stats.json] holds the count [n], two newsroom visits
    that both load it before either saves (i) both succeed, show [n + 1]
    and leave [n + 1] with two commits when the second fetches its sha
    after the first has written; and (ii) when both fetch their sha
    (line 40) before either calls [update_file] (line 41), the first
    leaves [n + 1] and the second gets the 409 of its stale sha, which
    [save_json] re-raises as a [GithubException] on that visitor's page. *)
Theorem sha_check_misses_lost_update (t : TextRepo) (n : Z) :
  tfault t = None -> blobs t !! stats_path = Some (json_dumps (stats_doc n)) ->
  (exists t', text_interleave [true; false; true; true; false; false] t
                (TProg update_view_count_prog) (TProg update_view_count_prog) =
              (t', TProg (PDone (inr (JInt (n + 1)))), TProg (PDone (inr (JInt (n + 1))))) /\
              blobs t' !! stats_path = Some (json_dumps (stats_doc (n + 1))) /\
              length (tcommits t') = (length (tcommits t) + 2)%nat) /\
  (exists t', text_interleave [true; false; true; false; true; false] t
                (TProg update_view_count_prog) (TProg update_view_count_prog) =
              (t', TProg (PDone (inr (JInt (n + 1)))), raised 409) /\
              blobs t' !! stats_path = Some (json_dumps (stats_doc (n + 1))) /\
              length (tcommits t') = (length (tcommits t) + 1)%nat).
Proof.
  intros Hf Hb. set (c1 := json_dumps (stats_doc (n + 1))).
  set (t1 := text_write t stats_path c1 "Increment view count" Updated).
  assert (Hf1 : tfault t1 = None) by done.
  assert (Hb1 : blobs t1 !! stats_path = Some c1) by apply text_write_lookup.
  split.
  - exists (text_write t1 stats_path c1 "Increment view count" Updated).
    cbn [text_interleave]. rewrite !(step_visit_load t n Hf Hb), (step_get _ _ _ _ _ _ Hf Hb).
    cbn [text_interleave]. rewrite (step_update_current _ _ _ _ _ _ Hf Hb).
    cbn [text_interleave]. rewrite (step_get _ _ _ _ _ _ Hf1 Hb1).
    cbn [text_interleave]. rewrite (step_update_current _ _ _ _ _ _ Hf1 Hb1).
    split_and!; [done|apply text_write_lookup|]. unfold t1. rewrite !text_write_commits. lia.
  - exists t1.
    cbn [text_interleave]. rewrite !(step_visit_load t n Hf Hb), !(step_get _ _ _ _ _ _ Hf Hb).
    cbn [text_interleave]. rewrite (step_update_current _ _ _ _ _ _ Hf Hb).
    cbn [text_interleave]. rewrite (step_update_stale _ _ _ _ _ _ _ Hf1 Hb1 (stats_doc_text_changes n)).
    split_and!; [done|done|]. unfold t1. rewrite text_write_commits. lia.
Qed.

(** A handler that saves well-formed documents ends on the text
    repository as on the document repository. *)
Lemma run_prog_text_refines {A} (t : TextRepo) (r : Repo) (m : Prog A) :
  text_refines t r -> saves_wf r m ->
  match run_prog t m, run_prog r m with
  | inr (a, t'), inr (a', r') => a = a' /\ text_refines t' r'
  | inl e, inl e' => e = e'
  | _, _ => False
  end.
Proof.
  revert t r. induction m as [p k IH | p d msg k IH | res]; intros t r Hr Hw; cbn [run_prog saves_wf] in *.
  - change (load_json t p) with (text_load_json t p). change (load_json r p) with (github_load_json r p).
    rewrite (text_load_refines t r p Hr). destruct (github_load_json r p); [done|]. by apply IH.
  - destruct Hw as [Hd Hw].
    change (save_json t p d msg) with (text_save_json t p d msg). change (save_json r p d msg) with (github_save_json r p d msg).
    pose proof (text_save_refines t r p d msg Hr Hd) as Hs. unfold save_corresponds in Hs.
    destruct (text_save_json t p d msg), (github_save_json r p d msg); try contradiction; [by subst|]. by apply IH.
  - by destruct res.
Qed.

Module Scenarios.

Definition text_views (n : Z) : TextRepo := mkTextRepo (<[stats_path := json_dumps (stats_doc n)]> ∅) [] None.

Lemma sha_check_misses_lost_update_witness :
  tfault (text_views 41) = None /\ blobs (text_views 41) !! stats_path = Some (json_dumps (stats_doc 41)) /\
  (exists t', text_interleave [true; false; true; true; false; false] (text_views 41)
                (TProg update_view_count_prog) (TProg update_view_count_prog) =
              (t', TProg (PDone (inr (JInt (41 + 1)))), TProg (PDone (inr (JInt (41 + 1))))) /\
              blobs t' !! stats_path = Some (json_dumps (stats_doc (41 + 1))) /\
              length (tcommits t') = (length (tcommits (text_views 41)) + 2)%nat) /\
  (exists t', text_interleave [true; false; true; false; true; false] (text_views 41)
                (TProg update_view_count_prog) (TProg update_view_count_prog) =
              (t', TProg (PDone (inr (JInt (41 + 1)))), raised 409) /\
              blobs t' !! stats_path = Some (json_dumps (stats_doc (41 + 1))) /\
              length (tcommits t') = (length (tcommits (text_views 41)) + 1)%nat).
Proof.
  split; [reflexivity|]. split; [reflexivity|].
  exact (sha_check_misses_lost_update (text_views 41) 41 eq_refl eq_refl).
Defined.

Lemma text_views_refines : text_refines (text_views 41) (Race.Scenarios.repo_views 41).
Proof. split_and!; [reflexivity..|]. apply map_Forall_insert_2; [reflexivity|apply map_Forall_empty]. Qed.

End Scenarios.
