(* ===== verification/TextPage.v ===== *)
(** * Whole runs of the app on the repository of text

    [Page] runs app.py against any [DocumentStore]. This file relates a
    run on the repository as GitHub holds it ([TextStore.TextRepo], files
    of JSON text, [json.loads] and [json.dumps] in [load_json] and
    [save_json]) to the same run on the repository of documents
    ([Storage.Repo]): [world_rel] relates two worlds whose stores are
    related by [text_refines] and whose model clients and pages are the
    same, and [script_sim P m1 m2] says that from related worlds whose
    client satisfies [P], the two scripts end the same way in related
    worlds. The rules of [script_sim] are those of a relational program
    logic over the state monad of [Page]: one per primitive ([draw],
    [halt], [raise_], [load], [save], [store_op], [with_client]) and the
    bind rule, whose continuation may use what the first script returned
    (a loaded document is well formed, a value is the one [raise_] was
    given, a report is the one the client wrote).

    The one condition on the inputs is that the strings the run writes
    into a document are valid UTF-8, as the [str] of Python they stand
    for: the URL typed in the feed tab, and the report the model client
    gives. Under it every run of the script, on every request, shows the
    same page and ends the same way on both repositories, and leaves them
    related. *)

From S2P Require Import Prelude Datetime Collector Backend Reporter Storage App Page JsonText TextStore Race TextRace.
From stdpp Require Import gmap.

Local Open Scope string_scope.

(** ** Related worlds and scripts *)

Section Sim.
Context {B : Type} `{ModelBackend B}.

Definition world_rel (w1 : World TextRepo B) (w2 : World Repo B) : Prop :=
  text_refines (store w1) (store w2) /\ client w1 = client w2 /\ shown w1 = shown w2.

(** From related worlds whose client satisfies [P], the two scripts end
    the same way, in related worlds. *)
Definition script_sim {A} (P : B -> Prop) (m1 : Script TextRepo B A) (m2 : Script Repo B A) : Prop :=
  forall w1 w2, world_rel w1 w2 -> P (client w2) -> (m1 w1).1 = (m2 w2).1 /\ world_rel (m1 w1).2 (m2 w2).2.

(** The client writes reports that are valid UTF-8, as a Python [str]
    is, for every list of items. *)
Definition report_ok (nc : NewsCollector) (b : B) : Prop :=
  forall items, utf8_valid (generate_report nc items b).1 = true.

(** A script that leaves the model client as it was. *)
Definition client_fixed {S A} (m : Script S B A) : Prop := forall w, client (m w).2 = client w.

End Sim.

(** ** Well-formed documents stay well formed *)

Lemma keys_distinct_snoc (ks : list string) (k : string) :
  keys_distinct ks = true -> existsb (String.eqb k) ks = false -> keys_distinct (ks ++ [k])%list = true.
Proof.
  induction ks as [|k' ks IH]; [done|]. cbn [app keys_distinct existsb].
  intros [Hn Hd]%andb_true_iff [Hk Hr]%orb_false_iff. apply negb_true_iff in Hn.
  rewrite existsb_app, Hn. cbn [existsb]. rewrite String.eqb_sym, Hk. cbn. by apply IH.
Qed.

Lemma map_fst_dict_set (kvs : list (string * Json)) (k : string) (v : Json) :
  map fst (dict_set kvs k v) = if existsb (String.eqb k) (map fst kvs) then map fst kvs else (map fst kvs ++ [k])%list.
Proof.
  induction kvs as [|[k' v'] kvs IH]; [done|]. cbn [dict_set map fst existsb].
  rewrite (String.eqb_sym k k'). destruct (String.eqb k' k) eqn:E; [by apply String.eqb_eq in E as ->|].
  cbn [map fst orb]. rewrite IH. by destruct (existsb _ _).
Qed.

Lemma dict_set_wf (kvs : list (string * Json)) (k : string) (v : Json) :
  json_wf (JObj kvs) = true -> utf8_valid k = true -> json_wf v = true -> json_wf (JObj (dict_set kvs k v)) = true.
Proof.
  cbn [json_wf]. intros [Hd Hf]%andb_true_iff Hk Hv. apply andb_true_iff. split.
  - rewrite map_fst_dict_set. destruct (existsb _ _) eqn:E; [done|]. by apply keys_distinct_snoc.
  - clear Hd. induction kvs as [|[k' v'] kvs IH]; cbn [dict_set forallb]; [by rewrite Hk, Hv|].
    cbn [forallb] in Hf. apply andb_true_iff in Hf as [Hkv Hf].
    destruct (String.eqb k' k); cbn [forallb]; rewrite ?Hkv, ?IH by done; [|done].
    apply andb_true_iff in Hkv as [-> _]. by rewrite Hv, Hf.
Qed.

Lemma py_setitem_wf (d d' : Json) (k : string) (v : Json) :
  json_wf d = true -> utf8_valid k = true -> json_wf v = true -> py_setitem d k v = inr d' -> json_wf d' = true.
Proof. intros Hd Hk Hv. destruct d; try discriminate. intros [= <-]. by apply dict_set_wf. Qed.

Lemma py_append_wf (d d' v : Json) :
  json_wf d = true -> json_wf v = true -> py_append d v = inr d' -> json_wf d' = true.
Proof.
  intros Hd Hv. destruct d; try discriminate. intros [= <-]. cbn [json_wf] in *.
  by rewrite forallb_app, Hd; cbn [forallb]; rewrite Hv.
Qed.

Lemma forallb_delete {A} (f : A -> bool) (xs : list A) (i : nat) :
  forallb f xs = true -> forallb f (delete i xs) = true.
Proof.
  revert i. induction xs as [|x xs IH]; intros [|i]; cbn [delete list_delete forallb]; try done;
    intros [Hx Hxs]%andb_true_iff; [done|]. rewrite Hx. by apply IH.
Qed.

Lemma py_pop_wf (d d' : Json) (i : nat) : json_wf d = true -> py_pop d i = inr d' -> json_wf d' = true.
Proof.
  intros Hd. destruct d; try discriminate. cbn [py_pop]. case_decide; [|discriminate]. intros [= <-].
  by apply forallb_delete.
Qed.

Lemma default_document_wf (p : string) : json_wf (default_document p) = true.
Proof. unfold default_document. by repeat case_match. Qed.

(** What [load_json] returns from a repository of well-formed documents
    is well formed. *)
Lemma github_load_wf (r : Repo) (p : string) (d : Json) :
  map_Forall (fun _ d => json_wf d = true) (files r) -> github_load_json r p = inr d -> json_wf d = true.
Proof.
  intros Hw. unfold github_load_json. destruct (get_contents r p) as [status|d'] eqn:E.
  - case_match; [intros [= <-]; apply default_document_wf|discriminate].
  - intros [= <-]. exact (get_contents_wf r p d' Hw E).
Qed.

Lemma utf8_valid_pad2 (n : Z) : utf8_valid (pad2 n) = true.
Proof. unfold pad2. case_match; [|apply utf8_valid_z]. apply utf8_valid_app_true; [done|apply utf8_valid_z]. Qed.

Lemma utf8_valid_strftime_ymd_hm (t : Z) : utf8_valid (strftime_ymd_hm t) = true.
Proof.
  unfold strftime_ymd_hm. destruct (split_datetime t) as [[[[[y m] d] hh] mm] ss].
  repeat apply utf8_valid_app_true; auto using utf8_valid_z, utf8_valid_pad2.
Qed.

(** [update_view_count] saves a well-formed document. *)
Lemma saves_wf_view_count (r : Repo) :
  map_Forall (fun _ d => json_wf d = true) (files r) -> saves_wf r update_view_count_prog.
Proof.
  intros Hw. cbn [update_view_count_prog saves_wf]. destruct (github_load_json r stats_path) as [|stats] eqn:E; [done|].
  cbn [pbind]. destruct (py_getitem stats _) as [|v]; [done|]. cbn [pbind].
  destruct (py_add_one v) as [|v'] eqn:A; [done|]. cbn [pbind].
  destruct (py_setitem stats _ _) as [|stats'] eqn:St; [done|]. cbn [pbind saves_wf].
  split; [|by destruct (github_save_json _ _ _ _)].
  apply (py_setitem_wf stats stats' "total_views" v'); [exact (github_load_wf r _ _ Hw E)|reflexivity| |exact St].
  destruct v; inversion A; reflexivity.
Qed.

(** ** The rules of the relational logic *)

Section Rules.
Context {B : Type} `{ModelBackend B}.
Implicit Types (P Q : B -> Prop).

Lemma keeps_client_fixed {S A} (m : Script S B A) : keeps m -> client_fixed m.
Proof. intros Hk w. apply Hk. Qed.

Lemma client_fixed_bind {S A C} (m : Script S B A) (k : A -> Script S B C) :
  client_fixed m -> (forall a, client_fixed (k a)) -> client_fixed (m ≫= k).
Proof.
  intros Hm Hk w. rewrite bind_unfold. specialize (Hm w).
  destruct (m w) as [[h|a] w']; cbn in *; [done|]. by rewrite Hk.
Qed.

Lemma client_fixed_store_op {S A} (f : S -> PyExc + (A * S)) : client_fixed (store_op f : Script S B A).
Proof. intros w. unfold store_op. by destruct (f (store w)) as [|[]]. Qed.

Lemma client_fixed_save {S} `{DocumentStore S} (p : string) (d : Json) (m : string) :
  client_fixed (save p d m : Script S B unit).
Proof. apply client_fixed_store_op. Qed.

Lemma world_rel_draw (w1 : World TextRepo B) (w2 : World Repo B) (x : Widget) :
  world_rel w1 w2 -> world_rel (mkWorld (store w1) (client w1) (shown w1 ++ [x])) (mkWorld (store w2) (client w2) (shown w2 ++ [x])).
Proof. intros (Hr & Hc & Hs). unfold world_rel. cbn. by rewrite Hc, Hs. Qed.

Lemma world_rel_store (w1 : World TextRepo B) (w2 : World Repo B) (t : TextRepo) (r : Repo) :
  world_rel w1 w2 -> text_refines t r -> world_rel (set_store w1 t) (set_store w2 r).
Proof. intros (_ & Hc & Hs) Hr. by split_and!. Qed.

Lemma sim_weaken {A} P Q (m1 : Script TextRepo B A) (m2 : Script Repo B A) :
  (forall b, P b -> Q b) -> script_sim Q m1 m2 -> script_sim P m1 m2.
Proof. intros HPQ Hm w1 w2 Hw HP. by apply Hm, HPQ. Qed.

Lemma sim_ret {A} P (a : A) : script_sim P (mret a) (mret a).
Proof. done. Qed.

Lemma sim_halt {A} P (h : Halt) : script_sim P (halt h : Script _ _ A) (halt h).
Proof. done. Qed.

Lemma sim_draw P (x : Widget) : script_sim P (draw x) (draw x).
Proof. intros w1 w2 Hw _. split; [done|]. by apply world_rel_draw. Qed.

(** The bind rule: the continuation runs from the client the first
    script leaves. *)
Lemma sim_bind_gen {A C} P Q (m1 : Script TextRepo B A) (m2 : Script Repo B A)
    (k1 : A -> Script TextRepo B C) (k2 : A -> Script Repo B C) :
  script_sim P m1 m2 -> (forall w, P (client w) -> Q (client (m2 w).2)) ->
  (forall a, script_sim Q (k1 a) (k2 a)) -> script_sim P (m1 ≫= k1) (m2 ≫= k2).
Proof.
  intros Hm HQ Hk w1 w2 Hw HP. rewrite !bind_unfold.
  destruct (Hm w1 w2 Hw HP) as [Hr Hw']. specialize (HQ w2 HP).
  destruct (m1 w1) as [r1 w1'], (m2 w2) as [[h|a] w2']; cbn in *; subst r1; [done|]. by apply Hk.
Qed.

Lemma sim_bind {A C} P (m1 : Script TextRepo B A) (m2 : Script Repo B A)
    (k1 : A -> Script TextRepo B C) (k2 : A -> Script Repo B C) :
  client_fixed m2 -> script_sim P m1 m2 -> (forall a, script_sim P (k1 a) (k2 a)) ->
  script_sim P (m1 ≫= k1) (m2 ≫= k2).
Proof. intros Hf Hm. apply sim_bind_gen; [done|]. intros w. by rewrite Hf. Qed.

Lemma sim_bind_true {A C} P (m1 : Script TextRepo B A) (m2 : Script Repo B A)
    (k1 : A -> Script TextRepo B C) (k2 : A -> Script Repo B C) :
  script_sim P m1 m2 -> (forall a, script_sim (fun _ => True) (k1 a) (k2 a)) ->
  script_sim P (m1 ≫= k1) (m2 ≫= k2).
Proof. intros Hm. by apply sim_bind_gen. Qed.

Lemma sim_assoc {A A' C} P (m1 : Script TextRepo B A) (f1 : A -> Script TextRepo B A') (g1 : A' -> Script TextRepo B C)
    (m2 : Script Repo B A) (f2 : A -> Script Repo B A') (g2 : A' -> Script Repo B C) :
  script_sim P (m1 ≫= fun x => f1 x ≫= g1) (m2 ≫= fun x => f2 x ≫= g2) ->
  script_sim P ((m1 ≫= f1) ≫= g1) ((m2 ≫= f2) ≫= g2).
Proof. intros Hs w1 w2. rewrite !bind_assoc. apply Hs. Qed.

Lemma sim_halt_bind {A C} P (h : Halt) (k1 : A -> Script TextRepo B C) (k2 : A -> Script Repo B C) :
  script_sim P (halt h ≫= k1) (halt h ≫= k2).
Proof. done. Qed.

Lemma sim_ret_bind {A C} P (a : A) (k1 : A -> Script TextRepo B C) (k2 : A -> Script Repo B C) :
  script_sim P (k1 a) (k2 a) -> script_sim P (mret a ≫= k1) (mret a ≫= k2).
Proof. done. Qed.

Lemma sim_draw_bind {C} P (x : Widget) (k1 : unit -> Script TextRepo B C) (k2 : unit -> Script Repo B C) :
  script_sim P (k1 tt) (k2 tt) -> script_sim P (draw x ≫= k1) (draw x ≫= k2).
Proof. intros Hk w1 w2 Hw HP. rewrite !bind_draw. apply Hk; [by apply world_rel_draw|done]. Qed.

Lemma sim_raise_bind {A C} P (r : PyExc + A) (k1 : A -> Script TextRepo B C) (k2 : A -> Script Repo B C) :
  (forall a, r = inr a -> script_sim P (k1 a) (k2 a)) -> script_sim P (raise_ r ≫= k1) (raise_ r ≫= k2).
Proof. intros Hk w1 w2 Hw HP. rewrite !bind_raise. destruct r as [e|a]; [done|]. by apply Hk. Qed.

(** A loaded document is well formed: [json.loads] of the stored text
    gives the stored document, or the default one. *)
Lemma sim_load_bind {C} P (p : string) (k1 : Json -> Script TextRepo B C) (k2 : Json -> Script Repo B C) :
  (forall d, json_wf d = true -> script_sim P (k1 d) (k2 d)) -> script_sim P (load p ≫= k1) (load p ≫= k2).
Proof.
  intros Hk w1 w2 Hw HP. rewrite !bind_load. pose proof Hw as [Hr _].
  change (load_json (store w1) p) with (text_load_json (store w1) p).
  change (load_json (store w2) p) with (github_load_json (store w2) p).
  rewrite (text_load_refines _ _ p Hr). destruct (github_load_json (store w2) p) as [e|d] eqn:E; [done|].
  apply Hk; [|done..]. exact (github_load_wf _ _ _ (proj2 (proj2 (proj2 Hr))) E).
Qed.

Lemma sim_save_bind {C} P (p : string) (d : Json) (m : string)
    (k1 : unit -> Script TextRepo B C) (k2 : unit -> Script Repo B C) :
  json_wf d = true -> script_sim P (k1 tt) (k2 tt) -> script_sim P (save p d m ≫= k1) (save p d m ≫= k2).
Proof.
  intros Hd Hk w1 w2 Hw HP. rewrite !bind_save. pose proof (text_save_refines _ _ p d m (proj1 Hw) Hd) as Hs.
  change (save_json (store w1) p d m) with (text_save_json (store w1) p d m).
  change (save_json (store w2) p d m) with (github_save_json (store w2) p d m).
  unfold save_corresponds in Hs.
  destruct (text_save_json _ _ _ _), (github_save_json _ _ _ _); try contradiction; [by subst|].
  apply Hk; [by apply world_rel_store|done].
Qed.

(** The model client is the same on both sides: the call gives the same
    value, and the continuation runs from the client it leaves. *)
Lemma sim_with_client_bind {A C} P (f : B -> A * B) (k1 : A -> Script TextRepo B C) (k2 : A -> Script Repo B C) :
  (forall b, P b -> script_sim (fun _ => True) (k1 (f b).1) (k2 (f b).1)) ->
  script_sim P (with_client f ≫= k1) (with_client f ≫= k2).
Proof.
  intros Hk w1 w2 Hw HP. rewrite !bind_with_client. pose proof Hw as (Hr & Hc & Hs). rewrite Hc.
  apply Hk; [done| |done]. unfold world_rel. cbn. by rewrite Hs.
Qed.

Lemma sim_view_count_bind {C} P (k1 : Json -> Script TextRepo B C) (k2 : Json -> Script Repo B C) :
  (forall v, script_sim P (k1 v) (k2 v)) ->
  script_sim P (store_op update_view_count ≫= k1) (store_op update_view_count ≫= k2).
Proof.
  intros Hk w1 w2 Hw HP. unfold mbind, script_bind, store_op.
  rewrite <- (run_prog_update_view_count (store w1)), <- (run_prog_update_view_count (store w2)).
  pose proof (run_prog_text_refines _ _ _ (proj1 Hw) (saves_wf_view_count _ (proj2 (proj2 (proj2 (proj1 Hw)))))) as Hc.
  destruct (run_prog (store w1) _) as [e|[v t']], (run_prog (store w2) _) as [e'|[v' r']]; try contradiction.
  - by subst.
  - destruct Hc as [<- Hc]. apply Hk; [by apply world_rel_store|done].
Qed.

End Rules.

Create HintDb client discriminated.
#[export] Hint Resolve client_fixed_bind client_fixed_store_op client_fixed_save keeps_client_fixed : client.
#[export] Hint Extern 1 (client_fixed (match ?c with _ => _ end)) => destruct c : client.

(** The document a Python operation built from well-formed parts is
    well formed. *)
Ltac doc_wf :=
  lazymatch goal with
  | Ha : py_append ?d ?v = inr ?d' |- json_wf ?d' = true => refine (py_append_wf d d' v _ _ Ha)
  | Ha : py_pop ?d ?i = inr ?d' |- json_wf ?d' = true => refine (py_pop_wf d d' i _ Ha)
  | Ha : py_setitem ?d ?k ?v = inr ?d' |- json_wf ?d' = true => refine (py_setitem_wf d d' k v _ _ _ Ha)
  end;
  cbn [json_wf];
  solve [auto using utf8_valid_strftime_ymd_hm | match goal with Hb : report_ok _ _ |- _ => apply Hb end].

(** Take the matched steps at the head of two runs of one script. *)
Ltac sim_step :=
  cbv beta iota zeta;
  lazymatch goal with
  | |- script_sim _ ((_ ≫= _) ≫= _) _ => apply sim_assoc
  | |- script_sim _ (draw _ ≫= _) _ => apply sim_draw_bind
  | |- script_sim _ (halt _ ≫= _) _ => apply sim_halt_bind
  | |- script_sim _ (mret _ ≫= _) _ => apply sim_ret_bind
  | |- script_sim _ (load _ ≫= _) _ => apply sim_load_bind; intros ?d ?Hwf
  | |- script_sim _ (raise_ _ ≫= _) _ => apply sim_raise_bind; intros ?a ?Ha
  | |- script_sim _ (store_op update_view_count ≫= _) _ => apply sim_view_count_bind; intros ?v
  | |- script_sim _ (save _ _ _ ≫= _) _ => apply sim_save_bind; [doc_wf|]
  | |- script_sim _ (with_client _ ≫= _) _ => apply sim_with_client_bind; intros ?b ?Hb
  | |- script_sim _ (mret _) _ => apply sim_ret
  | |- script_sim _ (draw _) _ => apply sim_draw
  | |- script_sim _ (halt _) _ => apply sim_halt
  | |- script_sim _ (match ?c with _ => _ end ≫= _) _ => destruct c
  | |- script_sim _ (match ?c with _ => _ end) _ => destruct c
  end.

Ltac sim_auto := repeat sim_step.

(** ** The page scripts *)

Section Pages.
Context {B : Type} `{ModelBackend B}.
Variable cfg : Config.
Variable utc_offset : Z.
Variable parse : string -> PyExc + Feed.
Variables now1 now2 : Z.
Implicit Types (P : B -> Prop).

Lemma newsroom_sim P (req : Request) : script_sim P (newsroom req) (newsroom req).
Proof. unfold newsroom. sim_auto. Qed.

Lemma add_clicked_sim P (feeds : Json) (x : string) :
  json_wf feeds = true -> utf8_valid x = true -> script_sim P (add_clicked feeds x) (add_clicked feeds x).
Proof. intros Hf Hx. unfold add_clicked. sim_auto. Qed.

Lemma feed_rows_sim P (req : Request) (feeds : Json) (i : nat) (rows : list Json) :
  json_wf feeds = true -> script_sim P (feed_rows req feeds i rows) (feed_rows req feeds i rows).
Proof.
  intros Hf. revert i. induction rows as [|feed rows IH]; intros i; cbn [feed_rows]; sim_auto. apply IH.
Qed.

Lemma feed_rows_client_fixed {S} `{DocumentStore S} (req : Request) (feeds : Json) (i : nat) (rows : list Json) :
  client_fixed (feed_rows req feeds i rows : Script S B unit).
Proof. revert i. induction rows as [|feed rows IH]; intros i; cbn [feed_rows]; eauto 20 with client page. Qed.

#[local] Hint Resolve feed_rows_client_fixed : client.

Lemma add_clicked_client_fixed {S} `{DocumentStore S} (feeds : Json) (x : string) :
  client_fixed (add_clicked feeds x : Script S B unit).
Proof. unfold add_clicked. repeat (apply client_fixed_bind; intros); eauto 30 with client page. Qed.

Lemma feed_tab_client_fixed {S} `{DocumentStore S} (req : Request) : client_fixed (feed_tab req : Script S B unit).
Proof. unfold feed_tab, add_clicked. repeat (apply client_fixed_bind; intros); eauto 30 with client page. Qed.

Lemma feed_tab_sim P (req : Request) :
  (click req = ClickAdd -> utf8_valid (feed_input req) = true) -> script_sim P (feed_tab req) (feed_tab req).
Proof.
  intros Hin. unfold feed_tab. destruct (click req) eqn:Ec; sim_auto.
  all: try (apply sim_bind; [apply add_clicked_client_fixed|by apply add_clicked_sim, Hin|intros []; sim_auto]).
  all: by apply feed_rows_sim.
Qed.

Lemma run_tab_sim (nc : NewsCollector) (req : Request) :
  script_sim (report_ok nc) (run_tab utc_offset parse now1 now2 nc req) (run_tab utc_offset parse now1 now2 nc req).
Proof. unfold run_tab. sim_auto. Qed.

Lemma stats_tab_sim P : script_sim P stats_tab stats_tab.
Proof. unfold stats_tab. sim_auto. Qed.

Lemma dashboard_sim (nc : NewsCollector) (req : Request) :
  (click req = ClickAdd -> utf8_valid (feed_input req) = true) ->
  script_sim (report_ok nc) (dashboard cfg utc_offset parse now1 now2 nc req) (dashboard cfg utc_offset parse now1 now2 nc req).
Proof.
  intros Hin. unfold dashboard. sim_auto.
  apply sim_bind; [apply feed_tab_client_fixed|by apply feed_tab_sim|intros []].
  apply sim_bind_true; [apply run_tab_sim|intros []; apply stats_tab_sim].
Qed.

Lemma app_script_sim (init : PyExc + NewsCollector) (req : Request) :
  (click req = ClickAdd -> utf8_valid (feed_input req) = true) ->
  script_sim (fun b => forall nc, init = inr nc -> report_ok nc b)
    (app_script cfg utc_offset parse now1 now2 init req) (app_script cfg utc_offset parse now1 now2 init req).
Proof.
  intros Hin. unfold app_script, app_init. sim_auto; [apply newsroom_sim|].
  eapply sim_weaken; [|by apply dashboard_sim]. cbn. eauto.
Qed.

(** C35. Refinement of whole runs: on a text repository that holds
    [json.dumps] of the documents of a document repository, with the same
    model client and the same page drawn so far, a run of app.py on any
    request shows the same widgets, ends the same way (returns, stops,
    asks for a rerun or raises the same exception) and leaves two
    repositories that still correspond, with the same client. The
    condition is that the strings written into a document are valid
    UTF-8: the URL of the add button and every report the client gives. *)
Theorem app_run_text_refines (req : Request) (w1 : World TextRepo B) (w2 : World Repo B) :
  world_rel w1 w2 ->
  (click req = ClickAdd -> utf8_valid (feed_input req) = true) ->
  (forall nc, init_collector cfg = inr nc -> report_ok nc (client w2)) ->
  (app_run cfg utc_offset parse now1 now2 req w1).1 = (app_run cfg utc_offset parse now1 now2 req w2).1 /\
  world_rel (app_run cfg utc_offset parse now1 now2 req w1).2 (app_run cfg utc_offset parse now1 now2 req w2).2.
Proof. intros Hw Hin Hr. exact (app_script_sim (init_collector cfg) req Hin w1 w2 Hw Hr). Qed.

End Pages.

(** ** Reports of a client that ignores the prompt

    A recording client whose answer does not depend on the prompt gives
    the same report for every non-empty list of items: the loop of
    [try_models] sees the same answers. *)

Lemma try_ids_respond (q : string) (ids : list string) (le : option PyExc) (r : Recorder) :
  rec_respond (try_ids q ids le r).2 = rec_respond r.
Proof.
  revert le r. induction ids as [|id ids IH]; intros le r; [done|].
  cbn [try_ids]. unfold attempt. cbn [generate_content recorder_backend].
  destruct (rec_respond r id q) as [e|resp]; [destruct (is_retryable e)|destruct (response_text resp) as [t|];
    [destruct (String.eqb t "")|]]; cbn [fst snd]; rewrite ?IH; done.
Qed.

Section PromptFree.
Variables p p' : string.

Lemma try_ids_prompt_free (ids : list string) (le : option PyExc) (r r' : Recorder) :
  rec_respond r = rec_respond r' -> (forall m, rec_respond r m p = rec_respond r m p') ->
  (try_ids p ids le r).1 = (try_ids p' ids le r').1.
Proof.
  revert le r r'. induction ids as [|id ids IH]; intros le r r' Hr Hp; [done|].
  cbn [try_ids]. unfold attempt. cbn [generate_content recorder_backend]. rewrite Hp, <- Hr.
  destruct (rec_respond r id p') as [e|resp]; [destruct (is_retryable e)|destruct (response_text resp) as [t|];
    [destruct (String.eqb t "")|]]; cbn [fst snd]; try done; by apply IH.
Qed.

Lemma try_models_prompt_free (trial : list string) (le : option PyExc) (r r' : Recorder) :
  rec_respond r = rec_respond r' -> (forall m, rec_respond r m p = rec_respond r m p') ->
  (try_models p trial le r).1 = (try_models p' trial le r').1.
Proof.
  revert le r r'. induction trial as [|mid trial IH]; intros le r r' Hr Hp; [done|]. cbn [try_models].
  pose proof (try_ids_prompt_free (id_spellings mid) le r r' Hr Hp) as Hs.
  pose proof (try_ids_respond p (id_spellings mid) le r) as H1.
  pose proof (try_ids_respond p' (id_spellings mid) le r') as H2.
  destruct (try_ids p _ le r) as [[o|le1] r1], (try_ids p' _ le r') as [st' r1']; cbn in Hs, H1, H2; subst st'; [done|].
  apply IH; [congruence|]. by rewrite H1.
Qed.

End PromptFree.

Lemma generate_report_prompt_free (nc : NewsCollector) (x y : NewsItem) (xs ys : list NewsItem) (r : Recorder) :
  (forall m q q', rec_respond r m q = rec_respond r m q') ->
  (generate_report nc (x :: xs) r).1 = (generate_report nc (y :: ys) r).1.
Proof.
  intros Hq. cbn [generate_report]. unfold discover_models. cbn [models_list recorder_backend].
  pose proof (try_models_prompt_free (build_prompt (news_context (x :: xs))) (build_prompt (news_context (y :: ys)))
    (merge_trial_models (candidate_models nc) (account_models_of (rec_listing r))) None
    (log_call r CallList) (log_call r CallList) eq_refl (fun m => Hq m _ _)) as E.
  do 2 destruct (try_models _ _ None (log_call r CallList)). cbn in *. by subst.
Qed.

Lemma report_ok_prompt_free (nc : NewsCollector) (r : Recorder) (x : NewsItem) :
  (forall m q q', rec_respond r m q = rec_respond r m q') ->
  utf8_valid (generate_report nc [] r).1 = true -> utf8_valid (generate_report nc [x] r).1 = true ->
  report_ok nc r.
Proof.
  intros Hq H0 H1 [|y ys]; [done|]. by rewrite (generate_report_prompt_free nc y x ys [] r Hq).
Qed.

Module Scenarios.
Local Open Scope string_scope.

(** The statistics file holding 41 visits, as text and as a document, and
    the recording client of [App.Scenarios], whose answers ignore the
    prompt. *)
Definition text_world : World TextRepo Recorder := mkWorld (TextRace.Scenarios.text_views 41) App.Scenarios.rec0 [].
Definition doc_world : World Repo Recorder := mkWorld (Race.Scenarios.repo_views 41) App.Scenarios.rec0 [].

Lemma rec0_report_ok : report_ok Page.Scenarios.nc0 App.Scenarios.rec0.
Proof. apply (report_ok_prompt_free _ _ Reporter.Scenarios.item1); [reflexivity|vm_compute; reflexivity..]. Qed.

Lemma app_run_text_refines_witness :
  (app_run Page.Scenarios.cfg0 0 Collector.Scenarios.parse_demo App.Scenarios.now1 App.Scenarios.now2
     Page.Scenarios.add_new text_world).1 =
  (app_run Page.Scenarios.cfg0 0 Collector.Scenarios.parse_demo App.Scenarios.now1 App.Scenarios.now2
     Page.Scenarios.add_new doc_world).1 /\
  world_rel
    (app_run Page.Scenarios.cfg0 0 Collector.Scenarios.parse_demo App.Scenarios.now1 App.Scenarios.now2
       Page.Scenarios.add_new text_world).2
    (app_run Page.Scenarios.cfg0 0 Collector.Scenarios.parse_demo App.Scenarios.now1 App.Scenarios.now2
       Page.Scenarios.add_new doc_world).2.
Proof.
  apply app_run_text_refines.
  - split; [exact TextRace.Scenarios.text_views_refines|split; reflexivity].
  - intros _. vm_compute. reflexivity.
  - intros nc Hi. assert (Hc : init_collector Page.Scenarios.cfg0 = inr Page.Scenarios.nc0) by reflexivity.
    rewrite Hc in Hi. injection Hi as <-. exact rec0_report_ok.
Defined.

End Scenarios.
